(** * Parabolic ramps and curves of the ramp optimizer

    A shallow embedding of [plugins/rplanners/rampoptimizer/ramp.cpp]:
    the constant-acceleration [Ramp], the single-axis [ParabolicCurve]
    and the multi-axis [ParabolicCurvesND].

    The C++ type [Real] (a double) is modelled by the canonical rationals
    [Qc]: arithmetic is exact, equality is Leibniz equality and every
    definition computes.  The properties are stated with the operations
    and comparisons that the code itself performs, in its order; where an
    outcome depends on rounding, the operations are run on binary64
    numbers (module [Binary64]).

    A failed [BOOST_ASSERT] / [RAMP_OPTIM_ASSERT] is the result
    [AssertFail]; an access to a vector outside its bounds (undefined
    behaviour in C++) is the result [OutOfRange], carrying the name of the
    vector and the index. *)

From Stdlib Require Import QArith Qcanon Lqa ZArith List String Bool Lia Floats.
Import ListNotations.

Open Scope Qc_scope.

(** ** Numbers *)

(** [typedef dReal Real]. *)
Abbreviation Real := Qc (only parsing).

(** [x <= y] and [x < y] of the C++ code, as booleans. *)
Definition Rleb (x y : Real) : bool := Qle_bool (this x) (this y).
Definition Rltb (x y : Real) : bool := negb (Rleb y x).

(** The literal [0.5]. *)
Definition half : Real := Q2Qc (1 # 2).

(** Modelled from the spec: [ramp.h] is missing; [Abs], [Min] and [Max]
    are the usual absolute value, minimum and maximum on [Real]. *)
Definition Abs (x : Real) : Real := if Rltb x 0 then - x else x.
Definition Min (x y : Real) : Real := if Rltb x y then x else y.
Definition Max (x y : Real) : Real := if Rltb y x then x else y.

(** Modelled from the spec: [ramp.h] is missing; fuzzy equality is
    "numeric equality up to a small tolerance": two numbers are fuzzily
    equal when they differ by no more than the tolerance. *)
Definition FuzzyZero (x tol : Real) : bool := Rleb (Abs x) tol.
Definition FuzzyEquals (x y tol : Real) : bool := Rleb (Abs (x - y)) tol.

(** ** Results of operations that can fail *)

Inductive result (A : Type) : Type :=
| Ok (a : A)
| AssertFail
| OutOfRange (vec : string) (index : Z).

Arguments Ok {A} a.
Arguments AssertFail {A}.
Arguments OutOfRange {A} vec index.

Definition bind {A B : Type} (r : result A) (k : A -> result B) : result B :=
  match r with
  | Ok a => k a
  | AssertFail => AssertFail
  | OutOfRange v i => OutOfRange v i
  end.

(** [BOOST_ASSERT(b)]. *)
Definition assert (b : bool) : result unit :=
  if b then Ok tt else AssertFail.

Declare Scope result_scope.
Delimit Scope result_scope with result.
Notation "x <- e ;; k" := (bind e (fun x => k))
  (at level 61, e at next level, right associativity) : result_scope.
Notation "' pat <- e ;; k" :=
  (bind e (fun x => match x with pat => k end))
  (at level 61, pat pattern, e at next level, right associativity)
  : result_scope.
Notation "e ;;; k" := (bind e (fun _ => k))
  (at level 61, right associativity) : result_scope.
Open Scope result_scope.

Definition is_Ok {A : Type} (r : result A) : bool :=
  match r with Ok _ => true | _ => false end.

(** [v[i]] for a [std::vector] and an [int] or [size_t] index. *)
Definition at_index {A : Type} (name : string) (v : list A) (i : Z) : result A :=
  if (i <? 0)%Z then OutOfRange name i
  else match nth_error v (Z.to_nat i) with
       | Some x => Ok x
       | None => OutOfRange name i
       end.

(** [v.front()] and [v.back()]. *)
Definition front {A : Type} (name : string) (v : list A) : result A :=
  at_index name v 0.
Definition back {A : Type} (name : string) (v : list A) : result A :=
  at_index name v (Z.of_nat (List.length v) - 1).

(** ** Ramp *)

Module Ramp.

Record t : Type := mk {
  v0 : Real;
  a : Real;
  duration : Real;
  x0 : Real;
  v1 : Real;
  d : Real;
  x1 : Real
}.

(** The three derived fields, computed as every writer of [duration]
    does: [v1 = v0 + (a*duration)], [d = duration*(v0 + 0.5*a*duration)],
    [x1 = x0 + d]. *)
Definition fill (v0_ a_ dur_ x0_ : Real) : t :=
  let v1_ := v0_ + (a_ * dur_) in
  let d_ := dur_ * (v0_ + half * a_ * dur_) in
  mk v0_ a_ dur_ x0_ v1_ d_ (x0_ + d_).

(** [ramps[i].x0 = newx0], the only write of a single field. *)
Definition set_x0 (r : t) (newx0 : Real) : t :=
  mk (v0 r) (a r) (duration r) newx0 (v1 r) (d r) (x1 r).

Section WithTolerance.
Variable epsilon : Real.

(** [Ramp::Ramp(v0_, a_, dur_, x0_)]. *)
Definition Ramp (v0_ a_ dur_ x0_ : Real) : result t :=
  assert (Rleb (- epsilon) dur_) ;;;
  Ok (fill v0_ a_ dur_ x0_).

(** [Ramp::Initialize]: overwrites every field of the object. *)
Definition Initialize (self : t) (v0_ a_ dur_ x0_ : Real) : result t :=
  assert (Rleb (- epsilon) dur_) ;;;
  Ok (fill v0_ a_ dur_ x0_).

Definition EvalPos (self : t) (t_ : Real) : result Real :=
  assert (Rleb (- epsilon) t_) ;;;
  assert (Rleb t_ (duration self + epsilon)) ;;;
  if Rleb t_ 0 then Ok (x0 self)
  else if Rleb (duration self) t_ then Ok (x1 self)
  else Ok (t_ * (v0 self + half * a self * t_) + x0 self).

Definition EvalVel (self : t) (t_ : Real) : result Real :=
  assert (Rleb (- epsilon) t_) ;;;
  assert (Rleb t_ (duration self + epsilon)) ;;;
  if Rleb t_ 0 then Ok (v0 self)
  else if Rleb (duration self) t_ then Ok (v1 self)
  else Ok (v0 self + (a self * t_)).

Definition EvalAcc (self : t) (t_ : Real) : result Real :=
  assert (Rleb (- epsilon) t_) ;;;
  assert (Rleb t_ (duration self + epsilon)) ;;;
  Ok (a self).

(** [Ramp::GetPeaks(bmin, bmax)]: the pair of the two outputs. *)
Definition GetPeaks (self : t) : result (Real * Real) :=
  if FuzzyZero (a self) epsilon then
    if Rltb 0 (v0 self) then Ok (x0 self, x1 self)
    else Ok (x1 self, x0 self)
  else
    let '(bmin, bmax) :=
      if Rltb 0 (a self) then (x0 self, x1 self)
      else (x1 self, x0 self) in
    let tDeflection := - v0 self / a self in
    if Rleb tDeflection 0 || Rleb (duration self) tDeflection
    then Ok (bmin, bmax)
    else
      xDeflection <- EvalPos self tDeflection ;;
      Ok (Min bmin xDeflection, Max bmax xDeflection).

(** [Ramp::UpdateDuration(newDuration)]. *)
Definition UpdateDuration (self : t) (newDuration : Real) : result t :=
  assert (Rleb (- epsilon) newDuration) ;;;
  let newDuration := if Rltb newDuration 0 then 0 else newDuration in
  Ok (fill (v0 self) (a self) newDuration (x0 self)).

End WithTolerance.

End Ramp.

(** ** ParabolicCurve *)

Module ParabolicCurve.

Record t : Type := mk {
  ramps : list Ramp.t;
  switchpointsList : list Real;
  x0 : Real;
  x1 : Real;
  v0 : Real;
  v1 : Real;
  d : Real;
  duration : Real
}.

(** Modelled from the spec: [ramp.h] is missing; a curve is empty when it
    holds no ramp. *)
Definition IsEmpty (self : t) : bool :=
  match ramps self with [] => true | _ :: _ => false end.

(** The body shared by the three loops that take ramps in:
    [ramps.push_back(r); d = d + ramps.back().d;
     duration = duration + ramps.back().duration;
     switchpointsList.push_back(duration);] *)
Definition push_ramp (self : t) (r : Ramp.t) : t :=
  let d' := d self + Ramp.d r in
  let duration' := duration self + Ramp.duration r in
  mk (ramps self ++ [r]) (switchpointsList self ++ [duration'])
     (x0 self) (x1 self) (v0 self) (v1 self) d' duration'.

(** The loop of [SetInitialValue]:
    [ramps[i].x0 = newx0; newx0 = newx0 + ramps[i].d;] *)
Fixpoint rebase (rs : list Ramp.t) (newx0 : Real) : list Ramp.t :=
  match rs with
  | [] => []
  | r :: rs' => Ramp.set_x0 r newx0 :: rebase rs' (newx0 + Ramp.d r)
  end.

(** [ParabolicCurve::SetInitialValue(newx0)]. *)
Definition SetInitialValue (self : t) (newx0 : Real) : t :=
  mk (rebase (ramps self) newx0) (switchpointsList self)
     newx0 (newx0 + d self) (v0 self) (v1 self) (d self) (duration self).

(** [ParabolicCurve::Reset()]. *)
Definition Reset (self : t) : t := mk [] [] 0 0 0 0 0 0.

(** [ParabolicCurve::ParabolicCurve(rampsIn)].  The fields [x0], [x1],
    [v0] and [v1] of the object under construction hold no value until
    they are assigned; [0] stands for them until then. *)
Definition ParabolicCurve (rampsIn : list Ramp.t) : result t :=
  assert (negb (match rampsIn with [] => true | _ :: _ => false end)) ;;;
  let self := mk [] [0] 0 0 0 0 0 0 in
  let self := fold_left push_ramp rampsIn self in
  f <- front "rampsIn" rampsIn ;;
  b <- back "rampsIn" rampsIn ;;
  let self := mk (ramps self) (switchpointsList self) (x0 self) (x1 self)
                 (Ramp.v0 f) (Ramp.v1 b) (d self) (duration self) in
  r0 <- at_index "rampsIn" rampsIn 0 ;;
  Ok (SetInitialValue self (Ramp.x0 r0)).

(** [ParabolicCurve::Initialize(rampsIn)]. *)
Definition Initialize (self : t) (rampsIn : list Ramp.t) : result t :=
  let self := mk [] [0] (x0 self) (x1 self) (v0 self) (v1 self) 0 0 in
  f <- front "rampsIn" rampsIn ;;
  b <- back "rampsIn" rampsIn ;;
  let self := mk (ramps self) (switchpointsList self) (x0 self) (x1 self)
                 (Ramp.v0 f) (Ramp.v1 b) (d self) (duration self) in
  let self := fold_left push_ramp rampsIn self in
  r0 <- at_index "rampsIn" rampsIn 0 ;;
  Ok (SetInitialValue self (Ramp.x0 r0)).

(** [ParabolicCurve::Append(curve)]. *)
Definition Append (self curve : t) : result t :=
  assert (negb (IsEmpty curve)) ;;;
  self <- (if (List.length (ramps self) =? 0)%nat then
             r0 <- at_index "curve.ramps" (ramps curve) 0 ;;
             Ok (mk (ramps self) (switchpointsList self ++ [0])
                    (Ramp.x0 r0) (x1 self) (v0 self) (v1 self) 0 0)
           else Ok self) ;;
  let self := fold_left push_ramp (ramps curve) self in
  let self := mk (ramps self) (switchpointsList self) (x0 self) (x1 self)
                 (v0 self) (v1 curve) (d self) (duration self) in
  Ok (SetInitialValue self (x0 self)).

(** The scan of [FindRampIndex],
    [while (it != switchpointsList.end() && t > *it) { index++; it++; }]:
    the number of steps taken. *)
Fixpoint scan (sps : list Real) (t_ : Real) : nat :=
  match sps with
  | [] => O
  | s :: sps' => if Rltb s t_ then S (scan sps' t_) else O
  end.

Section WithTolerance.
Variable epsilon : Real.

(** [ParabolicCurve::FindRampIndex(t, index, remainder)]: the pair of
    the two outputs. *)
Definition FindRampIndex (self : t) (t_ : Real) : result (Z * Real) :=
  assert (Rleb (- epsilon) t_) ;;;
  assert (Rleb t_ (duration self + epsilon)) ;;;
  if Rltb t_ epsilon then Ok (0%Z, 0)
  else if Rltb (duration self - epsilon) t_ then
    b <- back "ramps" (ramps self) ;;
    Ok ((Z.of_nat (List.length (ramps self)) - 1)%Z, Ramp.duration b)
  else
    let index := Z.of_nat (scan (switchpointsList self) t_) in
    assert (index <? Z.of_nat (List.length (switchpointsList self)))%Z ;;;
    prev <- at_index "switchpointsList" (switchpointsList self) (index - 1) ;;
    Ok ((index - 1)%Z, t_ - prev).

Definition EvalPos (self : t) (t_ : Real) : result Real :=
  assert (Rleb (- epsilon) t_) ;;;
  assert (Rleb t_ (duration self + epsilon)) ;;;
  if Rleb t_ 0 then Ok (x0 self)
  else if Rleb (duration self) t_ then Ok (x1 self)
  else
    '(index, remainder) <- FindRampIndex self t_ ;;
    r <- at_index "ramps" (ramps self) index ;;
    Ramp.EvalPos epsilon r remainder.

Definition EvalVel (self : t) (t_ : Real) : result Real :=
  assert (Rleb (- epsilon) t_) ;;;
  assert (Rleb t_ (duration self + epsilon)) ;;;
  if Rleb t_ 0 then Ok (v0 self)
  else if Rleb (duration self) t_ then Ok (v1 self)
  else
    '(index, remainder) <- FindRampIndex self t_ ;;
    r <- at_index "ramps" (ramps self) index ;;
    Ramp.EvalVel epsilon r remainder.

Definition EvalAcc (self : t) (t_ : Real) : result Real :=
  assert (Rleb (- epsilon) t_) ;;;
  assert (Rleb t_ (duration self + epsilon)) ;;;
  if Rleb t_ 0 then
    r <- at_index "ramps" (ramps self) 0 ;; Ok (Ramp.a r)
  else if Rleb (duration self) t_ then
    r <- back "ramps" (ramps self) ;; Ok (Ramp.a r)
  else
    '(index, remainder) <- FindRampIndex self t_ ;;
    r <- at_index "ramps" (ramps self) index ;;
    Ok (Ramp.a r).

Variable inf : Real.

(** The loop of [ParabolicCurve::GetPeaks] over the ramps. *)
Fixpoint peaks_loop (rs : list Ramp.t) (bmin bmax : Real)
  : result (Real * Real) :=
  match rs with
  | [] => Ok (bmin, bmax)
  | r :: rs' =>
      '(temp1, temp2) <- Ramp.GetPeaks epsilon r ;;
      let bmin := if Rltb temp1 bmin then temp1 else bmin in
      let bmax := if Rltb bmax temp2 then temp2 else bmax in
      peaks_loop rs' bmin bmax
  end.

(** [ParabolicCurve::GetPeaks(bmin, bmax)].  [RAMP_OPTIM_ASSERT] is
    taken to fail like [BOOST_ASSERT]. *)
Definition GetPeaks (self : t) : result (Real * Real) :=
  '(bmin, bmax) <- peaks_loop (ramps self) inf (- inf) ;;
  assert (Rltb bmin inf) ;;;
  assert (Rltb (- inf) bmax) ;;;
  Ok (bmin, bmax).

End WithTolerance.

End ParabolicCurve.

(** ** ParabolicCurvesND *)

Module ParabolicCurvesND.

(** [ndof] is an [int] that only ever receives the size of [curves];
    it is a natural number here.  The two planner flags are integers. *)
Record t : Type := mk {
  ndof : nat;
  curves : list ParabolicCurve.t;
  duration : Real;
  x0Vect : list Real;
  x1Vect : list Real;
  v0Vect : list Real;
  v1Vect : list Real;
  dVect : list Real;
  switchpointsList : list Real;
  constraintchecked : Z;
  modified : Z
}.

(** [ParabolicCurvesND::Reset()]. *)
Definition Reset (self : t) : t := mk 0 [] 0 [] [] [] [] [] [] 0 0.

(** [std::lower_bound(first, last, x)], the bisection of the standard
    library:
    [len = last - first;
     while (len > 0) { half = len >> 1; middle = first + half;
       if (middle[0] < x) { first = middle + 1; len = len - half - 1; }
       else len = half; }
     return first;]
    [steps] bounds the number of iterations; [len] iterations are enough,
    since [len] decreases in each one. *)
Fixpoint bisect (steps : nat) (l : list Real) (x : Real) (first len : nat)
  : nat :=
  match steps with
  | O => first
  | S steps' =>
      match len with
      | O => first
      | S _ =>
          let half := Nat.div2 len in
          let middle := (first + half)%nat in
          if Rltb (nth middle l 0) x
          then bisect steps' l x (S middle) (len - half - 1)
          else bisect steps' l x first half
      end
  end.

Definition lower_bound (l : list Real) (x : Real) : nat :=
  bisect (List.length l) l x 0 (List.length l).

(** [v.insert(v.begin() + n, x)]. *)
Definition insert_at (n : nat) (x : Real) (l : list Real) : list Real :=
  firstn n l ++ x :: skipn n l.

(** [v.resize(n)]: truncates, or pads with zeros. *)
Definition resize (v : list Real) (n : nat) : list Real :=
  firstn n v ++ repeat 0 (n - List.length v).

(** [v[i] = x] for an index in range. *)
Fixpoint assign (v : list Real) (i : nat) (x : Real) : list Real :=
  match v, i with
  | [], _ => []
  | _ :: v', O => x :: v'
  | y :: v', S i' => y :: assign v' i' x
  end.

Section WithTolerance.
Variable epsilon : Real.

(** The loop that compares the durations:
    [BOOST_ASSERT(FuzzyEquals(it->duration, minDur, epsilon));
     minDur = Min(minDur, it->duration);] *)
Fixpoint check_durations (rest : list ParabolicCurve.t) (minDur : Real)
  : result Real :=
  match rest with
  | [] => Ok minDur
  | c :: rest' =>
      assert (FuzzyEquals (ParabolicCurve.duration c) minDur epsilon) ;;;
      check_durations rest' (Min minDur (ParabolicCurve.duration c))
  end.

(** The body of the inner loop over switch points: [*it] is read even
    when [it] is [switchpointsList.end()]. *)
Definition merge_point (sps : list Real) (x : Real) : result (list Real) :=
  let it := lower_bound sps x in
  y <- at_index "switchpointsList" sps (Z.of_nat it) ;;
  if FuzzyEquals x y epsilon then Ok sps else Ok (insert_at it x sps).

Fixpoint merge_points (sps : list Real) (xs : list Real)
  : result (list Real) :=
  match xs with
  | [] => Ok sps
  | x :: xs' => sps' <- merge_point sps x ;; merge_points sps' xs'
  end.

(** The inner loop, [for (j = 1; j != curves[i].switchpointsList.size() - 1; ++j)]:
    with fewer than two switch points the unsigned bound is never met
    before [curves[i].switchpointsList[1]] is read. *)
Definition merge_curve (sps : list Real) (c : ParabolicCurve.t)
  : result (list Real) :=
  let own := ParabolicCurve.switchpointsList c in
  if (List.length own <? 2)%nat
  then OutOfRange "curves[i].switchpointsList" 1
  else merge_points sps (removelast (tl own)).

Fixpoint merge_curves (sps : list Real) (cs : list ParabolicCurve.t)
  : result (list Real) :=
  match cs with
  | [] => Ok sps
  | c :: cs' => sps' <- merge_curve sps c ;; merge_curves sps' cs'
  end.

(** [ParabolicCurvesND::ParabolicCurvesND(curvesIn)].  The five
    aggregate vectors start empty and receive one entry per curve. *)
Definition ParabolicCurvesND (curvesIn : list ParabolicCurve.t) : result t :=
  assert (negb (match curvesIn with [] => true | _ :: _ => false end)) ;;;
  c0 <- at_index "curvesIn" curvesIn 0 ;;
  minDur <- check_durations (tl curvesIn) (ParabolicCurve.duration c0) ;;
  let curves_ := curvesIn in
  c0' <- at_index "curves" curves_ 0 ;;
  sps <- merge_curves (ParabolicCurve.switchpointsList c0') curves_ ;;
  Ok (mk (List.length curvesIn) curves_ minDur
         (map ParabolicCurve.x0 curves_)
         (map ParabolicCurve.x1 curves_)
         (map ParabolicCurve.v0 curves_)
         (map ParabolicCurve.v1 curves_)
         (map ParabolicCurve.d curves_)
         sps 0 0).

Variable inf : Real.

(** The loop of [ParabolicCurvesND::GetPeaks]: [n] iterations from
    index [i]; the two references [bminVect[i]] and [bmaxVect[i]] are
    formed before the curve's [GetPeaks] runs. *)
Fixpoint GetPeaks_loop (n i : nat) (cs : list ParabolicCurve.t)
    (bminVect bmaxVect : list Real) : result (list Real * list Real) :=
  match n with
  | O => Ok (bminVect, bmaxVect)
  | S n' =>
      c <- at_index "curves" cs (Z.of_nat i) ;;
      _ <- at_index "bminVect" bminVect (Z.of_nat i) ;;
      _ <- at_index "bmaxVect" bmaxVect (Z.of_nat i) ;;
      '(bmin, bmax) <- ParabolicCurve.GetPeaks epsilon inf c ;;
      GetPeaks_loop n' (S i) cs (assign bminVect i bmin) (assign bmaxVect i bmax)
  end.

(** [ParabolicCurvesND::GetPeaks(bminVect, bmaxVect)]: the two output
    vectors come in as the caller holds them. *)
Definition GetPeaks (self : t) (bminVect bmaxVect : list Real)
  : result (list Real * list Real) :=
  let bminVect := resize bminVect (ndof self) in
  let bminVect := resize bminVect (ndof self) in
  GetPeaks_loop (ndof self) 0 (curves self) bminVect bmaxVect.

(** [ParabolicCurvesND::Initialize(curvesIn)]: there is no assertion on
    [curvesIn], and the five aggregate vectors are not cleared before the
    [push_back]s. *)
Definition Initialize (self : t) (curvesIn : list ParabolicCurve.t) : result t :=
  c0 <- at_index "curvesIn" curvesIn 0 ;;
  minDur <- check_durations (tl curvesIn) (ParabolicCurve.duration c0) ;;
  let curves_ := curvesIn in
  c0' <- at_index "curves" curves_ 0 ;;
  sps <- merge_curves (ParabolicCurve.switchpointsList c0') curves_ ;;
  Ok (mk (List.length curvesIn) curves_ minDur
         (x0Vect self ++ map ParabolicCurve.x0 curves_)
         (x1Vect self ++ map ParabolicCurve.x1 curves_)
         (v0Vect self ++ map ParabolicCurve.v0 curves_)
         (v1Vect self ++ map ParabolicCurve.v1 curves_)
         (dVect self ++ map ParabolicCurve.d curves_)
         sps 0 0).

(** The loop shared by [EvalPos], [EvalVel] and [EvalAcc]:
    [out[i] = curves[i].Eval...(t)] for [n] axes from index [i]. *)
Fixpoint eval_loop (eval : ParabolicCurve.t -> result Real) (n i : nat)
    (cs : list ParabolicCurve.t) (out : list Real) : result (list Real) :=
  match n with
  | O => Ok out
  | S n' =>
      _ <- at_index "out" out (Z.of_nat i) ;;
      c <- at_index "curves" cs (Z.of_nat i) ;;
      x <- eval c ;;
      eval_loop eval n' (S i) cs (assign out i x)
  end.

(** [ParabolicCurvesND::EvalPos(t, xVect)]: the output vector comes in as
    the caller holds it. *)
Definition EvalPos (self : t) (t_ : Real) (xVect : list Real) : result (list Real) :=
  assert (Rleb (- epsilon) t_) ;;;
  assert (Rleb t_ (duration self + epsilon)) ;;;
  if Rleb t_ 0 then Ok (x0Vect self)
  else if Rltb (duration self) t_ then Ok (x1Vect self)
  else
    eval_loop (fun c => ParabolicCurve.EvalPos epsilon c t_)
      (ndof self) 0 (curves self) (resize xVect (ndof self)).

(** [ParabolicCurvesND::EvalVel(t, vVect)]. *)
Definition EvalVel (self : t) (t_ : Real) (vVect : list Real) : result (list Real) :=
  assert (Rleb (- epsilon) t_) ;;;
  assert (Rleb t_ (duration self + epsilon)) ;;;
  if Rleb t_ 0 then Ok (v0Vect self)
  else if Rleb (duration self) t_ then Ok (v1Vect self)
  else
    eval_loop (fun c => ParabolicCurve.EvalVel epsilon c t_)
      (ndof self) 0 (curves self) (resize vVect (ndof self)).

(** [ParabolicCurvesND::EvalAcc(t, aVect)]: [t] is moved into
    [[0, duration]] before the axes are evaluated. *)
Definition EvalAcc (self : t) (t_ : Real) (aVect : list Real) : result (list Real) :=
  assert (Rleb (- epsilon) t_) ;;;
  assert (Rleb t_ (duration self + epsilon)) ;;;
  let t_ := if Rltb t_ 0 then 0
            else if Rltb (duration self) t_ then duration self
            else t_ in
  eval_loop (fun c => ParabolicCurve.EvalAcc epsilon c t_)
    (ndof self) 0 (curves self) (resize aVect (ndof self)).

End WithTolerance.

(** Modelled from the spec: [ramp.h] is missing; the object is empty when
    it holds no curve. *)
Definition IsEmpty (self : t) : bool :=
  match curves self with [] => true | _ :: _ => false end.

(** [curves[i] = c] for an index in range. *)
Fixpoint assign_curve (v : list ParabolicCurve.t) (i : nat) (c : ParabolicCurve.t)
  : list ParabolicCurve.t :=
  match v, i with
  | [], _ => []
  | _ :: v', O => c :: v'
  | y :: v', S i' => y :: assign_curve v' i' c
  end.

(** The per-axis loop of [ParabolicCurvesND::Append]:
    [curves[i].Append(curvesnd.curves[i]); v1Vect[i] = curvesnd.curves[i].v1;
     x1Vect[i] = curves[i].x1; dVect[i] = dVect[i] + curvesnd.curves[i].d;]
    for [n] axes from index [i]. *)
Fixpoint Append_loop (n i : nat) (others cs : list ParabolicCurve.t)
    (v1s x1s ds : list Real)
  : result (list ParabolicCurve.t * list Real * list Real * list Real) :=
  match n with
  | O => Ok (cs, v1s, x1s, ds)
  | S n' =>
      c <- at_index "curves" cs (Z.of_nat i) ;;
      o <- at_index "curvesnd.curves" others (Z.of_nat i) ;;
      c' <- ParabolicCurve.Append c o ;;
      let cs := assign_curve cs i c' in
      _ <- at_index "v1Vect" v1s (Z.of_nat i) ;;
      let v1s := assign v1s i (ParabolicCurve.v1 o) in
      _ <- at_index "x1Vect" x1s (Z.of_nat i) ;;
      let x1s := assign x1s i (ParabolicCurve.x1 c') in
      dold <- at_index "dVect" ds (Z.of_nat i) ;;
      let ds := assign ds i (dold + ParabolicCurve.d o) in
      Append_loop n' (S i) others cs v1s x1s ds
  end.

(** [ParabolicCurvesND::Append(curvesnd)]. *)
Definition Append (self curvesnd : t) : result t :=
  assert (negb (IsEmpty curvesnd)) ;;;
  match curves self with
  | [] =>
      Ok (mk (List.length (curves curvesnd)) (curves curvesnd)
             (duration curvesnd)
             (x0Vect curvesnd) (x1Vect curvesnd) (v0Vect curvesnd)
             (v1Vect curvesnd) (dVect curvesnd)
             (switchpointsList curvesnd)
             (constraintchecked self) (modified self))
  | _ :: _ =>
      assert (ndof curvesnd =? ndof self)%nat ;;;
      let originalDur := duration self in
      let duration' := duration self + duration curvesnd in
      '(cs, v1s, x1s, ds) <-
        Append_loop (ndof self) 0 (curves curvesnd) (curves self)
          (v1Vect self) (x1Vect self) (dVect self) ;;
      let tempSwitchpointsList :=
        map (fun s => s + originalDur) (switchpointsList curvesnd) in
      Ok (mk (ndof self) cs duration'
             (x0Vect self) x1s (v0Vect self) v1s ds
             (switchpointsList self ++ tempSwitchpointsList)
             (constraintchecked self) (modified self))
  end.

End ParabolicCurvesND.

(** * The operations on binary64 numbers

    The definitions above fix which operations the code applies, to which
    values and in which order, and which comparisons decide a branch;
    being exact, they do not round.  A [Real] of the program is a
    binary64 number, on which addition is not associative and a
    difference of sums is not the sum of the differences.  The operations
    of [Ramp] and [ParabolicCurve] whose outcome depends on this are
    given here once more, with the same text, over the binary64 numbers
    of [PrimFloat], so that they can be run on concrete inputs.  A decimal
    literal stands for the nearest binary64 number, as in C++. *)

Local Set Warnings "-inexact-float".

Module Binary64.

Local Open Scope float_scope.

(** Modelled from the spec: [ramp.h] is missing; as for [Real] above. *)
Definition Abs (x : float) : float := PrimFloat.abs x.
Definition Min (x y : float) : float := if x <? y then x else y.
Definition Max (x y : float) : float := if y <? x then x else y.
Definition FuzzyZero (x tol : float) : bool := Abs x <=? tol.

(** *** Ramp *)

Module Ramp.

Record t : Type := mk {
  v0 : float;
  a : float;
  duration : float;
  x0 : float;
  v1 : float;
  d : float;
  x1 : float
}.

(** [v1 = v0 + (a*duration)], [d = duration*(v0 + 0.5*a*duration)],
    [x1 = x0 + d]. *)
Definition fill (v0_ a_ dur_ x0_ : float) : t :=
  let v1_ := v0_ + (a_ * dur_) in
  let d_ := dur_ * (v0_ + 0.5 * a_ * dur_) in
  mk v0_ a_ dur_ x0_ v1_ d_ (x0_ + d_).

(** [ramps[i].x0 = newx0]. *)
Definition set_x0 (r : t) (newx0 : float) : t :=
  mk (v0 r) (a r) (duration r) newx0 (v1 r) (d r) (x1 r).

Section WithTolerance.
Variable epsilon : float.

(** [Ramp::Ramp(v0_, a_, dur_, x0_)]. *)
Definition Ramp (v0_ a_ dur_ x0_ : float) : result t :=
  assert (- epsilon <=? dur_) ;;;
  Ok (fill v0_ a_ dur_ x0_).

(** [Ramp::EvalPos(t)]. *)
Definition EvalPos (self : t) (t_ : float) : result float :=
  assert (- epsilon <=? t_) ;;;
  assert (t_ <=? duration self + epsilon) ;;;
  if t_ <=? 0 then Ok (x0 self)
  else if duration self <=? t_ then Ok (x1 self)
  else Ok (t_ * (v0 self + 0.5 * a self * t_) + x0 self).

(** [Ramp::GetPeaks(bmin, bmax)]. *)
Definition GetPeaks (self : t) : result (float * float) :=
  if FuzzyZero (a self) epsilon then
    if 0 <? v0 self then Ok (x0 self, x1 self)
    else Ok (x1 self, x0 self)
  else
    let '(bmin, bmax) :=
      if 0 <? a self then (x0 self, x1 self)
      else (x1 self, x0 self) in
    let tDeflection := - v0 self / a self in
    if (tDeflection <=? 0) || (duration self <=? tDeflection)
    then Ok (bmin, bmax)
    else
      xDeflection <- EvalPos self tDeflection ;;
      Ok (Min bmin xDeflection, Max bmax xDeflection).

End WithTolerance.

End Ramp.

(** *** ParabolicCurve *)

Module ParabolicCurve.

Record t : Type := mk {
  ramps : list Ramp.t;
  switchpointsList : list float;
  x0 : float;
  x1 : float;
  v0 : float;
  v1 : float;
  d : float;
  duration : float
}.

Definition IsEmpty (self : t) : bool :=
  match ramps self with [] => true | _ :: _ => false end.

(** [ramps.push_back(r); d = d + ramps.back().d;
     duration = duration + ramps.back().duration;
     switchpointsList.push_back(duration);] *)
Definition push_ramp (self : t) (r : Ramp.t) : t :=
  let d' := d self + Ramp.d r in
  let duration' := duration self + Ramp.duration r in
  mk (ramps self ++ [r]) (switchpointsList self ++ [duration'])
     (x0 self) (x1 self) (v0 self) (v1 self) d' duration'.

(** [ramps[i].x0 = newx0; newx0 = newx0 + ramps[i].d;] *)
Fixpoint rebase (rs : list Ramp.t) (newx0 : float) : list Ramp.t :=
  match rs with
  | [] => []
  | r :: rs' => Ramp.set_x0 r newx0 :: rebase rs' (newx0 + Ramp.d r)
  end.

(** [ParabolicCurve::SetInitialValue(newx0)]. *)
Definition SetInitialValue (self : t) (newx0 : float) : t :=
  mk (rebase (ramps self) newx0) (switchpointsList self)
     newx0 (newx0 + d self) (v0 self) (v1 self) (d self) (duration self).

(** [ParabolicCurve::ParabolicCurve(rampsIn)]. *)
Definition ParabolicCurve (rampsIn : list Ramp.t) : result t :=
  assert (negb (match rampsIn with [] => true | _ :: _ => false end)) ;;;
  let self := mk [] [0] 0 0 0 0 0 0 in
  let self := fold_left push_ramp rampsIn self in
  f <- front "rampsIn" rampsIn ;;
  b <- back "rampsIn" rampsIn ;;
  let self := mk (ramps self) (switchpointsList self) (x0 self) (x1 self)
                 (Ramp.v0 f) (Ramp.v1 b) (d self) (duration self) in
  r0 <- at_index "rampsIn" rampsIn 0 ;;
  Ok (SetInitialValue self (Ramp.x0 r0)).

(** [ParabolicCurve::Append(curve)]. *)
Definition Append (self curve : t) : result t :=
  assert (negb (IsEmpty curve)) ;;;
  self <- (if (List.length (ramps self) =? 0)%nat then
             r0 <- at_index "curve.ramps" (ramps curve) 0 ;;
             Ok (mk (ramps self) (switchpointsList self ++ [0])
                    (Ramp.x0 r0) (x1 self) (v0 self) (v1 self) 0 0)
           else Ok self) ;;
  let self := fold_left push_ramp (ramps curve) self in
  let self := mk (ramps self) (switchpointsList self) (x0 self) (x1 self)
                 (v0 self) (v1 curve) (d self) (duration self) in
  Ok (SetInitialValue self (x0 self)).

(** [while (it != switchpointsList.end() && t > *it) { index++; it++; }] *)
Fixpoint scan (sps : list float) (t_ : float) : nat :=
  match sps with
  | [] => O
  | s :: sps' => if s <? t_ then S (scan sps' t_) else O
  end.

Section WithTolerance.
Variable epsilon : float.

(** [ParabolicCurve::FindRampIndex(t, index, remainder)]. *)
Definition FindRampIndex (self : t) (t_ : float) : result (Z * float) :=
  assert (- epsilon <=? t_) ;;;
  assert (t_ <=? duration self + epsilon) ;;;
  if t_ <? epsilon then Ok (0%Z, 0)
  else if duration self - epsilon <? t_ then
    b <- back "ramps" (ramps self) ;;
    Ok ((Z.of_nat (List.length (ramps self)) - 1)%Z, Ramp.duration b)
  else
    let index := Z.of_nat (scan (switchpointsList self) t_) in
    assert (index <? Z.of_nat (List.length (switchpointsList self)))%Z ;;;
    prev <- at_index "switchpointsList" (switchpointsList self) (index - 1) ;;
    Ok ((index - 1)%Z, t_ - prev).

(** [ParabolicCurve::EvalPos(t)]. *)
Definition EvalPos (self : t) (t_ : float) : result float :=
  assert (- epsilon <=? t_) ;;;
  assert (t_ <=? duration self + epsilon) ;;;
  if t_ <=? 0 then Ok (x0 self)
  else if duration self <=? t_ then Ok (x1 self)
  else
    '(index, remainder) <- FindRampIndex self t_ ;;
    r <- at_index "ramps" (ramps self) index ;;
    Ramp.EvalPos epsilon r remainder.

End WithTolerance.

End ParabolicCurve.

End Binary64.

(** * Notions used to state the properties *)

(** A tolerance for the worked examples, [1e-10]. *)
Definition tolerance : Real := Q2Qc (1 # 10000000000).

(** The position of constant-acceleration motion at time [t], in closed
    form: [x0 + t*(v0 + 0.5*a*t)]. *)
Definition pos (x0 v0 a t : Real) : Real := x0 + t * (v0 + half * a * t).

(** [bmin] and [bmax] are tight bounds of the position of ramp [r] over
    [[0, T]]: every position lies between them and each is attained. *)
Definition tight (epsilon : Real) (r : Ramp.t) (T bmin bmax : Real) : Prop :=
  (forall t, 0 <= t -> t <= T ->
     exists p, Ramp.EvalPos epsilon r t = Ok p /\ bmin <= p /\ p <= bmax) /\
  (exists t, 0 <= t /\ t <= T /\ Ramp.EvalPos epsilon r t = Ok bmin) /\
  (exists t, 0 <= t /\ t <= T /\ Ramp.EvalPos epsilon r t = Ok bmax).

(** Derived fields of a ramp that agree with its four given fields. *)
Definition ramp_consistent (r : Ramp.t) : Prop :=
  Ramp.v1 r = Ramp.v0 r + Ramp.a r * Ramp.duration r /\
  Ramp.d r = Ramp.duration r * (Ramp.v0 r + half * Ramp.a r * Ramp.duration r) /\
  Ramp.x1 r = Ramp.x0 r + Ramp.d r.

(** The sum of a list of numbers added one by one to [acc], and the list
    of the partial sums on the way. *)
Definition total (acc : Real) (l : list Real) : Real := fold_left Qcplus l acc.

Fixpoint running (acc : Real) (l : list Real) : list Real :=
  match l with
  | [] => []
  | h :: l' => (acc + h) :: running (acc + h) l'
  end.

(** The switch-point table of a sequence of ramps: empty for no ramp,
    otherwise [0] followed by the cumulative durations. *)
Definition switch_table (rs : list Ramp.t) : list Real :=
  match rs with
  | [] => []
  | _ :: _ => 0 :: running 0 (map Ramp.duration rs)
  end.

(** The curves that the operations of the class produce. *)
Inductive built : ParabolicCurve.t -> Prop :=
| built_ParabolicCurve rampsIn c :
    ParabolicCurve.ParabolicCurve rampsIn = Ok c -> built c
| built_Initialize self rampsIn c :
    ParabolicCurve.Initialize self rampsIn = Ok c -> built c
| built_Append self curve c :
    built self -> built curve ->
    ParabolicCurve.Append self curve = Ok c -> built c
| built_Reset self : built (ParabolicCurve.Reset self)
| built_SetInitialValue self newx0 :
    built self -> built (ParabolicCurve.SetInitialValue self newx0).

(** What every such curve satisfies. *)
Definition aggregates_agree (c : ParabolicCurve.t) : Prop :=
  ParabolicCurve.switchpointsList c = switch_table (ParabolicCurve.ramps c) /\
  ParabolicCurve.duration c = total 0 (map Ramp.duration (ParabolicCurve.ramps c)) /\
  ParabolicCurve.d c = total 0 (map Ramp.d (ParabolicCurve.ramps c)) /\
  ParabolicCurve.x1 c = ParabolicCurve.x0 c + ParabolicCurve.d c /\
  ParabolicCurve.ramps c = ParabolicCurve.rebase (ParabolicCurve.ramps c) (ParabolicCurve.x0 c) /\
  (forall r, back "ramps" (ParabolicCurve.ramps c) = Ok r ->
             ParabolicCurve.v1 c = Ramp.v1 r).


(** The curve of two ramps with durations [1] and [2] ([v0 = 0], [a = 1],
    then [v0 = 2], [a = 0]), both ramps created at position [0], as the
    constructor leaves it. *)
Definition two_ramp_curve : ParabolicCurve.t :=
  ParabolicCurve.mk
    [Ramp.mk 0 1 1 0 1 (Q2Qc (1 # 2)) (Q2Qc (1 # 2));
     Ramp.mk (Q2Qc 2) 0 (Q2Qc 2) (Q2Qc (1 # 2)) (Q2Qc 2) (Q2Qc 4) (Q2Qc 4)]
    [0; 1; Q2Qc 3]
    0 (Q2Qc (9 # 2)) 0 (Q2Qc 2) (Q2Qc (9 # 2)) (Q2Qc 3).

(** The curve of the single ramp [v0 = 1], [a = 0], [duration = 1],
    [x0 = 0], as the constructor leaves it. *)
Definition one_ramp_curve : ParabolicCurve.t :=
  ParabolicCurve.mk [Ramp.mk 1 0 1 0 1 1 1] [0; 1] 0 1 1 1 1 1.

(** The reading of [FindRampIndex] by "the first switch point strictly
    exceeding [t]": the position of that switch point in the table, and
    the ramp index and remainder that follow from it. *)
Fixpoint first_exceeding (sps : list Real) (t : Real) : nat :=
  match sps with
  | [] => O
  | s :: sps' => if Rltb t s then O else S (first_exceeding sps' t)
  end.

Definition ramp_by_first_exceeding (sps : list Real) (t : Real) : Z * Real :=
  let k := first_exceeding sps t in
  ((Z.of_nat k - 1)%Z, t - nth (k - 1) sps 0).

(** The curve that the constructor builds from [rampsIn] (the empty curve
    where it fails). *)
Definition curve_of (rampsIn : list Ramp.t) : ParabolicCurve.t :=
  match ParabolicCurve.ParabolicCurve rampsIn with
  | Ok c => c
  | _ => ParabolicCurve.mk [] [] 0 0 0 0 0 0
  end.

(** The least duration among [c0] and the curves of [cs]. *)
Definition min_duration (c0 : ParabolicCurve.t) (cs : list ParabolicCurve.t) : Real :=
  fold_left Min (map ParabolicCurve.duration cs) (ParabolicCurve.duration c0).

(** The literals [10] and [0.1]. *)
Definition ten : Real := Q2Qc 10.
Definition tenth : Real := Q2Qc (1 # 10).

(** Three one-ramp curves whose durations are [1], [1 - 0.9e-10] and
    [1 + 0.9e-10], and a fourth of duration [1 - 1.8e-10]. *)
Definition curve_1 : ParabolicCurve.t := curve_of [Ramp.fill 1 0 1 0].
Definition curve_1_minus : ParabolicCurve.t :=
  curve_of [Ramp.fill 1 0 (1 - Q2Qc (9 # 10) * tolerance) 0].
Definition curve_1_plus : ParabolicCurve.t :=
  curve_of [Ramp.fill 1 0 (1 + Q2Qc (9 # 10) * tolerance) 0].
Definition curve_1_minus_minus : ParabolicCurve.t :=
  curve_of [Ramp.fill 1 0 (1 - Q2Qc (18 # 10) * tolerance) 0].

(** A bound standing for [inf] in the worked examples, [1e300]. *)
Definition huge : Real := Q2Qc (inject_Z (10 ^ 300)).

(** The two-axis object built from the one-ramp curve on each axis, as
    the constructor leaves it. *)
Definition two_axis_curves : ParabolicCurvesND.t :=
  ParabolicCurvesND.mk 2 [one_ramp_curve; one_ramp_curve] 1
    [0; 0] [1; 1] [1; 1] [1; 1] [1; 1] [0; 1] 0 0.

(** A time moved into [[0, T]] the way the evaluators do: times at or
    before [0] count as [0], times at or after [T] as [T]. *)
Definition clamp_time (T t : Real) : Real :=
  if Rleb t 0 then 0 else if Rleb T t then T else t.

(** A table of times in non-decreasing order. *)
Fixpoint nondecreasing (l : list Real) : Prop :=
  match l with
  | [] => True
  | x :: l' => (forall y, In y l' -> x <= y) /\ nondecreasing l'
  end.

(** The position of the first entry of a table that is not less than [x],
    found from the front. *)
Fixpoint first_not_less (l : list Real) (x : Real) : nat :=
  match l with
  | [] => O
  | y :: l' => if Rltb y x then S (first_not_less l' x) else O
  end.

(** The switch points of a curve that the constructor of
    [ParabolicCurvesND] looks at: all but the first and the last. *)
Definition interior_switchpoints (c : ParabolicCurve.t) : list Real :=
  removelast (tl (ParabolicCurve.switchpointsList c)).

(** The object that the constructor builds from [curvesIn] (the empty
    object where it fails). *)
Definition nd_of (epsilon : Real) (curvesIn : list ParabolicCurve.t)
  : ParabolicCurvesND.t :=
  match ParabolicCurvesND.ParabolicCurvesND epsilon curvesIn with
  | Ok nd => nd
  | _ => ParabolicCurvesND.mk 0 [] 0 [] [] [] [] [] [] 0 0
  end.

(** A curve of two ramps at rest with durations [2] and [1]: its table is
    [0, 2, 3]. *)
Definition rest_curve : ParabolicCurve.t :=
  curve_of [Ramp.fill 0 0 (Q2Qc 2) 0; Ramp.fill 0 0 1 0].

(** A curve of three ramps at rest with durations [1], [-epsilon/2] and
    [-epsilon/2] for [epsilon = 1e-10]: its table is
    [0, 1, 1 - epsilon/2, 1 - epsilon]. *)
Definition backward_curve : ParabolicCurve.t :=
  curve_of [Ramp.fill 0 0 1 0; Ramp.fill 0 0 (- (half * tolerance)) 0;
            Ramp.fill 0 0 (- (half * tolerance)) 0].

(** * Properties *)

(** ** Arithmetic on [Real] *)

Lemma this_Q2Qc (q : Q) : (this (Q2Qc q) == q)%Q.
Proof. exact (Qred_correct q). Qed.

Lemma this_plus (x y : Qc) : (this (x + y) == this x + this y)%Q.
Proof. exact (Qred_correct _). Qed.

Lemma this_mult (x y : Qc) : (this (x * y) == this x * this y)%Q.
Proof. exact (Qred_correct _). Qed.

Lemma this_opp (x : Qc) : (this (- x) == - this x)%Q.
Proof. exact (Qred_correct _). Qed.

Lemma this_minus (x y : Qc) : (this (x - y) == this x - this y)%Q.
Proof. unfold Qcminus. rewrite this_plus, this_opp. reflexivity. Qed.

Lemma this_half : (this half == 1 # 2)%Q.
Proof. reflexivity. Qed.

Lemma Real_eq_iff (x y : Qc) : x = y <-> (this x == this y)%Q.
Proof.
  split.
  - intros ->. reflexivity.
  - apply Qc_is_canon.
Qed.

Lemma Rleb_le (x y : Real) : Rleb x y = true <-> x <= y.
Proof. unfold Rleb, Qcle. apply Qle_bool_iff. Qed.

Lemma Rleb_gt (x y : Real) : Rleb x y = false <-> y < x.
Proof.
  rewrite <- not_true_iff_false, Rleb_le. unfold Qcle, Qclt. split.
  - apply Qnot_le_lt.
  - apply Qlt_not_le.
Qed.

Lemma Rltb_lt (x y : Real) : Rltb x y = true <-> x < y.
Proof. unfold Rltb. rewrite negb_true_iff. apply Rleb_gt. Qed.

Lemma Rltb_ge (x y : Real) : Rltb x y = false <-> y <= x.
Proof. unfold Rltb. rewrite negb_false_iff. apply Rleb_le. Qed.

(** Boolean comparisons in the context become propositions. *)
Ltac real_props :=
  repeat match goal with
  | H : Rleb _ _ = true |- _ => apply Rleb_le in H
  | H : Rleb _ _ = false |- _ => apply Rleb_gt in H
  | H : Rltb _ _ = true |- _ => apply Rltb_lt in H
  | H : Rltb _ _ = false |- _ => apply Rltb_ge in H
  end.

(** Orders and equations on [Qc] are moved to [Q], where [lra] and [nra]
    decide them. *)
Ltac to_Q :=
  repeat match goal with
  | H : @eq Qc _ _ |- _ => apply Real_eq_iff in H
  | H : ~ @eq Qc _ _ |- _ => rewrite Real_eq_iff in H
  | |- @eq Qc _ _ => apply Qc_is_canon
  end;
  unfold Qcle, Qclt in *;
  repeat first
    [ rewrite this_plus in * | rewrite this_mult in *
    | rewrite this_minus in * | rewrite this_opp in *
    | rewrite this_half in * ];
  change (this 0) with 0%Q in *; change (this 1) with 1%Q in *;
  rewrite ?this_Q2Qc in *.

Ltac real_lra := real_props; to_Q; lra.
Ltac real_nra := real_props; to_Q; nra.

(** A boolean comparison is settled from the propositions at hand. *)
Ltac decide_cmp :=
  repeat match goal with
  | |- context [Rleb ?x ?y] =>
      first [ replace (Rleb x y) with true
                by (symmetry; apply Rleb_le; real_lra)
            | replace (Rleb x y) with false
                by (symmetry; apply Rleb_gt; real_lra) ]
  | |- context [Rltb ?x ?y] =>
      first [ replace (Rltb x y) with true
                by (symmetry; apply Rltb_lt; real_lra)
            | replace (Rltb x y) with false
                by (symmetry; apply Rltb_ge; real_lra) ]
  end.

(** A closed equation between computed values: canonical rationals are
    compared through their fractions. *)
Ltac real_compute :=
  vm_compute;
  repeat first [ apply Qc_is_canon; reflexivity | reflexivity | progress f_equal ].

(** ** Ramp *)

(** C1.  The constructor, given [(v0, a, T, x0)] with [T >= 0],
    succeeds and builds the ramp that holds the four given values and the
    derived end state [v1 = v0 + a*T], [d = T*(v0 + 0.5*a*T)] and
    [x1 = x0 + T*(v0 + 0.5*a*T)].  That ramp evaluates to [x0] and [v0] at
    time [0], to this [x1] and [v1] at time [T], and strictly inside
    [(0, T)] to the closed forms [x0 + t*(v0 + 0.5*a*t)] and [v0 + a*t]. *)
Theorem Ramp_eval_closed_form :
  forall (epsilon v0 a T x0 : Real),
    0 <= epsilon -> 0 <= T ->
    exists r : Ramp.t,
      Ramp.Ramp epsilon v0 a T x0 = Ok r /\
      Ramp.v0 r = v0 /\ Ramp.a r = a /\ Ramp.duration r = T /\ Ramp.x0 r = x0 /\
      Ramp.v1 r = v0 + a * T /\
      Ramp.d r = T * (v0 + half * a * T) /\
      Ramp.x1 r = x0 + T * (v0 + half * a * T) /\
      Ramp.EvalPos epsilon r 0 = Ok x0 /\
      Ramp.EvalPos epsilon r T = Ok (x0 + T * (v0 + half * a * T)) /\
      Ramp.EvalVel epsilon r 0 = Ok v0 /\
      Ramp.EvalVel epsilon r T = Ok (v0 + a * T) /\
      forall t : Real, 0 < t -> t < T ->
        Ramp.EvalPos epsilon r t = Ok (x0 + t * (v0 + half * a * t)) /\
        Ramp.EvalVel epsilon r t = Ok (v0 + a * t).
Proof.
  intros epsilon v0 a T x0 Heps HT.
  exists (Ramp.fill v0 a T x0).
  split; [unfold Ramp.Ramp; decide_cmp; reflexivity|].
  do 7 (split; [reflexivity|]).
  unfold Ramp.EvalPos, Ramp.EvalVel; simpl.
  repeat split.
  - decide_cmp. reflexivity.
  - decide_cmp. simpl.
    destruct (Rleb T 0) eqn:E0.
    + f_equal. real_props. assert (T = 0) by real_lra. subst T. ring.
    + decide_cmp. reflexivity.
  - decide_cmp. reflexivity.
  - decide_cmp. simpl.
    destruct (Rleb T 0) eqn:E0.
    + f_equal. real_props. assert (T = 0) by real_lra. subst T. ring.
    + decide_cmp. reflexivity.
  - decide_cmp. simpl. f_equal. ring.
  - decide_cmp. simpl. reflexivity.
Qed.

Lemma Ramp_eval_closed_form_witness :
  0 <= tolerance /\ 0 <= 1 /\
  exists r : Ramp.t,
      Ramp.Ramp tolerance 1 1 1 0 = Ok r /\
      Ramp.v0 r = 1 /\ Ramp.a r = 1 /\ Ramp.duration r = 1 /\ Ramp.x0 r = 0 /\
      Ramp.v1 r = 1 + 1 * 1 /\
      Ramp.d r = 1 * (1 + half * 1 * 1) /\
      Ramp.x1 r = 0 + 1 * (1 + half * 1 * 1) /\
      Ramp.EvalPos tolerance r 0 = Ok 0 /\
      Ramp.EvalPos tolerance r 1 = Ok (0 + 1 * (1 + half * 1 * 1)) /\
      Ramp.EvalVel tolerance r 0 = Ok 1 /\
      Ramp.EvalVel tolerance r 1 = Ok (1 + 1 * 1) /\
      forall t : Real, 0 < t -> t < 1 ->
        Ramp.EvalPos tolerance r t = Ok (0 + t * (1 + half * 1 * t)) /\
        Ramp.EvalVel tolerance r t = Ok (1 + 1 * t).
Proof.
  assert (H0 : 0 <= tolerance) by (apply Rleb_le; reflexivity).
  assert (H1 : 0 <= 1) by (apply Rleb_le; reflexivity).
  split; [exact H0 | split; [exact H1 | exact (Ramp_eval_closed_form tolerance 1 1 1 0 H0 H1)]].
Defined.

Lemma Ramp_EvalPos_inside (epsilon v0 a T x0 t : Real) :
  0 <= epsilon -> 0 <= t -> t <= T ->
  Ramp.EvalPos epsilon (Ramp.fill v0 a T x0) t = Ok (x0 + t * (v0 + half * a * t)).
Proof.
  intros Heps Ht0 HtT. unfold Ramp.EvalPos; simpl.
  decide_cmp. simpl.
  destruct (Rleb t 0) eqn:E0.
  - f_equal. real_props. assert (t = 0) by real_lra. subst t. ring.
  - destruct (Rleb T t) eqn:E1.
    + f_equal. real_props. assert (t = T) by real_lra. subst t. ring.
    + f_equal. ring.
Qed.

Lemma deflection_time (v0 a : Real) : a <> 0 -> a * (- v0 / a) = - v0.
Proof. intros Ha. field. exact Ha. Qed.

Lemma FuzzyZero_false_nonzero (a epsilon : Real) :
  0 <= epsilon -> FuzzyZero a epsilon = false -> a <> 0.
Proof.
  intros Heps H Ha. subst a. unfold FuzzyZero, Abs in H.
  replace (Rltb 0 0) with false in H by reflexivity.
  real_props. real_lra.
Qed.


Ltac ramp_fields :=
  cbn [Ramp.fill Ramp.set_x0 Ramp.v0 Ramp.a Ramp.duration Ramp.x0 Ramp.v1 Ramp.d Ramp.x1] in *.

Lemma pos_increasing (x0 v0 a t s : Real) :
  t <= s -> 0 <= (v0 + a * t) + (v0 + a * s) -> pos x0 v0 a t <= pos x0 v0 a s.
Proof.
  intros Hts Hv. unfold pos.
  assert (E : (x0 + s * (v0 + half * a * s)) - (x0 + t * (v0 + half * a * t))
              = (s - t) * (half * ((v0 + a * t) + (v0 + a * s)))) by (to_Q; ring).
  set (w := (v0 + a * t) + (v0 + a * s)) in *. clearbody w.
  set (ps := x0 + s * (v0 + half * a * s)) in *.
  set (pt := x0 + t * (v0 + half * a * t)) in *. clearbody ps pt.
  real_nra.
Qed.

Lemma pos_decreasing (x0 v0 a t s : Real) :
  t <= s -> (v0 + a * t) + (v0 + a * s) <= 0 -> pos x0 v0 a s <= pos x0 v0 a t.
Proof.
  intros Hts Hv. unfold pos.
  assert (E : (x0 + s * (v0 + half * a * s)) - (x0 + t * (v0 + half * a * t))
              = (s - t) * (half * ((v0 + a * t) + (v0 + a * s)))) by (to_Q; ring).
  set (w := (v0 + a * t) + (v0 + a * s)) in *. clearbody w.
  set (ps := x0 + s * (v0 + half * a * s)) in *.
  set (pt := x0 + t * (v0 + half * a * t)) in *. clearbody ps pt.
  real_nra.
Qed.

Lemma tight_fill epsilon v0 a T x0 tmin tmax :
  0 <= epsilon ->
  0 <= tmin -> tmin <= T -> 0 <= tmax -> tmax <= T ->
  (forall t, 0 <= t -> t <= T ->
     pos x0 v0 a tmin <= pos x0 v0 a t /\ pos x0 v0 a t <= pos x0 v0 a tmax) ->
  tight epsilon (Ramp.fill v0 a T x0) T (pos x0 v0 a tmin) (pos x0 v0 a tmax).
Proof.
  intros Heps H1 H2 H3 H4 Hb. repeat split.
  - intros t Ht0 HtT. exists (pos x0 v0 a t). split.
    + apply Ramp_EvalPos_inside; assumption.
    + apply Hb; assumption.
  - exists tmin. rewrite Ramp_EvalPos_inside by assumption. auto.
  - exists tmax. rewrite Ramp_EvalPos_inside by assumption. auto.
Qed.

Lemma pos_0 x0 v0 a : pos x0 v0 a 0 = x0.
Proof. unfold pos. ring. Qed.

Lemma FuzzyZero_0 epsilon : 0 <= epsilon -> FuzzyZero 0 epsilon = true.
Proof. intros H. apply Rleb_le. exact H. Qed.

Lemma Min_l (x y : Real) : x <= y -> Min x y = x.
Proof. intros H. unfold Min. destruct (Rltb x y) eqn:E; [reflexivity | real_lra]. Qed.

Lemma Min_r (x y : Real) : y <= x -> Min x y = y.
Proof. intros H. unfold Min. destruct (Rltb x y) eqn:E; [real_lra | reflexivity]. Qed.

Lemma Max_l (x y : Real) : y <= x -> Max x y = x.
Proof. intros H. unfold Max. destruct (Rltb y x) eqn:E; [reflexivity | real_lra]. Qed.

Lemma Max_r (x y : Real) : x <= y -> Max x y = y.
Proof. intros H. unfold Max. destruct (Rltb y x) eqn:E; [real_lra | reflexivity]. Qed.

(** C2 (amended).  For a ramp with [T >= 0]: when the acceleration is
    fuzzily zero, [GetPeaks] returns the two endpoints ordered by the sign
    of [v0] ([x0] first when [v0 > 0], [x1] first otherwise), and with
    acceleration exactly zero non-decreasing motion yields [bmin = x0].
    The returned bounds are tight (every position over [[0, T]] lies
    between them and both are attained) when the motion does not reverse:
    the acceleration is exactly zero, or it is not fuzzily zero and [v0]
    is zero or has its sign.  When the acceleration is not fuzzily zero,
    the motion reverses strictly inside [(0, T)] and the net displacement
    does not oppose the acceleration ([a*d >= 0]), the bounds are the
    position that [EvalPos] returns at the reversal time [-v0/a] and the
    final position [x1], and the start position [x0] lies between
    them. *)
Theorem Ramp_GetPeaks_tight :
  forall (epsilon v0 a T x0 : Real),
    0 <= epsilon -> 0 <= T ->
    let r := Ramp.fill v0 a T x0 in
    (FuzzyZero a epsilon = true ->
       Ramp.GetPeaks epsilon r =
         Ok (if Rltb 0 v0 then (x0, Ramp.x1 r) else (Ramp.x1 r, x0))) /\
    (a = 0 -> 0 <= v0 ->
       exists bmax, Ramp.GetPeaks epsilon r = Ok (x0, bmax)) /\
    (a = 0 \/
     (FuzzyZero a epsilon = false /\
      ((0 < a /\ 0 <= v0) \/ (a < 0 /\ v0 <= 0))) ->
     exists bmin bmax,
       Ramp.GetPeaks epsilon r = Ok (bmin, bmax) /\
       tight epsilon r T bmin bmax) /\
    (FuzzyZero a epsilon = false ->
     0 < - v0 / a -> - v0 / a < T -> 0 <= a * Ramp.d r ->
     exists xD,
       Ramp.EvalPos epsilon r (- v0 / a) = Ok xD /\
       Ramp.GetPeaks epsilon r =
         Ok (if Rltb 0 a then (xD, Ramp.x1 r) else (Ramp.x1 r, xD)) /\
       (if Rltb 0 a then xD <= x0 /\ x0 <= Ramp.x1 r
        else Ramp.x1 r <= x0 /\ x0 <= xD)).
Proof.
  intros epsilon v0 a T x0 Heps HT r. subst r. unfold Ramp.GetPeaks. ramp_fields.
  fold (pos x0 v0 a T). split; [|split; [|split]].
  - intros Hz. rewrite Hz. destruct (Rltb 0 v0); reflexivity.
  - intros Ha Hv. subst a. rewrite (FuzzyZero_0 epsilon Heps).
    destruct (Rltb 0 v0) eqn:Ev; real_props.
    + eexists. reflexivity.
    + exists x0. assert (v0 = 0) by real_lra. subst v0.
      replace (pos x0 0 0 T) with x0 by (unfold pos; ring). reflexivity.
  - intros [Ha | [Hnz Hsign]].
    + subst a. rewrite (FuzzyZero_0 epsilon Heps).
      destruct (Rltb 0 v0) eqn:Ev; real_props.
      * exists (pos x0 v0 0 0), (pos x0 v0 0 T). split; [rewrite pos_0; reflexivity|].
        apply tight_fill; try assumption; try real_lra.
        intros t Ht0 HtT. split; apply pos_increasing; try assumption; real_nra.
      * exists (pos x0 v0 0 T), (pos x0 v0 0 0). split; [rewrite pos_0; reflexivity|].
        apply tight_fill; try assumption; try real_lra.
        intros t Ht0 HtT. split; apply pos_decreasing; try assumption; real_nra.
    + pose proof (FuzzyZero_false_nonzero a epsilon Heps Hnz) as Ha.
      pose proof (deflection_time v0 a Ha) as HtD.
      rewrite Hnz.
      set (tD := - v0 / a) in *. clearbody tD.
      destruct Hsign as [[Hpos Hv] | [Hneg Hv]].
      * replace (Rltb 0 a) with true by (symmetry; apply Rltb_lt; exact Hpos).
        replace (Rleb tD 0) with true by (symmetry; apply Rleb_le; real_nra).
        cbn [orb].
        exists (pos x0 v0 a 0), (pos x0 v0 a T). split; [rewrite pos_0; reflexivity|].
        apply tight_fill; try assumption; try real_lra.
        intros t Ht0 HtT. split; apply pos_increasing; try assumption; real_nra.
      * replace (Rltb 0 a) with false
          by (symmetry; apply Rltb_ge; apply Qclt_le_weak; exact Hneg).
        replace (Rleb tD 0) with true by (symmetry; apply Rleb_le; real_nra).
        cbn [orb].
        exists (pos x0 v0 a T), (pos x0 v0 a 0). split; [rewrite pos_0; reflexivity|].
        apply tight_fill; try assumption; try real_lra.
        intros t Ht0 HtT. split; apply pos_decreasing; try assumption; real_nra.
  - intros Hnz HD0 HDT Hd.
    pose proof (FuzzyZero_false_nonzero a epsilon Heps Hnz) as Ha.
    pose proof (deflection_time v0 a Ha) as HtD.
    rewrite Hnz.
    set (tD := - v0 / a) in *. clearbody tD.
    fold (pos 0 v0 a T) in Hd.
    replace (Rleb tD 0) with false by (symmetry; apply Rleb_gt; exact HD0).
    replace (Rleb T tD) with false by (symmetry; apply Rleb_gt; exact HDT).
    cbn [orb].
    rewrite Ramp_EvalPos_inside by (try assumption; real_lra). cbn [bind].
    fold (pos x0 v0 a tD).
    exists (pos x0 v0 a tD). split; [reflexivity|].
    destruct (Rltb 0 a) eqn:Epos.
    + real_props.
      assert (Hd' : 0 <= T * (v0 + half * a * T)).
      { unfold pos in Hd. set (dd := T * (v0 + half * a * T)) in *. clearbody dd. real_nra. }
      assert (HxT : x0 <= pos x0 v0 a T) by (unfold pos; real_lra).
      assert (Hx0 : pos x0 v0 a tD <= pos x0 v0 a 0)
        by (apply pos_decreasing; real_nra).
      rewrite pos_0 in Hx0.
      assert (HxD : pos x0 v0 a tD <= pos x0 v0 a T)
        by (apply Qcle_trans with x0; assumption).
      rewrite Min_r, Max_l by assumption. split; [reflexivity | split; assumption].
    + assert (Hneg : a < 0)
        by (real_props; apply Qcle_lt_or_eq in Epos; destruct Epos; [assumption | contradiction]).
      clear Epos.
      assert (Hd' : T * (v0 + half * a * T) <= 0).
      { unfold pos in Hd. set (dd := T * (v0 + half * a * T)) in *. clearbody dd. real_nra. }
      assert (HxT : pos x0 v0 a T <= x0) by (unfold pos; real_lra).
      assert (Hx0 : pos x0 v0 a 0 <= pos x0 v0 a tD)
        by (apply pos_increasing; real_nra).
      rewrite pos_0 in Hx0.
      assert (HxD : pos x0 v0 a T <= pos x0 v0 a tD)
        by (apply Qcle_trans with x0; assumption).
      rewrite Min_l, Max_r by assumption. split; [reflexivity | split; assumption].
Qed.

Lemma Ramp_GetPeaks_tight_witness :
  0 <= tolerance /\ 0 <= Q2Qc 2 /\
  exists bmin bmax,
    Ramp.GetPeaks tolerance (Ramp.fill 1 1 (Q2Qc 2) 0) = Ok (bmin, bmax) /\
    tight tolerance (Ramp.fill 1 1 (Q2Qc 2) 0) (Q2Qc 2) bmin bmax.
Proof.
  assert (H0 : 0 <= tolerance) by (apply Rleb_le; reflexivity).
  assert (H1 : 0 <= Q2Qc 2) by (apply Rleb_le; reflexivity).
  split; [exact H0 | split; [exact H1 |]].
  apply (Ramp_GetPeaks_tight tolerance 1 1 (Q2Qc 2) 0 H0 H1).
  right. split; [reflexivity|].
  left. split; [apply Rltb_lt; reflexivity | apply Rleb_le; reflexivity].
Defined.

(** C2, as stated, fails inside the tolerance: with [a = 1e-10], which is
    fuzzily zero, [v0 = -1e-10], [T = 2] and [x0 = 0], [GetPeaks] returns
    the bounds [(0, 0)] although the position at time [1] is [-0.5e-10]. *)
Lemma Ramp_GetPeaks_fuzzy_zero_not_tight :
  Ramp.Ramp tolerance (- tolerance) tolerance (Q2Qc 2) 0
    = Ok (Ramp.fill (- tolerance) tolerance (Q2Qc 2) 0) /\
  Ramp.GetPeaks tolerance (Ramp.fill (- tolerance) tolerance (Q2Qc 2) 0)
    = Ok (0, 0) /\
  Ramp.EvalPos tolerance (Ramp.fill (- tolerance) tolerance (Q2Qc 2) 0) 1
    = Ok (- (half * tolerance)) /\
  ~ (0 <= - (half * tolerance)).
Proof.
  split; [real_compute | split; [real_compute | split; [real_compute |]]].
  intros H. apply Rleb_le in H. discriminate H.
Qed.

(** Outside the tolerance the endpoints are ordered by the sign of [a]
    alone: with [v0 = -5], [a = 1], [T = 1] and [x0 = 0] the motion
    decreases from [0] to [-4.5], and [GetPeaks] returns [bmin = 0] and
    [bmax = -4.5]. *)
Lemma Ramp_GetPeaks_endpoints_by_sign_of_a :
  Ramp.GetPeaks tolerance (Ramp.fill (Q2Qc (-5)) 1 1 0)
    = Ok (0, Q2Qc (-9 # 2)) /\
  Q2Qc (-9 # 2) < 0.
Proof.
  split; [real_compute | apply Rltb_lt; reflexivity].
Qed.

(** Where the motion reverses inside the ramp, the lower bound is the
    position that [EvalPos] computes at the reversal time, which on
    binary64 numbers is that position only up to rounding.  For the ramp
    with [v0 = -2.31], [a = 0.11], [T = 52.5] and [x0 = -0.22] the
    reversal time is [21] and [GetPeaks] returns
    [bmin = -24.474999999999998], while the position at
    [t = 20.999999999999996] is [-24.475000000000001], below [bmin]. *)
Lemma Ramp_GetPeaks_reversal_rounds_binary64 :
  PrimFloat.eqb (- (-2.31) / 0.11) 21 = true /\
  Binary64.Ramp.GetPeaks 1e-10 (Binary64.Ramp.fill (-2.31) 0.11 52.5 (-0.22))
    = Ok (-24.474999999999998, 30.098750000000006)%float /\
  Binary64.Ramp.EvalPos 1e-10 (Binary64.Ramp.fill (-2.31) 0.11 52.5 (-0.22))
    20.999999999999996
    = Ok (-24.475000000000001)%float /\
  PrimFloat.ltb (-24.475000000000001) (-24.474999999999998) = true.
Proof.
  repeat split; reflexivity.
Qed.

(** ** Results and vectors *)

Lemma Ok_inj {A : Type} (x y : A) : Ok x = Ok y -> x = y.
Proof. intros H. injection H as H. exact H. Qed.

Lemma at_index_nat {A : Type} (name : string) (v : list A) (i : nat) :
  at_index name v (Z.of_nat i) =
  match nth_error v i with
  | Some x => Ok x
  | None => OutOfRange name (Z.of_nat i)
  end.
Proof.
  unfold at_index.
  replace (Z.of_nat i <? 0)%Z with false by (symmetry; apply Z.ltb_ge; lia).
  rewrite Nat2Z.id. reflexivity.
Qed.

Lemma back_snoc {A : Type} (name : string) (l : list A) (x : A) :
  back name (l ++ [x]) = Ok x.
Proof.
  unfold back. rewrite length_app. simpl.
  replace (Z.of_nat (List.length l + 1) - 1)%Z with (Z.of_nat (List.length l)) by lia.
  rewrite at_index_nat, nth_error_app2, Nat.sub_diag by lia. reflexivity.
Qed.

Lemma back_Ok {A : Type} (name : string) (l : list A) (x : A) :
  back name l = Ok x <-> exists l', l = l' ++ [x].
Proof.
  split.
  - destruct l as [|a l]; [discriminate|].
    destruct (exists_last (l := a :: l)) as [l' [y ->]]; [discriminate|].
    rewrite back_snoc. intros [= ->]. exists l'. reflexivity.
  - intros [l' ->]. apply back_snoc.
Qed.

(** ** Sums *)

Lemma total_app (acc : Real) (l1 l2 : list Real) :
  total acc (l1 ++ l2) = total (total acc l1) l2.
Proof. apply fold_left_app. Qed.


Lemma running_app (acc : Real) (l1 l2 : list Real) :
  running acc (l1 ++ l2) = running acc l1 ++ running (total acc l1) l2.
Proof.
  revert acc. induction l1 as [|h l1 IH]; intros acc; simpl.
  - reflexivity.
  - rewrite IH. reflexivity.
Qed.

Lemma running_length (acc : Real) (l : list Real) :
  List.length (running acc l) = List.length l.
Proof. revert acc. induction l; intros; simpl; auto. Qed.

(** ** ParabolicCurve: the loops and what they maintain *)

Lemma fold_push_ramp (rs : list Ramp.t) (c : ParabolicCurve.t) :
  fold_left ParabolicCurve.push_ramp rs c =
  ParabolicCurve.mk
    (ParabolicCurve.ramps c ++ rs)
    (ParabolicCurve.switchpointsList c
       ++ running (ParabolicCurve.duration c) (map Ramp.duration rs))
    (ParabolicCurve.x0 c) (ParabolicCurve.x1 c)
    (ParabolicCurve.v0 c) (ParabolicCurve.v1 c)
    (total (ParabolicCurve.d c) (map Ramp.d rs))
    (total (ParabolicCurve.duration c) (map Ramp.duration rs)).
Proof.
  revert c. induction rs as [|r rs IH]; intros c; simpl.
  - rewrite !app_nil_r. destruct c; reflexivity.
  - rewrite IH. unfold ParabolicCurve.push_ramp; simpl.
    rewrite <- !app_assoc. reflexivity.
Qed.

Lemma rebase_d (rs : list Ramp.t) (x : Real) :
  map Ramp.d (ParabolicCurve.rebase rs x) = map Ramp.d rs.
Proof. revert x. induction rs; intros; simpl; f_equal; auto. Qed.

Lemma rebase_duration (rs : list Ramp.t) (x : Real) :
  map Ramp.duration (ParabolicCurve.rebase rs x) = map Ramp.duration rs.
Proof. revert x. induction rs; intros; simpl; f_equal; auto. Qed.

Lemma rebase_idempotent (rs : list Ramp.t) (x : Real) :
  ParabolicCurve.rebase (ParabolicCurve.rebase rs x) x = ParabolicCurve.rebase rs x.
Proof.
  revert x. induction rs as [|r rs IH]; intros x; simpl.
  - reflexivity.
  - rewrite IH. reflexivity.
Qed.

Lemma back_app_r {A : Type} (name : string) (l1 l2 : list A) (x : A) :
  l2 <> [] -> (back name (l1 ++ l2) = Ok x <-> back name l2 = Ok x).
Proof.
  intros Hne. destruct (exists_last Hne) as [l' [y ->]].
  rewrite app_assoc, !back_snoc. reflexivity.
Qed.

Lemma back_map {A B : Type} (f : A -> B) (name : string) (l : list A) (x : A) :
  back name l = Ok x -> back name (map f l) = Ok (f x).
Proof.
  rewrite back_Ok. intros [l' ->]. rewrite map_app. apply back_snoc.
Qed.

Lemma back_nonempty {A : Type} (name : string) (l : list A) :
  l <> [] -> exists x, back name l = Ok x.
Proof.
  intros Hne. destruct (exists_last Hne) as [l' [y ->]].
  exists y. apply back_snoc.
Qed.

Lemma rebase_v1 (rs : list Ramp.t) (x : Real) :
  map Ramp.v1 (ParabolicCurve.rebase rs x) = map Ramp.v1 rs.
Proof. revert x. induction rs; intros; simpl; f_equal; auto. Qed.

(** The constructor on a non-empty sequence, in closed form. *)
Lemma ParabolicCurve_closed_form (r0 : Ramp.t) (rest : list Ramp.t) :
  exists rlast,
    back "rampsIn" (r0 :: rest) = Ok rlast /\
    ParabolicCurve.ParabolicCurve (r0 :: rest) =
    Ok (ParabolicCurve.mk
          (ParabolicCurve.rebase (r0 :: rest) (Ramp.x0 r0))
          (0 :: running 0 (map Ramp.duration (r0 :: rest)))
          (Ramp.x0 r0)
          (Ramp.x0 r0 + total 0 (map Ramp.d (r0 :: rest)))
          (Ramp.v0 r0) (Ramp.v1 rlast)
          (total 0 (map Ramp.d (r0 :: rest)))
          (total 0 (map Ramp.duration (r0 :: rest)))).
Proof.
  destruct (back_nonempty "rampsIn" (r0 :: rest)) as [rlast Hb]; [discriminate|].
  exists rlast. split; [exact Hb|].
  unfold ParabolicCurve.ParabolicCurve.
  rewrite Hb, fold_push_ramp. reflexivity.
Qed.

Lemma Initialize_closed_form (self : ParabolicCurve.t) (r0 : Ramp.t) (rest : list Ramp.t) :
  ParabolicCurve.Initialize self (r0 :: rest) = ParabolicCurve.ParabolicCurve (r0 :: rest).
Proof.
  destruct (ParabolicCurve_closed_form r0 rest) as [rlast [Hb ->]].
  unfold ParabolicCurve.Initialize.
  rewrite Hb. cbn [front at_index Z.ltb Z.compare Z.to_nat nth_error bind].
  rewrite fold_push_ramp. reflexivity.
Qed.

(** [Append] on a non-empty argument, in closed form. *)
Lemma Append_closed_form (self curve : ParabolicCurve.t) (b0 : Ramp.t) (rest : list Ramp.t) :
  ParabolicCurve.ramps curve = b0 :: rest ->
  ParabolicCurve.Append self curve =
  Ok (match ParabolicCurve.ramps self with
      | [] =>
          ParabolicCurve.mk
            (ParabolicCurve.rebase (b0 :: rest) (Ramp.x0 b0))
            (ParabolicCurve.switchpointsList self
               ++ 0 :: running 0 (map Ramp.duration (b0 :: rest)))
            (Ramp.x0 b0)
            (Ramp.x0 b0 + total 0 (map Ramp.d (b0 :: rest)))
            (ParabolicCurve.v0 self) (ParabolicCurve.v1 curve)
            (total 0 (map Ramp.d (b0 :: rest)))
            (total 0 (map Ramp.duration (b0 :: rest)))
      | _ :: _ =>
          ParabolicCurve.mk
            (ParabolicCurve.rebase (ParabolicCurve.ramps self ++ b0 :: rest)
               (ParabolicCurve.x0 self))
            (ParabolicCurve.switchpointsList self
               ++ running (ParabolicCurve.duration self)
                    (map Ramp.duration (b0 :: rest)))
            (ParabolicCurve.x0 self)
            (ParabolicCurve.x0 self
               + total (ParabolicCurve.d self) (map Ramp.d (b0 :: rest)))
            (ParabolicCurve.v0 self) (ParabolicCurve.v1 curve)
            (total (ParabolicCurve.d self) (map Ramp.d (b0 :: rest)))
            (total (ParabolicCurve.duration self) (map Ramp.duration (b0 :: rest)))
      end).
Proof.
  intros Hc. unfold ParabolicCurve.Append, ParabolicCurve.IsEmpty. rewrite Hc.
  destruct (ParabolicCurve.ramps self) as [|a0 arest] eqn:Hs.
  - cbn [assert negb bind List.length Nat.eqb at_index Z.ltb Z.compare Z.to_nat nth_error].
    rewrite fold_push_ramp. cbn -[Qcplus total running]. try rewrite Hs.
    rewrite <- app_assoc. reflexivity.
  - cbn [assert negb bind List.length Nat.eqb].
    rewrite fold_push_ramp. cbn -[Qcplus total running]. try rewrite Hs. reflexivity.
Qed.

Lemma switch_table_rebase (rs : list Ramp.t) (x : Real) :
  switch_table (ParabolicCurve.rebase rs x) = switch_table rs.
Proof.
  destruct rs as [|r rs]; [reflexivity|].
  unfold switch_table. rewrite rebase_duration. reflexivity.
Qed.

Lemma aggregates_agree_ctor (r0 : Ramp.t) (rest : list Ramp.t) (c : ParabolicCurve.t) :
  ParabolicCurve.ParabolicCurve (r0 :: rest) = Ok c -> aggregates_agree c.
Proof.
  destruct (ParabolicCurve_closed_form r0 rest) as [rlast [Hb ->]].
  intros E. apply Ok_inj in E. subst c. unfold aggregates_agree. cbn [ParabolicCurve.ramps
    ParabolicCurve.switchpointsList ParabolicCurve.x0 ParabolicCurve.x1
    ParabolicCurve.v1 ParabolicCurve.d ParabolicCurve.duration].
  rewrite switch_table_rebase, rebase_duration, rebase_d, rebase_idempotent.
  repeat split.
  intros r Hr. apply (back_map Ramp.v1) in Hr. rewrite rebase_v1 in Hr.
  apply (back_map Ramp.v1) in Hb. 
  assert (E : back "ramps" (map Ramp.v1 (r0 :: rest)) = Ok (Ramp.v1 rlast)).
  { apply back_Ok. apply back_Ok in Hb. exact Hb. }
  congruence.
Qed.

Lemma built_aggregates_agree (c : ParabolicCurve.t) :
  built c -> aggregates_agree c.
Proof.
  induction 1 as [rampsIn c Hc | self rampsIn c Hc
                 | self curve c Hs IHs Hcu IHcu Hc | self | self x Hs IHs].
  - destruct rampsIn as [|r0 rest]; [discriminate|].
    eapply aggregates_agree_ctor; eassumption.
  - destruct rampsIn as [|r0 rest]; [discriminate|].
    rewrite Initialize_closed_form in Hc.
    eapply aggregates_agree_ctor; eassumption.
  - destruct (ParabolicCurve.ramps curve) as [|b0 rest] eqn:Hrc.
    { unfold ParabolicCurve.Append, ParabolicCurve.IsEmpty in Hc.
      rewrite Hrc in Hc. discriminate. }
    rewrite (Append_closed_form self curve b0 rest Hrc) in Hc.
    apply Ok_inj in Hc. subst c.
    destruct IHs as (Is1 & Is2 & Is3 & Is4 & Is5 & Is6).
    destruct IHcu as (Ic1 & Ic2 & Ic3 & Ic4 & Ic5 & Ic6).
    rewrite Hrc in *.
    assert (Hv1 : forall (l : list Ramp.t) (y : Real) (r : Ramp.t),
               back "ramps" (ParabolicCurve.rebase (l ++ b0 :: rest) y) = Ok r ->
               ParabolicCurve.v1 curve = Ramp.v1 r).
    { intros l y r Hr. apply (back_map Ramp.v1) in Hr.
      rewrite rebase_v1, map_app in Hr.
      apply back_app_r in Hr; [|discriminate].
      destruct (back_nonempty "ramps" (b0 :: rest)) as [r' Hr']; [discriminate|].
      rewrite (Ic6 r' Hr'). apply (back_map Ramp.v1) in Hr'. congruence. }
    destruct (ParabolicCurve.ramps self) as [|a0 arest] eqn:Hrs.
    + unfold aggregates_agree. cbn [ParabolicCurve.ramps
        ParabolicCurve.switchpointsList ParabolicCurve.x0 ParabolicCurve.x1
        ParabolicCurve.v1 ParabolicCurve.d ParabolicCurve.duration].
      rewrite switch_table_rebase, rebase_duration, rebase_d, rebase_idempotent.
      rewrite Is1. repeat split. intros r Hr. apply (Hv1 [] _ r Hr).
    + unfold aggregates_agree. cbn [ParabolicCurve.ramps
        ParabolicCurve.switchpointsList ParabolicCurve.x0 ParabolicCurve.x1
        ParabolicCurve.v1 ParabolicCurve.d ParabolicCurve.duration].
      rewrite switch_table_rebase, rebase_duration, rebase_d, rebase_idempotent.
      rewrite Is1, Is2, Is3. repeat split.
      * change (switch_table ((a0 :: arest) ++ b0 :: rest))
          with (0 :: running 0 (map Ramp.duration ((a0 :: arest) ++ b0 :: rest))).
        rewrite map_app, running_app. reflexivity.
      * rewrite map_app, total_app. reflexivity.
      * rewrite map_app, total_app. reflexivity.
      * intros r Hr. apply (Hv1 _ _ r Hr).
  - unfold aggregates_agree; simpl. repeat split; try ring.
    intros r Hr. discriminate.
  - destruct IHs as (Is1 & Is2 & Is3 & Is4 & Is5 & Is6).
    unfold aggregates_agree. cbn [ParabolicCurve.SetInitialValue ParabolicCurve.ramps
        ParabolicCurve.switchpointsList ParabolicCurve.x0 ParabolicCurve.x1
        ParabolicCurve.v1 ParabolicCurve.d ParabolicCurve.duration].
    rewrite switch_table_rebase, rebase_duration, rebase_d, rebase_idempotent.
    repeat split; try assumption.
    intros r Hr. apply (back_map Ramp.v1) in Hr. rewrite rebase_v1 in Hr.
    destruct (ParabolicCurve.ramps self) as [|a0 arest] eqn:Hrs; [discriminate|].
    destruct (back_nonempty "ramps" (a0 :: arest)) as [r' Hr']; [discriminate|].
    rewrite (Is6 r' Hr'). apply (back_map Ramp.v1) in Hr'. congruence.
Qed.

(** ** ParabolicCurve: the operations *)

Lemma two_ramp_curve_constructed :
  ParabolicCurve.ParabolicCurve [Ramp.fill 0 1 1 0; Ramp.fill (Q2Qc 2) 0 (Q2Qc 2) 0]
  = Ok two_ramp_curve.
Proof. real_compute. Qed.

Lemma one_ramp_curve_constructed :
  ParabolicCurve.ParabolicCurve [Ramp.fill 1 0 1 0] = Ok one_ramp_curve.
Proof. real_compute. Qed.



(** C3 (the code departs from it).  In the curve that the constructor
    builds from two ramps created at position [0], the second ramp has
    been moved to [x0 = 1/2] with [d = 4] while its [x1] is still [4]:
    [x1 = x0 + d] does not hold. *)
Theorem SetInitialValue_leaves_ramp_x1_stale :
  ParabolicCurve.ParabolicCurve [Ramp.fill 0 1 1 0; Ramp.fill (Q2Qc 2) 0 (Q2Qc 2) 0]
    = Ok two_ramp_curve /\
  nth_error (ParabolicCurve.ramps two_ramp_curve) 1
    = Some (Ramp.mk (Q2Qc 2) 0 (Q2Qc 2) (Q2Qc (1 # 2)) (Q2Qc 2) (Q2Qc 4) (Q2Qc 4)) /\
  ramp_consistent (Ramp.fill (Q2Qc 2) 0 (Q2Qc 2) 0) /\
  ~ ramp_consistent
      (Ramp.mk (Q2Qc 2) 0 (Q2Qc 2) (Q2Qc (1 # 2)) (Q2Qc 2) (Q2Qc 4) (Q2Qc 4)).
Proof.
  split; [exact two_ramp_curve_constructed | split; [reflexivity | split]].
  - unfold ramp_consistent. repeat split.
  - intros (_ & _ & H). apply Real_eq_iff in H. discriminate H.
Qed.

(** The stale [x1] is read back: just before the end of the curve, whose
    final position is [9/2], [EvalPos] answers with the last ramp's
    [x1 = 4]. *)
Lemma EvalPos_reads_stale_x1 :
  ParabolicCurve.EvalPos tolerance two_ramp_curve (Q2Qc 3 - half * tolerance)
    = Ok (Q2Qc 4) /\
  ParabolicCurve.EvalPos tolerance two_ramp_curve (Q2Qc 3)
    = Ok (Q2Qc (9 # 2)).
Proof. split; real_compute. Qed.

(** C6 (the code departs from it).  On an empty sequence the constructor
    fails its assertion, while [Initialize], which has no such assertion,
    reads [rampsIn.front()] out of range. *)
Theorem Initialize_empty_reads_out_of_range :
  ParabolicCurve.ParabolicCurve [] = AssertFail /\
  forall self : ParabolicCurve.t,
    ParabolicCurve.Initialize self [] = OutOfRange "rampsIn" 0.
Proof. split; [reflexivity | intros self; reflexivity]. Qed.

(** What [Append] does on a reset curve: every aggregate of the argument
    is adopted except [v0], which stays [0]. *)
Lemma Append_to_reset_curve (E B : ParabolicCurve.t) :
  built B -> ParabolicCurve.ramps B <> [] ->
  ParabolicCurve.Append (ParabolicCurve.Reset E) B =
  Ok (ParabolicCurve.mk
        (ParabolicCurve.ramps B) (ParabolicCurve.switchpointsList B)
        (ParabolicCurve.x0 B) (ParabolicCurve.x1 B)
        0 (ParabolicCurve.v1 B)
        (ParabolicCurve.d B) (ParabolicCurve.duration B)).
Proof.
  intros HB Hne.
  destruct (built_aggregates_agree B HB) as (I1 & I2 & I3 & I4 & I5 & I6).
  destruct (ParabolicCurve.ramps B) as [|b0 rest] eqn:Hr; [contradiction|].
  rewrite (Append_closed_form _ B b0 rest Hr).
  cbn [ParabolicCurve.Reset ParabolicCurve.ramps ParabolicCurve.switchpointsList
       ParabolicCurve.v0 app].
  assert (Hx0 : Ramp.x0 b0 = ParabolicCurve.x0 B).
  { pose proof I5 as I5'. simpl in I5'. injection I5' as Eb0 _. rewrite Eb0. reflexivity. }
  rewrite Hx0, <- I5, I1, I4, I3, I2. reflexivity.
Qed.

(** C8 (the code departs from it).  After [Append] of the one-ramp curve,
    whose [v0] is [1], to a reset curve, the result agrees with the
    argument in every field but [v0], which is still [0]. *)
Theorem Append_to_empty_keeps_v0 :
  ParabolicCurve.Append
    (ParabolicCurve.Reset one_ramp_curve) one_ramp_curve
  = Ok (ParabolicCurve.mk [Ramp.mk 1 0 1 0 1 1 1] [0; 1] 0 1 0 1 1 1) /\
  ParabolicCurve.v0 one_ramp_curve = 1 /\
  (0 : Real) <> 1.
Proof.
  split; [real_compute | split; [reflexivity | discriminate]].
Qed.

(** C7 (amended).  After [A.Append(B)] with both curves non-empty, the
    duration is the old duration of [A] with the durations of the ramps
    of [B] added to it one at a time, in their order; the switch-point
    table is the old table of [A] followed by the sums reached on the
    way; [v1] is that of the last ramp of [B]; and [d] is the old [d] of
    [A] with the [d] of the ramps of [B] added one at a time.  The
    duration of [B], its switch points after the leading [0] and its [d]
    are the same sums started from [0].  When [B] has a single ramp, this
    is the old duration of [A] plus the duration of [B], the one switch
    point of [B] shifted by the old duration of [A], and the old [d] of
    [A] plus the [d] of [B]. *)
Theorem Append_concatenates :
  forall A B : ParabolicCurve.t,
    built B ->
    ParabolicCurve.ramps A <> [] ->
    ParabolicCurve.ramps B <> [] ->
    exists (A' : ParabolicCurve.t) (rlast : Ramp.t),
      ParabolicCurve.Append A B = Ok A' /\
      back "ramps" (ParabolicCurve.ramps B) = Ok rlast /\
      ParabolicCurve.duration A' =
        total (ParabolicCurve.duration A)
              (map Ramp.duration (ParabolicCurve.ramps B)) /\
      ParabolicCurve.duration B =
        total 0 (map Ramp.duration (ParabolicCurve.ramps B)) /\
      ParabolicCurve.switchpointsList A' =
        ParabolicCurve.switchpointsList A
          ++ running (ParabolicCurve.duration A)
                     (map Ramp.duration (ParabolicCurve.ramps B)) /\
      tl (ParabolicCurve.switchpointsList B) =
        running 0 (map Ramp.duration (ParabolicCurve.ramps B)) /\
      ParabolicCurve.v1 A' = Ramp.v1 rlast /\
      ParabolicCurve.d A' =
        total (ParabolicCurve.d A) (map Ramp.d (ParabolicCurve.ramps B)) /\
      ParabolicCurve.d B = total 0 (map Ramp.d (ParabolicCurve.ramps B)) /\
      map Ramp.d (ParabolicCurve.ramps A')
        = map Ramp.d (ParabolicCurve.ramps A ++ ParabolicCurve.ramps B) /\
      (forall r : Ramp.t, ParabolicCurve.ramps B = [r] ->
         ParabolicCurve.duration A' =
           ParabolicCurve.duration A + ParabolicCurve.duration B /\
         ParabolicCurve.switchpointsList A' =
           ParabolicCurve.switchpointsList A
             ++ map (fun s => ParabolicCurve.duration A + s)
                    (tl (ParabolicCurve.switchpointsList B)) /\
         ParabolicCurve.d A' = ParabolicCurve.d A + ParabolicCurve.d B).
Proof.
  intros A B HB HA Hne.
  destruct (built_aggregates_agree B HB) as (I1 & I2 & I3 & I4 & I5 & I6).
  destruct (back_nonempty "ramps" (ParabolicCurve.ramps B) Hne) as [rlast Hlast].
  destruct (ParabolicCurve.ramps B) as [|b0 rest] eqn:Hr; [contradiction|].
  destruct (ParabolicCurve.ramps A) as [|a0 arest] eqn:HrA; [contradiction|].
  eexists. exists rlast. split.
  { rewrite (Append_closed_form A B b0 rest Hr), HrA. reflexivity. }
  cbn [ParabolicCurve.ramps ParabolicCurve.switchpointsList ParabolicCurve.v1
       ParabolicCurve.d ParabolicCurve.duration].
  split; [exact Hlast|].
  split; [reflexivity|]. split; [exact I2|].
  split; [reflexivity|]. split; [rewrite I1; reflexivity|].
  split; [apply I6; exact Hlast|].
  split; [reflexivity|]. split; [exact I3|].
  split; [apply rebase_d|].
  intros r Hr1. injection Hr1 as -> ->.
  rewrite I1, I2, I3.
  cbn [map total fold_left running switch_table tl].
  replace (0 + Ramp.duration r) with (Ramp.duration r) by ring.
  replace (0 + Ramp.d r) with (Ramp.d r) by ring.
  repeat split; reflexivity.
Qed.

Lemma Append_concatenates_witness :
  built two_ramp_curve /\
  ParabolicCurve.ramps one_ramp_curve <> [] /\
  ParabolicCurve.ramps two_ramp_curve <> [] /\
  exists A' : ParabolicCurve.t,
    ParabolicCurve.Append one_ramp_curve two_ramp_curve = Ok A' /\
    ParabolicCurve.duration A' =
      total (ParabolicCurve.duration one_ramp_curve)
            (map Ramp.duration (ParabolicCurve.ramps two_ramp_curve)) /\
    ParabolicCurve.switchpointsList A' =
      ParabolicCurve.switchpointsList one_ramp_curve
        ++ running (ParabolicCurve.duration one_ramp_curve)
                   (map Ramp.duration (ParabolicCurve.ramps two_ramp_curve)) /\
    ParabolicCurve.d A' =
      total (ParabolicCurve.d one_ramp_curve)
            (map Ramp.d (ParabolicCurve.ramps two_ramp_curve)).
Proof.
  assert (HB : built two_ramp_curve)
    by exact (built_ParabolicCurve _ _ two_ramp_curve_constructed).
  assert (HA : ParabolicCurve.ramps one_ramp_curve <> []) by discriminate.
  assert (Hne : ParabolicCurve.ramps two_ramp_curve <> []) by discriminate.
  split; [exact HB | split; [exact HA | split; [exact Hne |]]].
  destruct (Append_concatenates one_ramp_curve two_ramp_curve HB HA Hne)
    as (A' & rlast & H1 & _ & H3 & _ & H5 & _ & _ & H8 & _).
  exists A'. repeat split; assumption.
Defined.

(** C7, as stated, fails on binary64 numbers.  With [A] of one ramp of
    duration [0.1] and [B] of two ramps of durations [0.2] and [0.3],
    [A.Append(B)] computes [(0.1 + 0.2) + 0.3 = 0.6000000000000001],
    whereas the old duration of [A] plus the duration of [B] is
    [0.1 + 0.5 = 0.6]; likewise the last switch point is
    [0.6000000000000001] and not the last switch point [0.5] of [B]
    shifted by [0.1]. *)
Lemma Append_duration_not_sum_binary64 :
  exists A B A' : Binary64.ParabolicCurve.t,
    Binary64.ParabolicCurve.ParabolicCurve
      [Binary64.Ramp.fill 0 0 0.1 0] = Ok A /\
    Binary64.ParabolicCurve.ParabolicCurve
      [Binary64.Ramp.fill 0 0 0.2 0; Binary64.Ramp.fill 0 0 0.3 0] = Ok B /\
    Binary64.ParabolicCurve.Append A B = Ok A' /\
    Binary64.ParabolicCurve.duration A = 0.1%float /\
    Binary64.ParabolicCurve.duration B = 0.5%float /\
    Binary64.ParabolicCurve.duration A' = 0.6000000000000001%float /\
    (Binary64.ParabolicCurve.duration A + Binary64.ParabolicCurve.duration B
     = 0.6)%float /\
    PrimFloat.eqb (Binary64.ParabolicCurve.duration A')
      (Binary64.ParabolicCurve.duration A + Binary64.ParabolicCurve.duration B)
    = false /\
    Binary64.ParabolicCurve.switchpointsList A'
    = [0; 0.1; 0.30000000000000004; 0.6000000000000001]%float /\
    map (fun s => Binary64.ParabolicCurve.duration A + s)%float
        (tl (Binary64.ParabolicCurve.switchpointsList B))
    = [0.30000000000000004; 0.6]%float.
Proof.
  do 3 eexists.
  split; [reflexivity|]. split; [reflexivity|]. split; [reflexivity|].
  repeat split; reflexivity.
Qed.

(** ** ParabolicCurve: FindRampIndex *)

Lemma scan_before (sps : list Real) (t : Real) (j : nat) (s : Real) :
  (j < ParabolicCurve.scan sps t)%nat -> nth_error sps j = Some s -> s < t.
Proof.
  revert j. induction sps as [|s0 sps IH]; intros j Hj Hn; simpl in Hj.
  - lia.
  - destruct (Rltb s0 t) eqn:E; [|lia].
    destruct j as [|j]; simpl in Hn.
    + injection Hn as <-. apply Rltb_lt. exact E.
    + apply (IH j); [lia | exact Hn].
Qed.

Lemma scan_stop (sps : list Real) (t : Real) (s : Real) :
  nth_error sps (ParabolicCurve.scan sps t) = Some s -> t <= s.
Proof.
  induction sps as [|s0 sps IH]; simpl; intros Hn.
  - discriminate.
  - destruct (Rltb s0 t) eqn:E; simpl in Hn.
    + apply IH. exact Hn.
    + injection Hn as <-. apply Rltb_ge. exact E.
Qed.

Lemma scan_le_length (sps : list Real) (t : Real) :
  (ParabolicCurve.scan sps t <= List.length sps)%nat.
Proof.
  induction sps as [|s0 sps IH]; simpl; [lia|].
  destruct (Rltb s0 t); simpl; lia.
Qed.

Lemma running_last (acc : Real) (l : list Real) :
  l <> [] -> nth_error (running acc l) (List.length l - 1) = Some (total acc l).
Proof.
  revert acc. induction l as [|h l IH]; intros acc Hne; [contradiction|].
  destruct l as [|h' l].
  - reflexivity.
  - specialize (IH (acc + h)). simpl in *. rewrite Nat.sub_0_r in IH.
    apply IH. discriminate.
Qed.

(** In a built, non-empty curve the table starts at [0], ends at
    [duration] and has one entry more than there are ramps. *)
Lemma built_switch_table (c : ParabolicCurve.t) :
  built c -> ParabolicCurve.ramps c <> [] ->
  nth_error (ParabolicCurve.switchpointsList c) 0 = Some 0 /\
  nth_error (ParabolicCurve.switchpointsList c) (List.length (ParabolicCurve.ramps c))
    = Some (ParabolicCurve.duration c) /\
  List.length (ParabolicCurve.switchpointsList c)
    = S (List.length (ParabolicCurve.ramps c)).
Proof.
  intros Hb Hne.
  destruct (built_aggregates_agree c Hb) as (I1 & I2 & _).
  rewrite I1, I2.
  destruct (ParabolicCurve.ramps c) as [|r0 rest]; [contradiction|].
  cbn [switch_table]. split; [reflexivity|]. split.
  - pose proof (running_last 0 (map Ramp.duration (r0 :: rest))) as H.
    rewrite length_map in H. cbn [List.length] in *.
    rewrite Nat.sub_succ, Nat.sub_0_r in H. cbn [nth_error]. apply H. discriminate.
  - cbn [List.length]. rewrite running_length, length_map. reflexivity.
Qed.

(** C4 (amended).  In a non-empty curve and for [t] within
    [[-epsilon, duration + epsilon]]: [t < epsilon] gives [(0, 0)];
    otherwise [t > duration - epsilon] gives the last ramp with that
    ramp's duration as remainder; every other [t] gives the ramp [i] that
    ends at the first switch point not less than [t] (all switch points up
    to the start of ramp [i] are less than [t]) with remainder [t] minus
    the starting switch point of ramp [i].  For the curve of two ramps
    with durations [1] and [2], [duration] is [3], [EvalPos(3)] is the
    curve's [x1] and [FindRampIndex(1.5)] is [(1, 0.5)]. *)
Theorem FindRampIndex_locates :
  forall epsilon : Real,
    0 < epsilon ->
    (forall (c : ParabolicCurve.t) (t : Real),
       built c -> ParabolicCurve.ramps c <> [] ->
       - epsilon <= t -> t <= ParabolicCurve.duration c + epsilon ->
       (t < epsilon ->
          ParabolicCurve.FindRampIndex epsilon c t = Ok (0%Z, 0)) /\
       (epsilon <= t -> ParabolicCurve.duration c - epsilon < t ->
          exists rlast,
            back "ramps" (ParabolicCurve.ramps c) = Ok rlast /\
            ParabolicCurve.FindRampIndex epsilon c t =
              Ok ((Z.of_nat (List.length (ParabolicCurve.ramps c)) - 1)%Z,
                  Ramp.duration rlast)) /\
       (epsilon <= t -> t <= ParabolicCurve.duration c - epsilon ->
          exists (i : nat) (s s' : Real),
            (i < List.length (ParabolicCurve.ramps c))%nat /\
            nth_error (ParabolicCurve.switchpointsList c) i = Some s /\
            nth_error (ParabolicCurve.switchpointsList c) (S i) = Some s' /\
            t <= s' /\
            (forall j sj, (j <= i)%nat ->
               nth_error (ParabolicCurve.switchpointsList c) j = Some sj -> sj < t) /\
            ParabolicCurve.FindRampIndex epsilon c t = Ok (Z.of_nat i, t - s))) /\
    (epsilon <= Q2Qc (3 # 2) ->
     forall x0a x0b : Real,
       exists c : ParabolicCurve.t,
         ParabolicCurve.ParabolicCurve
           [Ramp.fill 0 1 1 x0a; Ramp.fill (Q2Qc 2) 0 (Q2Qc 2) x0b] = Ok c /\
         ParabolicCurve.duration c = Q2Qc 3 /\
         ParabolicCurve.EvalPos epsilon c (Q2Qc 3) = Ok (ParabolicCurve.x1 c) /\
         ParabolicCurve.FindRampIndex epsilon c (Q2Qc (3 # 2))
           = Ok (1%Z, Q2Qc (1 # 2))).
Proof.
  intros epsilon Heps. split.
  - intros c t Hb Hne Hlo Hhi.
    destruct (built_switch_table c Hb Hne) as (Hfirst & Hlast & Hlen).
    unfold ParabolicCurve.FindRampIndex.
    replace (Rleb (- epsilon) t) with true by (symmetry; apply Rleb_le; exact Hlo).
    replace (Rleb t (ParabolicCurve.duration c + epsilon)) with true
      by (symmetry; apply Rleb_le; exact Hhi).
    cbn [assert bind]. split; [|split].
    + intros Ht. replace (Rltb t epsilon) with true by (symmetry; apply Rltb_lt; exact Ht).
      reflexivity.
    + intros Ht1 Ht2.
      replace (Rltb t epsilon) with false by (symmetry; apply Rltb_ge; exact Ht1).
      replace (Rltb (ParabolicCurve.duration c - epsilon) t) with true
        by (symmetry; apply Rltb_lt; exact Ht2).
      destruct (back_nonempty "ramps" _ Hne) as [rlast Hr].
      exists rlast. rewrite Hr. split; reflexivity.
    + intros Ht1 Ht2.
      replace (Rltb t epsilon) with false by (symmetry; apply Rltb_ge; exact Ht1).
      replace (Rltb (ParabolicCurve.duration c - epsilon) t) with false
        by (symmetry; apply Rltb_ge; exact Ht2).
      set (sps := ParabolicCurve.switchpointsList c) in *.
      set (k := ParabolicCurve.scan sps t).
      assert (Hk1 : (1 <= k)%nat).
      { destruct sps as [|s0 sps']; [discriminate|].
        injection Hfirst as ->. subst k. simpl.
        replace (Rltb 0 t) with true by (symmetry; apply Rltb_lt; real_lra). lia. }
      assert (Hk2 : (k < List.length sps)%nat).
      { pose proof (scan_le_length sps t) as Hle. fold k in Hle.
        destruct (Nat.eq_dec k (List.length sps)) as [E|]; [|lia].
        exfalso.
        assert (Hd : ParabolicCurve.duration c < t).
        { apply (scan_before sps t (List.length (ParabolicCurve.ramps c))); [|exact Hlast].
          fold k. lia. }
        real_lra. }
      replace (Z.of_nat k <? Z.of_nat (List.length sps))%Z with true
        by (symmetry; apply Z.ltb_lt; lia).
      cbn [assert bind].
      replace (Z.of_nat k - 1)%Z with (Z.of_nat (k - 1)) by lia.
      rewrite at_index_nat.
      destruct (nth_error sps (k - 1)) as [s|] eqn:Hs;
        [|apply nth_error_None in Hs; lia].
      destruct (nth_error sps k) as [s'|] eqn:Hs';
        [|apply nth_error_None in Hs'; lia].
      exists (k - 1)%nat, s, s'. cbn [bind].
      replace (S (k - 1)) with k by lia.
      repeat split; try assumption; try lia.
      * apply (scan_stop sps t s'). exact Hs'.
      * intros j sj Hj Hn. apply (scan_before sps t j sj); [fold k; lia | exact Hn].
  - intros Hsmall x0a x0b.
    destruct (ParabolicCurve_closed_form (Ramp.fill 0 1 1 x0a)
                [Ramp.fill (Q2Qc 2) 0 (Q2Qc 2) x0b]) as [rlast [Hb Hc]].
    eexists. split; [exact Hc|].
    cbn [ParabolicCurve.duration ParabolicCurve.x1 ParabolicCurve.switchpointsList].
    assert (Hdur : total 0 (map Ramp.duration
                     [Ramp.fill 0 1 1 x0a; Ramp.fill (Q2Qc 2) 0 (Q2Qc 2) x0b]) = Q2Qc 3)
      by (apply Qc_is_canon; reflexivity).
    split; [exact Hdur|].
    unfold ParabolicCurve.EvalPos, ParabolicCurve.FindRampIndex.
    cbn [ParabolicCurve.duration ParabolicCurve.x0 ParabolicCurve.x1
         ParabolicCurve.switchpointsList ParabolicCurve.ramps].
    rewrite Hdur. split.
    + decide_cmp. reflexivity.
    + decide_cmp. real_compute.
Qed.

Lemma FindRampIndex_locates_witness :
  0 < tolerance /\
  built two_ramp_curve /\
  ParabolicCurve.ramps two_ramp_curve <> [] /\
  - tolerance <= Q2Qc (3 # 2) /\
  Q2Qc (3 # 2) <= ParabolicCurve.duration two_ramp_curve + tolerance /\
  tolerance <= Q2Qc (3 # 2) /\
  Q2Qc (3 # 2) <= ParabolicCurve.duration two_ramp_curve - tolerance /\
  exists (i : nat) (s s' : Real),
    (i < List.length (ParabolicCurve.ramps two_ramp_curve))%nat /\
    nth_error (ParabolicCurve.switchpointsList two_ramp_curve) i = Some s /\
    nth_error (ParabolicCurve.switchpointsList two_ramp_curve) (S i) = Some s' /\
    Q2Qc (3 # 2) <= s' /\
    (forall j sj, (j <= i)%nat ->
       nth_error (ParabolicCurve.switchpointsList two_ramp_curve) j = Some sj ->
       sj < Q2Qc (3 # 2)) /\
    ParabolicCurve.FindRampIndex tolerance two_ramp_curve (Q2Qc (3 # 2))
      = Ok (Z.of_nat i, Q2Qc (3 # 2) - s).
Proof.
  assert (H0 : 0 < tolerance) by (apply Rltb_lt; reflexivity).
  assert (H1 : built two_ramp_curve)
    by exact (built_ParabolicCurve _ _ two_ramp_curve_constructed).
  assert (H2 : ParabolicCurve.ramps two_ramp_curve <> []) by discriminate.
  assert (H3 : - tolerance <= Q2Qc (3 # 2)) by (apply Rleb_le; reflexivity).
  assert (H4 : Q2Qc (3 # 2) <= ParabolicCurve.duration two_ramp_curve + tolerance)
    by (apply Rleb_le; reflexivity).
  assert (H5 : tolerance <= Q2Qc (3 # 2)) by (apply Rleb_le; reflexivity).
  assert (H6 : Q2Qc (3 # 2) <= ParabolicCurve.duration two_ramp_curve - tolerance)
    by (apply Rleb_le; reflexivity).
  repeat (split; [assumption|]).
  exact (proj2 (proj2 (proj1 (FindRampIndex_locates tolerance H0)
                         two_ramp_curve (Q2Qc (3 # 2)) H1 H2 H3 H4)) H5 H6).
Defined.

(** C4, as stated, fails at a switch point: at [t = 1] in the two-ramp
    curve, whose table is [0, 1, 3], the first switch point strictly
    exceeding [t] is [3], which gives ramp [1] and remainder [0], but
    [FindRampIndex] stops at the switch point [1] itself and returns ramp
    [0] with remainder [1]. *)
Lemma FindRampIndex_at_switch_point :
  tolerance <= 1 /\
  1 <= ParabolicCurve.duration two_ramp_curve - tolerance /\
  ParabolicCurve.FindRampIndex tolerance two_ramp_curve 1 = Ok (0%Z, 1) /\
  ramp_by_first_exceeding (ParabolicCurve.switchpointsList two_ramp_curve) 1
    = (1%Z, 0) /\
  (0%Z, 1) <> (1%Z, (0 : Real)).
Proof.
  split; [apply Rleb_le; reflexivity|].
  split; [apply Rleb_le; reflexivity|].
  split; [real_compute|]. split; [real_compute|].
  intros H. discriminate H.
Qed.

(** ** ParabolicCurvesND: construction *)

Lemma Min_le_both (x y : Real) : Min x y <= x /\ Min x y <= y.
Proof. unfold Min. destruct (Rltb x y) eqn:E; split; real_lra. Qed.

Lemma Min_either (x y : Real) : Min x y = x \/ Min x y = y.
Proof. unfold Min. destruct (Rltb x y); auto. Qed.

Lemma fold_Min_le_start (l : list Real) (m : Real) : fold_left Min l m <= m.
Proof.
  revert m. induction l as [|h l IH]; intros m; simpl.
  - apply Qcle_refl.
  - apply Qcle_trans with (Min m h); [apply IH | apply Min_le_both].
Qed.

Lemma fold_Min_le_each (l : list Real) (m x : Real) :
  In x l -> fold_left Min l m <= x.
Proof.
  revert m. induction l as [|h l IH]; intros m Hin; simpl in *; [contradiction|].
  destruct Hin as [-> | Hin].
  - apply Qcle_trans with (Min m x); [apply fold_Min_le_start | apply Min_le_both].
  - apply IH. exact Hin.
Qed.

Lemma fold_Min_attained (l : list Real) (m : Real) :
  fold_left Min l m = m \/ In (fold_left Min l m) l.
Proof.
  revert m. induction l as [|h l IH]; intros m; simpl; [left; reflexivity|].
  destruct (IH (Min m h)) as [E | Hin].
  - rewrite E. destruct (Min_either m h) as [-> | ->]; auto.
  - right. right. exact Hin.
Qed.

Lemma min_duration_least (c0 : ParabolicCurve.t) (cs : list ParabolicCurve.t) :
  (forall c, In c (c0 :: cs) -> min_duration c0 cs <= ParabolicCurve.duration c) /\
  (exists c, In c (c0 :: cs) /\ min_duration c0 cs = ParabolicCurve.duration c).
Proof.
  unfold min_duration. split.
  - intros c [<- | Hin].
    + apply fold_Min_le_start.
    + apply fold_Min_le_each. apply in_map. exact Hin.
  - destruct (fold_Min_attained (map ParabolicCurve.duration cs)
                (ParabolicCurve.duration c0)) as [E | Hin].
    + exists c0. split; [left; reflexivity | exact E].
    + apply in_map_iff in Hin. destruct Hin as [c [E Hin]].
      exists c. split; [right; exact Hin | symmetry; exact E].
Qed.

Lemma FuzzyEquals_false (x y epsilon : Real) :
  FuzzyEquals x y epsilon = false <-> epsilon < Abs (x - y).
Proof. unfold FuzzyEquals. apply Rleb_gt. Qed.

Lemma check_durations_Ok (epsilon : Real) (rest : list ParabolicCurve.t) (m m' : Real) :
  ParabolicCurvesND.check_durations epsilon rest m = Ok m' ->
  m' = fold_left Min (map ParabolicCurve.duration rest) m.
Proof.
  revert m. induction rest as [|c rest IH]; intros m; simpl.
  - intros [= <-]. reflexivity.
  - destruct (FuzzyEquals (ParabolicCurve.duration c) m epsilon); simpl.
    + apply IH.
    + discriminate.
Qed.

Lemma check_durations_AssertFail (epsilon : Real) (rest : list ParabolicCurve.t) (m : Real) :
  ParabolicCurvesND.check_durations epsilon rest m = AssertFail <->
  exists pre c post,
    rest = pre ++ c :: post /\
    epsilon < Abs (ParabolicCurve.duration c
                   - fold_left Min (map ParabolicCurve.duration pre) m).
Proof.
  revert m. induction rest as [|c rest IH]; intros m; simpl.
  - split; [discriminate|]. intros (pre & c & post & E & _).
    destruct pre; discriminate.
  - destruct (FuzzyEquals (ParabolicCurve.duration c) m epsilon) eqn:Ef; simpl.
    + rewrite IH. split.
      * intros (pre & c' & post & -> & H). exists (c :: pre), c', post. split; [reflexivity | exact H].
      * intros (pre & c' & post & E & H). destruct pre as [|p pre]; simpl in *.
        { injection E as <- <-. apply FuzzyEquals_false in H. congruence. }
        injection E as <- ->. exists pre, c', post. split; [reflexivity | exact H].
    + split; [|reflexivity]. intros _. exists [], c, rest.
      split; [reflexivity | apply FuzzyEquals_false; exact Ef].
Qed.

Lemma check_durations_in_range (epsilon : Real) (rest : list ParabolicCurve.t) (m : Real)
    (vec : string) (i : Z) :
  ParabolicCurvesND.check_durations epsilon rest m <> OutOfRange vec i.
Proof.
  revert m. induction rest as [|c rest IH]; intros m; simpl; [discriminate|].
  destruct (FuzzyEquals (ParabolicCurve.duration c) m epsilon); simpl;
    [apply IH | discriminate].
Qed.

Lemma merge_point_no_assert (epsilon : Real) (sps : list Real) (x : Real) :
  ParabolicCurvesND.merge_point epsilon sps x <> AssertFail.
Proof.
  unfold ParabolicCurvesND.merge_point. rewrite at_index_nat.
  destruct (nth_error sps (ParabolicCurvesND.lower_bound sps x)); simpl; [|discriminate].
  destruct (FuzzyEquals x q epsilon); discriminate.
Qed.

Lemma merge_points_no_assert (epsilon : Real) (xs sps : list Real) :
  ParabolicCurvesND.merge_points epsilon sps xs <> AssertFail.
Proof.
  revert sps. induction xs as [|x xs IH]; intros sps; simpl; [discriminate|].
  pose proof (merge_point_no_assert epsilon sps x) as H.
  destruct (ParabolicCurvesND.merge_point epsilon sps x); simpl;
    [apply IH | contradiction | discriminate].
Qed.

Lemma merge_curves_no_assert (epsilon : Real) (cs : list ParabolicCurve.t) (sps : list Real) :
  ParabolicCurvesND.merge_curves epsilon sps cs <> AssertFail.
Proof.
  revert sps. induction cs as [|c cs IH]; intros sps; simpl; [discriminate|].
  assert (H : ParabolicCurvesND.merge_curve epsilon sps c <> AssertFail).
  { unfold ParabolicCurvesND.merge_curve.
    destruct (List.length (ParabolicCurve.switchpointsList c) <? 2)%nat;
      [discriminate | apply merge_points_no_assert]. }
  destruct (ParabolicCurvesND.merge_curve epsilon sps c); simpl;
    [apply IH | contradiction | discriminate].
Qed.

Lemma ParabolicCurvesND_AssertFail_iff (epsilon : Real)
    (c0 : ParabolicCurve.t) (rest : list ParabolicCurve.t) :
  ParabolicCurvesND.ParabolicCurvesND epsilon (c0 :: rest) = AssertFail <->
  ParabolicCurvesND.check_durations epsilon rest (ParabolicCurve.duration c0) = AssertFail.
Proof.
  unfold ParabolicCurvesND.ParabolicCurvesND.
  cbn [assert negb bind at_index Z.ltb Z.compare Z.to_nat nth_error tl].
  pose proof (merge_curves_no_assert epsilon (c0 :: rest)
                (ParabolicCurve.switchpointsList c0)) as Hm.
  destruct (ParabolicCurvesND.check_durations epsilon rest (ParabolicCurve.duration c0));
    cbn [bind]; [|tauto|split; discriminate].
  destruct (ParabolicCurvesND.merge_curves epsilon (ParabolicCurve.switchpointsList c0)
              (c0 :: rest)); cbn [bind]; split; try discriminate; try contradiction.
Qed.

Lemma ParabolicCurvesND_Ok_duration (epsilon : Real)
    (c0 : ParabolicCurve.t) (rest : list ParabolicCurve.t) (nd : ParabolicCurvesND.t) :
  ParabolicCurvesND.ParabolicCurvesND epsilon (c0 :: rest) = Ok nd ->
  ParabolicCurvesND.duration nd = min_duration c0 rest /\
  ParabolicCurvesND.curves nd = c0 :: rest /\
  ParabolicCurvesND.ndof nd = List.length (c0 :: rest).
Proof.
  unfold ParabolicCurvesND.ParabolicCurvesND.
  cbn [assert negb bind at_index Z.ltb Z.compare Z.to_nat nth_error tl].
  destruct (ParabolicCurvesND.check_durations epsilon rest (ParabolicCurve.duration c0))
    as [m| |] eqn:Hc; cbn [bind]; try discriminate.
  apply check_durations_Ok in Hc.
  destruct (ParabolicCurvesND.merge_curves epsilon (ParabolicCurve.switchpointsList c0)
              (c0 :: rest)); cbn [bind]; try discriminate.
  intros E. apply Ok_inj in E. subst nd. cbn. auto.
Qed.

Lemma Abs_nonneg (x : Real) : 0 <= x -> Abs x = x.
Proof. intros H. unfold Abs. destruct (Rltb x 0) eqn:E; [real_lra | reflexivity]. Qed.

Lemma curve_of_single (r : Ramp.t) :
  curve_of [r] =
  ParabolicCurve.mk [Ramp.set_x0 r (Ramp.x0 r)] [0; 0 + Ramp.duration r]
    (Ramp.x0 r) (Ramp.x0 r + (0 + Ramp.d r)) (Ramp.v0 r) (Ramp.v1 r)
    (0 + Ramp.d r) (0 + Ramp.duration r).
Proof. reflexivity. Qed.

(** C5 (amended).  Construction from a non-empty sequence of curves fails
    its assertion exactly when some curve's duration differs by more than
    [epsilon] from the least duration among the curves before it; when it
    succeeds, the object's duration is the least of all the curves'
    durations.  For two one-ramp curves, durations [1] and
    [1 + 10*epsilon] fail and durations [1] and [1 + 0.1*epsilon]
    succeed. *)
Theorem ParabolicCurvesND_duration_check :
  forall epsilon : Real,
    0 < epsilon ->
    (forall (c0 : ParabolicCurve.t) (rest : list ParabolicCurve.t),
       (ParabolicCurvesND.ParabolicCurvesND epsilon (c0 :: rest) = AssertFail <->
        exists pre c post,
          rest = pre ++ c :: post /\
          epsilon < Abs (ParabolicCurve.duration c - min_duration c0 pre)) /\
       (forall nd : ParabolicCurvesND.t,
          ParabolicCurvesND.ParabolicCurvesND epsilon (c0 :: rest) = Ok nd ->
          (forall c, In c (c0 :: rest) ->
             ParabolicCurvesND.duration nd <= ParabolicCurve.duration c) /\
          (exists c, In c (c0 :: rest) /\
             ParabolicCurvesND.duration nd = ParabolicCurve.duration c))) /\
    (forall va aa xa vb ab xb : Real,
       ParabolicCurvesND.ParabolicCurvesND epsilon
         [curve_of [Ramp.fill va aa 1 xa];
          curve_of [Ramp.fill vb ab (1 + ten * epsilon) xb]] = AssertFail /\
       exists nd : ParabolicCurvesND.t,
         ParabolicCurvesND.ParabolicCurvesND epsilon
           [curve_of [Ramp.fill va aa 1 xa];
            curve_of [Ramp.fill vb ab (1 + tenth * epsilon) xb]] = Ok nd /\
         ParabolicCurvesND.duration nd = 1).
Proof.
  intros epsilon Heps. split.
  - intros c0 rest. split.
    + rewrite ParabolicCurvesND_AssertFail_iff. apply check_durations_AssertFail.
    + intros nd Hnd. apply ParabolicCurvesND_Ok_duration in Hnd.
      destruct Hnd as (-> & _ & _). apply min_duration_least.
  - intros va aa xa vb ab xb. split.
    + apply ParabolicCurvesND_AssertFail_iff. rewrite !curve_of_single.
      cbn [ParabolicCurvesND.check_durations ParabolicCurve.duration Ramp.fill Ramp.duration].
      replace (FuzzyEquals (0 + (1 + ten * epsilon)) (0 + 1) epsilon) with false;
        [reflexivity|].
      symmetry. apply FuzzyEquals_false. rewrite Abs_nonneg; unfold ten; real_lra.
    + rewrite !curve_of_single.
      unfold ParabolicCurvesND.ParabolicCurvesND.
      cbn [assert negb bind at_index Z.ltb Z.compare Z.to_nat nth_error tl
           ParabolicCurvesND.check_durations ParabolicCurve.duration Ramp.fill Ramp.duration].
      replace (FuzzyEquals (0 + (1 + tenth * epsilon)) (0 + 1) epsilon) with true
        by (symmetry; apply Rleb_le; rewrite Abs_nonneg; unfold tenth; real_lra).
      cbn [assert bind ParabolicCurvesND.check_durations].
      eexists. split; [reflexivity|].
      cbn [ParabolicCurvesND.duration].
      rewrite Min_l by (unfold tenth; real_lra). ring.
Qed.

Lemma ParabolicCurvesND_duration_check_witness :
  0 < tolerance /\
  ParabolicCurvesND.ParabolicCurvesND tolerance
    [curve_of [Ramp.fill 0 1 1 0];
     curve_of [Ramp.fill 1 0 (1 + ten * tolerance) 0]] = AssertFail /\
  exists nd : ParabolicCurvesND.t,
    ParabolicCurvesND.ParabolicCurvesND tolerance
      [curve_of [Ramp.fill 0 1 1 0];
       curve_of [Ramp.fill 1 0 (1 + tenth * tolerance) 0]] = Ok nd /\
    ParabolicCurvesND.duration nd = 1.
Proof.
  assert (H0 : 0 < tolerance) by (apply Rltb_lt; reflexivity).
  split; [exact H0|].
  exact (proj2 (ParabolicCurvesND_duration_check tolerance H0) 0 1 0 1 0 0).
Defined.

(** C5, as stated, fails in both directions, because each duration is
    compared with the running minimum and not with the first duration.
    Durations [1], [1 - 0.9e-10], [1 + 0.9e-10] are each within the
    tolerance [1e-10] of the first, and construction fails; durations [1],
    [1 - 0.9e-10], [1 - 1.8e-10] have the third further than the tolerance
    from the first, and construction succeeds. *)
Lemma ParabolicCurvesND_compares_with_running_minimum :
  ParabolicCurvesND.ParabolicCurvesND tolerance [curve_1; curve_1_minus; curve_1_plus]
    = AssertFail /\
  Abs (ParabolicCurve.duration curve_1_minus - ParabolicCurve.duration curve_1)
    <= tolerance /\
  Abs (ParabolicCurve.duration curve_1_plus - ParabolicCurve.duration curve_1)
    <= tolerance /\
  is_Ok (ParabolicCurvesND.ParabolicCurvesND tolerance
           [curve_1; curve_1_minus; curve_1_minus_minus]) = true /\
  tolerance <
    Abs (ParabolicCurve.duration curve_1_minus_minus - ParabolicCurve.duration curve_1).
Proof.
  split; [reflexivity|].
  split; [apply Rleb_le; reflexivity|].
  split; [apply Rleb_le; reflexivity|].
  split; [reflexivity|].
  apply Rltb_lt. reflexivity.
Qed.

(** ** ParabolicCurvesND: GetPeaks *)

Lemma assign_length (v : list Real) (i : nat) (x : Real) :
  List.length (ParabolicCurvesND.assign v i x) = List.length v.
Proof.
  revert i. induction v as [|y v IH]; intros i; simpl; [reflexivity|].
  destruct i; simpl; [reflexivity | rewrite IH; reflexivity].
Qed.

Lemma resize_length (v : list Real) (n : nat) :
  List.length (ParabolicCurvesND.resize v n) = n.
Proof.
  unfold ParabolicCurvesND.resize.
  rewrite length_app, length_firstn, repeat_length. lia.
Qed.

Lemma Ramp_EvalPos_in_range (epsilon : Real) (r : Ramp.t) (t : Real)
    (vec : string) (i : Z) :
  Ramp.EvalPos epsilon r t <> OutOfRange vec i.
Proof.
  unfold Ramp.EvalPos.
  destruct (Rleb (- epsilon) t); cbn [assert bind]; [|discriminate].
  destruct (Rleb t (Ramp.duration r + epsilon)); cbn [assert bind]; [|discriminate].
  destruct (Rleb t 0); [discriminate|].
  destruct (Rleb (Ramp.duration r) t); discriminate.
Qed.

Lemma Ramp_GetPeaks_in_range (epsilon : Real) (r : Ramp.t) (vec : string) (i : Z) :
  Ramp.GetPeaks epsilon r <> OutOfRange vec i.
Proof.
  unfold Ramp.GetPeaks.
  destruct (FuzzyZero (Ramp.a r) epsilon).
  - destruct (Rltb 0 (Ramp.v0 r)); discriminate.
  - destruct (Rltb 0 (Ramp.a r));
      (destruct (Rleb (- Ramp.v0 r / Ramp.a r) 0 || Rleb (Ramp.duration r) (- Ramp.v0 r / Ramp.a r));
       [discriminate|]);
      pose proof (Ramp_EvalPos_in_range epsilon r (- Ramp.v0 r / Ramp.a r)) as H;
      destruct (Ramp.EvalPos epsilon r (- Ramp.v0 r / Ramp.a r)) as [p| |v k];
      cbn [bind]; try discriminate; exfalso; apply (H v k); reflexivity.
Qed.

Lemma peaks_loop_in_range (epsilon : Real) (rs : list Ramp.t) (bmin bmax : Real)
    (vec : string) (i : Z) :
  ParabolicCurve.peaks_loop epsilon rs bmin bmax <> OutOfRange vec i.
Proof.
  revert bmin bmax. induction rs as [|r rs IH]; intros bmin bmax; simpl; [discriminate|].
  pose proof (Ramp_GetPeaks_in_range epsilon r) as Hr.
  destruct (Ramp.GetPeaks epsilon r) as [[t1 t2]| |v k]; cbn [bind];
    [apply IH | discriminate | exfalso; apply (Hr v k); reflexivity].
Qed.

Lemma ParabolicCurve_GetPeaks_cases (epsilon inf : Real) (c : ParabolicCurve.t) :
  (exists b, ParabolicCurve.GetPeaks epsilon inf c = Ok b) \/
  ParabolicCurve.GetPeaks epsilon inf c = AssertFail.
Proof.
  unfold ParabolicCurve.GetPeaks.
  pose proof (peaks_loop_in_range epsilon (ParabolicCurve.ramps c) inf (- inf)) as Hl.
  destruct (ParabolicCurve.peaks_loop epsilon (ParabolicCurve.ramps c) inf (- inf))
    as [[bmin bmax]| |v k]; cbn [bind].
  - destruct (Rltb bmin inf); cbn [assert bind]; [|right; reflexivity].
    destruct (Rltb (- inf) bmax); cbn [assert bind]; [left; eexists; reflexivity | right; reflexivity].
  - right. reflexivity.
  - exfalso. apply (Hl v k). reflexivity.
Qed.

(** A completed loop has found every index it visits inside [bmaxVect],
    and has changed the length of neither vector. *)
Lemma GetPeaks_loop_Ok (epsilon inf : Real) (n i : nat) (cs : list ParabolicCurve.t)
    (bminVect bmaxVect bmin' bmax' : list Real) :
  ParabolicCurvesND.GetPeaks_loop epsilon inf n i cs bminVect bmaxVect = Ok (bmin', bmax') ->
  (n = O \/ (i + n <= List.length bmaxVect)%nat) /\
  List.length bmin' = List.length bminVect /\
  List.length bmax' = List.length bmaxVect.
Proof.
  revert i bminVect bmaxVect. induction n as [|n IH]; intros i bminVect bmaxVect; simpl.
  - intros E. apply Ok_inj in E. injection E as <- <-. auto.
  - rewrite !at_index_nat.
    destruct (nth_error cs i) as [c|]; cbn [bind]; [|discriminate].
    destruct (nth_error bminVect i) as [x|]; cbn [bind]; [|discriminate].
    destruct (nth_error bmaxVect i) as [y|] eqn:Hy; cbn [bind]; [|discriminate].
    destruct (ParabolicCurve.GetPeaks epsilon inf c) as [[bmin bmax]| |]; cbn [bind];
      try discriminate.
    intros H. apply IH in H. rewrite !assign_length in H.
    destruct H as (H1 & H2 & H3).
    assert (i < List.length bmaxVect)%nat by (apply nth_error_Some; congruence).
    repeat split; try assumption. right. destruct H1; lia.
Qed.

(** A loop that runs past the end of [bmaxVect] stops at the first index
    outside it, unless the curve of an earlier axis fails its assertion. *)
Lemma GetPeaks_loop_past_end (epsilon inf : Real) (n i : nat) (cs : list ParabolicCurve.t)
    (bminVect bmaxVect : list Real) :
  (i <= List.length bmaxVect)%nat ->
  (List.length bmaxVect < i + n)%nat ->
  (i + n <= List.length cs)%nat ->
  (i + n <= List.length bminVect)%nat ->
  ParabolicCurvesND.GetPeaks_loop epsilon inf n i cs bminVect bmaxVect
    = OutOfRange "bmaxVect" (Z.of_nat (List.length bmaxVect)) \/
  (ParabolicCurvesND.GetPeaks_loop epsilon inf n i cs bminVect bmaxVect = AssertFail /\
   exists j c, (i <= j < List.length bmaxVect)%nat /\
               nth_error cs j = Some c /\
               ParabolicCurve.GetPeaks epsilon inf c = AssertFail).
Proof.
  revert i bminVect bmaxVect. induction n as [|n IH];
    intros i bminVect bmaxVect Hi Hn Hcs Hmin; [lia|]. simpl.
  rewrite !at_index_nat.
  destruct (nth_error cs i) as [c|] eqn:Hc;
    [|apply nth_error_None in Hc; lia].
  destruct (nth_error bminVect i) as [x|] eqn:Hx;
    [|apply nth_error_None in Hx; lia].
  cbn [bind].
  destruct (nth_error bmaxVect i) as [y|] eqn:Hy; cbn [bind].
  - assert (Hlt : (i < List.length bmaxVect)%nat) by (apply nth_error_Some; congruence).
    destruct (ParabolicCurve_GetPeaks_cases epsilon inf c) as [[[bmin bmax] Hg] | Hg];
      rewrite Hg; cbn [bind].
    + specialize (IH (S i) (ParabolicCurvesND.assign bminVect i bmin)
                     (ParabolicCurvesND.assign bmaxVect i bmax)).
      rewrite !assign_length in IH.
      destruct IH as [H | [H (j & c' & Hj & Hc' & Hf)]]; try lia.
      * left. exact H.
      * right. split; [exact H|]. exists j, c'. repeat split; try assumption; try lia.
    + right. split; [reflexivity|]. exists i, c. repeat split; try assumption; try lia.
  - apply nth_error_None in Hy. left.
    replace i with (List.length bmaxVect) by lia. reflexivity.
Qed.

Lemma two_axis_curves_constructed :
  ParabolicCurvesND.ParabolicCurvesND tolerance [one_ramp_curve; one_ramp_curve]
  = Ok two_axis_curves.
Proof. real_compute. Qed.

(** With both output vectors of size two the call completes. *)
Lemma GetPeaks_presized_completes :
  ParabolicCurvesND.GetPeaks tolerance huge two_axis_curves [] [0; 0]
  = Ok ([0; 0], [1; 1]).
Proof. real_compute. Qed.

(** C10.  [ParabolicCurvesND::GetPeaks] resizes [bminVect] only.  When
    [bmaxVect] is shorter than [ndof] there is an axis [i] at which
    [bmaxVect[i]] is out of range, and the call never completes: it stops
    at the out-of-range [bmaxVect[size]], unless the curve of an earlier
    axis fails the assertion of its own [GetPeaks] first.  Whenever the
    call completes, [bmaxVect] had at least [ndof] entries, [bminVect]
    comes back with [ndof] entries and [bmaxVect] with as many as it came
    in with. *)
Theorem ParabolicCurvesND_GetPeaks_needs_presized_bmax :
  forall (epsilon inf : Real) (nd : ParabolicCurvesND.t)
         (bminVect bmaxVect : list Real),
    ParabolicCurvesND.ndof nd = List.length (ParabolicCurvesND.curves nd) ->
    (List.length bmaxVect < ParabolicCurvesND.ndof nd)%nat ->
    (exists i : nat,
       (i < ParabolicCurvesND.ndof nd)%nat /\
       at_index "bmaxVect" bmaxVect (Z.of_nat i)
         = OutOfRange "bmaxVect" (Z.of_nat i)) /\
    is_Ok (ParabolicCurvesND.GetPeaks epsilon inf nd bminVect bmaxVect) = false /\
    (ParabolicCurvesND.GetPeaks epsilon inf nd bminVect bmaxVect
       = OutOfRange "bmaxVect" (Z.of_nat (List.length bmaxVect)) \/
     (ParabolicCurvesND.GetPeaks epsilon inf nd bminVect bmaxVect = AssertFail /\
      exists j c,
        (j < List.length bmaxVect)%nat /\
        nth_error (ParabolicCurvesND.curves nd) j = Some c /\
        ParabolicCurve.GetPeaks epsilon inf c = AssertFail)) /\
    (forall bminVect0 bmaxVect0 bmin' bmax' : list Real,
       ParabolicCurvesND.GetPeaks epsilon inf nd bminVect0 bmaxVect0 = Ok (bmin', bmax') ->
       (ParabolicCurvesND.ndof nd <= List.length bmaxVect0)%nat /\
       List.length bmin' = ParabolicCurvesND.ndof nd /\
       List.length bmax' = List.length bmaxVect0).
Proof.
  intros epsilon inf nd bminVect bmaxVect Hndof Hshort.
  assert (Hcases :
    ParabolicCurvesND.GetPeaks epsilon inf nd bminVect bmaxVect
       = OutOfRange "bmaxVect" (Z.of_nat (List.length bmaxVect)) \/
     (ParabolicCurvesND.GetPeaks epsilon inf nd bminVect bmaxVect = AssertFail /\
      exists j c,
        (j < List.length bmaxVect)%nat /\
        nth_error (ParabolicCurvesND.curves nd) j = Some c /\
        ParabolicCurve.GetPeaks epsilon inf c = AssertFail)).
  { unfold ParabolicCurvesND.GetPeaks.
    destruct (GetPeaks_loop_past_end epsilon inf (ParabolicCurvesND.ndof nd) 0
                (ParabolicCurvesND.curves nd)
                (ParabolicCurvesND.resize
                   (ParabolicCurvesND.resize bminVect (ParabolicCurvesND.ndof nd))
                   (ParabolicCurvesND.ndof nd))
                bmaxVect) as [H | [H (j & c & Hj & Hc & Hf)]];
      rewrite ?resize_length; try lia.
    - left. exact H.
    - right. split; [exact H|]. exists j, c. repeat split; try assumption; lia. }
  split; [|split; [|split]].
  - exists (List.length bmaxVect). split; [exact Hshort|].
    rewrite at_index_nat.
    replace (nth_error bmaxVect (List.length bmaxVect)) with (@None Real)
      by (symmetry; apply nth_error_None; lia).
    reflexivity.
  - destruct Hcases as [-> | [-> _]]; reflexivity.
  - exact Hcases.
  - intros bminVect0 bmaxVect0 bmin' bmax' HOk.
    unfold ParabolicCurvesND.GetPeaks in HOk.
    apply GetPeaks_loop_Ok in HOk. rewrite !resize_length in HOk.
    destruct HOk as (H1 & H2 & H3).
    repeat split; try assumption. destruct H1; lia.
Qed.

Lemma ParabolicCurvesND_GetPeaks_needs_presized_bmax_witness :
  ParabolicCurvesND.ndof two_axis_curves
    = List.length (ParabolicCurvesND.curves two_axis_curves) /\
  (List.length [(0 : Real)] < ParabolicCurvesND.ndof two_axis_curves)%nat /\
  is_Ok (ParabolicCurvesND.GetPeaks tolerance huge two_axis_curves [] [0]) = false.
Proof.
  assert (H0 : ParabolicCurvesND.ndof two_axis_curves
               = List.length (ParabolicCurvesND.curves two_axis_curves))
    by reflexivity.
  assert (H1 : (List.length [(0 : Real)] < ParabolicCurvesND.ndof two_axis_curves)%nat)
    by (simpl; lia).
  split; [exact H0 | split; [exact H1 |]].
  exact (proj1 (proj2 (ParabolicCurvesND_GetPeaks_needs_presized_bmax
                         tolerance huge two_axis_curves [] [0] H0 H1))).
Defined.

(** On the two-axis object with [bmaxVect] of size one, axis [0] is
    written and the call stops at [bmaxVect[1]]. *)
Lemma GetPeaks_short_bmax_stops_at_axis_1 :
  ParabolicCurvesND.GetPeaks tolerance huge two_axis_curves [] [0]
  = OutOfRange "bmaxVect" 1.
Proof. vm_compute. reflexivity. Qed.

(** ** Ramp: the whole admissible range, and what fails *)

(** X1.  On a ramp with [T >= 0], for every time in
    [[-epsilon, T + epsilon]] the three evaluators return the closed forms
    at the time clamped into [[0, T]]; for every time outside that range
    each of them fails its assertion. *)
Theorem Ramp_eval_clamped :
  forall (epsilon v0 a T x0 t : Real),
    0 <= epsilon -> 0 <= T ->
    (- epsilon <= t -> t <= T + epsilon ->
       Ramp.EvalPos epsilon (Ramp.fill v0 a T x0) t
         = Ok (pos x0 v0 a (clamp_time T t)) /\
       Ramp.EvalVel epsilon (Ramp.fill v0 a T x0) t
         = Ok (v0 + a * clamp_time T t) /\
       Ramp.EvalAcc epsilon (Ramp.fill v0 a T x0) t = Ok a) /\
    (t < - epsilon \/ T + epsilon < t ->
       Ramp.EvalPos epsilon (Ramp.fill v0 a T x0) t = AssertFail /\
       Ramp.EvalVel epsilon (Ramp.fill v0 a T x0) t = AssertFail /\
       Ramp.EvalAcc epsilon (Ramp.fill v0 a T x0) t = AssertFail).
Proof.
  intros epsilon v0 a T x0 t Heps HT.
  unfold Ramp.EvalPos, Ramp.EvalVel, Ramp.EvalAcc, clamp_time, pos. ramp_fields.
  split.
  - intros Hlo Hhi.
    replace (Rleb (- epsilon) t) with true by (symmetry; apply Rleb_le; exact Hlo).
    replace (Rleb t (T + epsilon)) with true by (symmetry; apply Rleb_le; exact Hhi).
    cbn [assert bind].
    destruct (Rleb t 0) eqn:E0; [|destruct (Rleb T t) eqn:E1].
    + repeat split; f_equal; ring.
    + repeat split; f_equal; ring.
    + repeat split; f_equal; ring.
  - intros [Hlo | Hhi].
    + replace (Rleb (- epsilon) t) with false by (symmetry; apply Rleb_gt; exact Hlo).
      repeat split.
    + replace (Rleb t (T + epsilon)) with false by (symmetry; apply Rleb_gt; exact Hhi).
      destruct (Rleb (- epsilon) t); repeat split.
Qed.

Lemma Ramp_eval_clamped_witness :
  0 <= tolerance /\ 0 <= Q2Qc 2 /\
  - tolerance <= Q2Qc 2 + half * tolerance /\
  Q2Qc 2 + half * tolerance <= Q2Qc 2 + tolerance /\
  Ramp.EvalPos tolerance (Ramp.fill 1 1 (Q2Qc 2) 0) (Q2Qc 2 + half * tolerance)
    = Ok (pos 0 1 1 (clamp_time (Q2Qc 2) (Q2Qc 2 + half * tolerance))).
Proof.
  assert (H0 : 0 <= tolerance) by (apply Rleb_le; reflexivity).
  assert (H1 : 0 <= Q2Qc 2) by (apply Rleb_le; reflexivity).
  assert (H2 : - tolerance <= Q2Qc 2 + half * tolerance) by (apply Rleb_le; reflexivity).
  assert (H3 : Q2Qc 2 + half * tolerance <= Q2Qc 2 + tolerance)
    by (apply Rleb_le; reflexivity).
  split; [exact H0 | split; [exact H1 | split; [exact H2 | split; [exact H3 |]]]].
  exact (proj1 (proj1 (Ramp_eval_clamped tolerance 1 1 (Q2Qc 2) 0
                         (Q2Qc 2 + half * tolerance) H0 H1) H2 H3)).
Defined.

(** X2.  [UpdateDuration] fails exactly when the new duration is below
    [-epsilon].  Otherwise it keeps [v0], [a] and [x0], stores the new
    duration with negative values raised to [0], and recomputes [v1], [d]
    and [x1] from them; updating a ramp with consistent derived fields to
    the non-negative duration it already has changes nothing. *)
Theorem Ramp_UpdateDuration_clamps :
  forall (epsilon : Real) (r : Ramp.t) (newDuration : Real),
    (Ramp.UpdateDuration epsilon r newDuration = AssertFail <->
     newDuration < - epsilon) /\
    (- epsilon <= newDuration ->
     exists r' : Ramp.t,
       Ramp.UpdateDuration epsilon r newDuration = Ok r' /\
       Ramp.duration r' = Max newDuration 0 /\
       0 <= Ramp.duration r' /\
       Ramp.v0 r' = Ramp.v0 r /\ Ramp.a r' = Ramp.a r /\ Ramp.x0 r' = Ramp.x0 r /\
       ramp_consistent r') /\
    (ramp_consistent r -> 0 <= Ramp.duration r -> 0 <= epsilon ->
     Ramp.UpdateDuration epsilon r (Ramp.duration r) = Ok r).
Proof.
  intros epsilon r newDuration. unfold Ramp.UpdateDuration. split; [|split].
  - destruct (Rleb (- epsilon) newDuration) eqn:E; cbn [assert bind]; real_props.
    + split; [discriminate|]. intros H. exfalso. real_lra.
    + split; [intros _; exact E | reflexivity].
  - intros Hlo.
    replace (Rleb (- epsilon) newDuration) with true by (symmetry; apply Rleb_le; exact Hlo).
    cbn [assert bind]. eexists. split; [reflexivity|]. ramp_fields.
    unfold Max, ramp_consistent. ramp_fields.
    destruct (Rltb newDuration 0) eqn:E; real_props.
    + replace (Rltb 0 newDuration) with false by (symmetry; apply Rltb_ge; real_lra).
      repeat split. apply Qcle_refl.
    + destruct (Rltb 0 newDuration) eqn:E'; real_props; repeat split; try assumption.
      apply Qcle_antisym; assumption.
  - intros (Hv1 & Hd & Hx1) Hdur Heps.
    replace (Rleb (- epsilon) (Ramp.duration r)) with true
      by (symmetry; apply Rleb_le; real_lra).
    replace (Rltb (Ramp.duration r) 0) with false
      by (symmetry; apply Rltb_ge; exact Hdur).
    cbn [assert bind]. f_equal. destruct r as [v0 a T x0 v1 d x1].
    ramp_fields. subst v1 d x1. reflexivity.
Qed.

Lemma Ramp_UpdateDuration_clamps_witness :
  - tolerance <= - (half * tolerance) /\
  exists r' : Ramp.t,
    Ramp.UpdateDuration tolerance (Ramp.fill 1 1 1 0) (- (half * tolerance)) = Ok r' /\
    Ramp.duration r' = Max (- (half * tolerance)) 0 /\
    0 <= Ramp.duration r' /\
    Ramp.v0 r' = 1 /\ Ramp.a r' = 1 /\ Ramp.x0 r' = 0 /\
    ramp_consistent r'.
Proof.
  assert (H0 : - tolerance <= - (half * tolerance)) by (apply Rleb_le; reflexivity).
  split; [exact H0|].
  exact (proj1 (proj2 (Ramp_UpdateDuration_clamps tolerance (Ramp.fill 1 1 1 0)
                         (- (half * tolerance)))) H0).
Defined.

(** X3.  With [epsilon >= 0], [Ramp::GetPeaks] never fails, whatever the
    ramp: the assertions of the inner [EvalPos] cannot fire, because the
    deflection time is only evaluated when it lies strictly inside
    [(0, duration)].  Each returned bound is [x0], [x1], or the position
    at the deflection time. *)
Theorem Ramp_GetPeaks_never_fails :
  forall (epsilon : Real) (r : Ramp.t),
    0 <= epsilon ->
    exists bmin bmax : Real,
      Ramp.GetPeaks epsilon r = Ok (bmin, bmax) /\
      (bmin = Ramp.x0 r \/ bmin = Ramp.x1 r \/
       Ramp.EvalPos epsilon r (- Ramp.v0 r / Ramp.a r) = Ok bmin) /\
      (bmax = Ramp.x0 r \/ bmax = Ramp.x1 r \/
       Ramp.EvalPos epsilon r (- Ramp.v0 r / Ramp.a r) = Ok bmax).
Proof.
  intros epsilon r Heps. unfold Ramp.GetPeaks.
  destruct (FuzzyZero (Ramp.a r) epsilon).
  { destruct (Rltb 0 (Ramp.v0 r)); do 2 eexists; (split; [reflexivity|]); auto. }
  set (tD := - Ramp.v0 r / Ramp.a r).
  destruct (Rleb tD 0) eqn:E0; cbn [orb].
  { destruct (Rltb 0 (Ramp.a r)); do 2 eexists; (split; [reflexivity|]); auto. }
  destruct (Rleb (Ramp.duration r) tD) eqn:E1; cbn [orb].
  { destruct (Rltb 0 (Ramp.a r)); do 2 eexists; (split; [reflexivity|]); auto. }
  assert (HE : exists p, Ramp.EvalPos epsilon r tD = Ok p).
  { unfold Ramp.EvalPos. rewrite E0, E1.
    replace (Rleb (- epsilon) tD) with true by (symmetry; apply Rleb_le; real_lra).
    replace (Rleb tD (Ramp.duration r + epsilon)) with true
      by (symmetry; apply Rleb_le; real_lra).
    eexists. reflexivity. }
  destruct HE as [p Hp]. rewrite Hp. cbn [bind].
  destruct (Rltb 0 (Ramp.a r)); do 2 eexists; (split; [reflexivity|]);
    unfold Min, Max;
    repeat match goal with |- context [if ?b then _ else _] => destruct b end; auto.
Qed.

Lemma Ramp_GetPeaks_never_fails_witness :
  0 <= tolerance /\
  exists bmin bmax : Real,
    Ramp.GetPeaks tolerance (Ramp.fill (Q2Qc (-5)) 1 1 0) = Ok (bmin, bmax).
Proof.
  assert (H0 : 0 <= tolerance) by (apply Rleb_le; reflexivity).
  split; [exact H0|].
  destruct (Ramp_GetPeaks_never_fails tolerance (Ramp.fill (Q2Qc (-5)) 1 1 0) H0)
    as (bmin & bmax & H & _).
  exists bmin, bmax. exact H.
Defined.

(** ** ParabolicCurve: what every built curve satisfies *)

Lemma running_step (acc : Real) (l : list Real) (i : nat) (s h : Real) :
  nth_error (acc :: running acc l) i = Some s ->
  nth_error l i = Some h ->
  nth_error (acc :: running acc l) (S i) = Some (s + h).
Proof.
  revert acc i. induction l as [|h0 l IH]; intros acc i Hs Hh.
  - destruct i; discriminate.
  - destruct i as [|i]; simpl in *.
    + injection Hs as <-. injection Hh as <-. reflexivity.
    + apply (IH (acc + h0) i); assumption.
Qed.

Lemma running_monotone (acc : Real) (l : list Real) (i j : nat) (si sj : Real) :
  (forall h, In h l -> 0 <= h) ->
  (i <= j)%nat ->
  nth_error (acc :: running acc l) i = Some si ->
  nth_error (acc :: running acc l) j = Some sj ->
  si <= sj.
Proof.
  intros Hpos Hij Hi. revert sj. induction Hij as [|j Hij IH]; intros sj Hj.
  - rewrite Hi in Hj. injection Hj as <-. apply Qcle_refl.
  - destruct (nth_error (acc :: running acc l) j) as [s|] eqn:Hs.
    + destruct (nth_error l j) as [h|] eqn:Hh.
      * rewrite (running_step acc l j s h Hs Hh) in Hj. injection Hj as <-.
        specialize (IH s eq_refl).
        assert (0 <= h) by (apply Hpos; eapply nth_error_In; eassumption).
        real_lra.
      * apply nth_error_None in Hh.
        assert (nth_error (acc :: running acc l) (S j) = None).
        { apply nth_error_None. simpl. rewrite running_length. lia. }
        congruence.
    + apply nth_error_None in Hs.
      assert (nth_error (acc :: running acc l) (S j) = None)
        by (apply nth_error_None; lia).
      congruence.
Qed.

(** X4.  In every non-empty curve that the operations of the class
    produce, the switch-point table has one entry more than there are
    ramps, starts at [0], ends at [duration], and each entry is the one
    before plus the duration of the ramp between them; when no ramp has a
    negative duration the table is non-decreasing. *)
Theorem built_switch_points_cumulative :
  forall c : ParabolicCurve.t,
    built c -> ParabolicCurve.ramps c <> [] ->
    List.length (ParabolicCurve.switchpointsList c)
      = S (List.length (ParabolicCurve.ramps c)) /\
    nth_error (ParabolicCurve.switchpointsList c) 0 = Some 0 /\
    nth_error (ParabolicCurve.switchpointsList c)
              (List.length (ParabolicCurve.ramps c))
      = Some (ParabolicCurve.duration c) /\
    (forall (i : nat) (r : Ramp.t) (s : Real),
       nth_error (ParabolicCurve.ramps c) i = Some r ->
       nth_error (ParabolicCurve.switchpointsList c) i = Some s ->
       nth_error (ParabolicCurve.switchpointsList c) (S i)
         = Some (s + Ramp.duration r)) /\
    ((forall r, In r (ParabolicCurve.ramps c) -> 0 <= Ramp.duration r) ->
     forall (i j : nat) (si sj : Real),
       (i <= j)%nat ->
       nth_error (ParabolicCurve.switchpointsList c) i = Some si ->
       nth_error (ParabolicCurve.switchpointsList c) j = Some sj ->
       si <= sj).
Proof.
  intros c Hb Hne.
  destruct (built_switch_table c Hb Hne) as (Hfirst & Hlast & Hlen).
  destruct (built_aggregates_agree c Hb) as (I1 & _).
  repeat split; try assumption.
  - intros i r s Hr Hs. rewrite I1 in *.
    destruct (ParabolicCurve.ramps c) as [|r0 rest]; [contradiction|].
    cbn [switch_table] in *.
    apply running_step; [exact Hs|]. rewrite nth_error_map, Hr. reflexivity.
  - intros Hpos i j si sj Hij Hi Hj. rewrite I1 in *.
    destruct (ParabolicCurve.ramps c) as [|r0 rest]; [contradiction|].
    cbn [switch_table] in *.
    apply (running_monotone 0 (map Ramp.duration (r0 :: rest)) i j); try assumption.
    intros h Hh. apply in_map_iff in Hh. destruct Hh as [r [<- Hr]]. apply Hpos. exact Hr.
Qed.

Lemma built_switch_points_cumulative_witness :
  built two_ramp_curve /\ ParabolicCurve.ramps two_ramp_curve <> [] /\
  List.length (ParabolicCurve.switchpointsList two_ramp_curve)
    = S (List.length (ParabolicCurve.ramps two_ramp_curve)).
Proof.
  assert (H1 : built two_ramp_curve)
    by exact (built_ParabolicCurve _ _ two_ramp_curve_constructed).
  assert (H2 : ParabolicCurve.ramps two_ramp_curve <> []) by discriminate.
  split; [exact H1 | split; [exact H2 |]].
  exact (proj1 (built_switch_points_cumulative two_ramp_curve H1 H2)).
Defined.





(** ** ParabolicCurve: how the operations compose *)

Lemma rebase_rebase (rs : list Ramp.t) (x y : Real) :
  ParabolicCurve.rebase (ParabolicCurve.rebase rs x) y = ParabolicCurve.rebase rs y.
Proof.
  revert x y. induction rs as [|r rs IH]; intros x y; simpl.
  - reflexivity.
  - rewrite IH. reflexivity.
Qed.

Lemma rebase_app_rebase_l (l1 l2 : list Ramp.t) (x y : Real) :
  ParabolicCurve.rebase (ParabolicCurve.rebase l1 y ++ l2) x
  = ParabolicCurve.rebase (l1 ++ l2) x.
Proof.
  revert x y. induction l1 as [|r l1 IH]; intros x y; simpl.
  - reflexivity.
  - rewrite IH. reflexivity.
Qed.

Lemma rebase_app_rebase_r (l1 l2 : list Ramp.t) (x y : Real) :
  ParabolicCurve.rebase (l1 ++ ParabolicCurve.rebase l2 y) x
  = ParabolicCurve.rebase (l1 ++ l2) x.
Proof.
  revert x. induction l1 as [|r l1 IH]; intros x; simpl.
  - apply rebase_rebase.
  - rewrite IH. reflexivity.
Qed.

Lemma rebase_nonempty (rs : list Ramp.t) (x : Real) :
  rs <> [] -> ParabolicCurve.rebase rs x <> [].
Proof. destruct rs; [contradiction | discriminate]. Qed.

(** [Append] when both curves hold ramps, in closed form. *)
Lemma Append_nonempty (self curve : ParabolicCurve.t) :
  ParabolicCurve.ramps self <> [] ->
  ParabolicCurve.ramps curve <> [] ->
  ParabolicCurve.Append self curve =
  Ok (ParabolicCurve.mk
        (ParabolicCurve.rebase (ParabolicCurve.ramps self ++ ParabolicCurve.ramps curve)
           (ParabolicCurve.x0 self))
        (ParabolicCurve.switchpointsList self
           ++ running (ParabolicCurve.duration self)
                (map Ramp.duration (ParabolicCurve.ramps curve)))
        (ParabolicCurve.x0 self)
        (ParabolicCurve.x0 self
           + total (ParabolicCurve.d self) (map Ramp.d (ParabolicCurve.ramps curve)))
        (ParabolicCurve.v0 self) (ParabolicCurve.v1 curve)
        (total (ParabolicCurve.d self) (map Ramp.d (ParabolicCurve.ramps curve)))
        (total (ParabolicCurve.duration self)
           (map Ramp.duration (ParabolicCurve.ramps curve)))).
Proof.
  intros Hs Hc.
  destruct (ParabolicCurve.ramps curve) as [|b0 rest] eqn:Ec; [contradiction|].
  rewrite (Append_closed_form self curve b0 rest Ec).
  destruct (ParabolicCurve.ramps self) as [|a0 arest] eqn:Es; [contradiction|].
  reflexivity.
Qed.

(** X6.  [Append] is associative on curves that hold ramps: appending [B]
    and then [C] to [A] gives the same curve as appending to [A] the
    result of appending [C] to [B]. *)
Theorem Append_associative :
  forall A B C : ParabolicCurve.t,
    ParabolicCurve.ramps A <> [] ->
    ParabolicCurve.ramps B <> [] ->
    ParabolicCurve.ramps C <> [] ->
    (AB <- ParabolicCurve.Append A B ;; ParabolicCurve.Append AB C)
    = (BC <- ParabolicCurve.Append B C ;; ParabolicCurve.Append A BC) /\
    exists ABC : ParabolicCurve.t,
      (AB <- ParabolicCurve.Append A B ;; ParabolicCurve.Append AB C) = Ok ABC /\
      map Ramp.d (ParabolicCurve.ramps ABC)
        = map Ramp.d (ParabolicCurve.ramps A ++ ParabolicCurve.ramps B
                        ++ ParabolicCurve.ramps C).
Proof.
  intros A B C HA HB HC.
  assert (HAB : ParabolicCurve.ramps A ++ ParabolicCurve.ramps B <> []).
  { intros E. apply app_eq_nil in E. destruct E; contradiction. }
  assert (HBC : ParabolicCurve.ramps B ++ ParabolicCurve.ramps C <> []).
  { intros E. apply app_eq_nil in E. destruct E; contradiction. }
  rewrite (Append_nonempty A B HA HB), (Append_nonempty B C HB HC). cbn [bind].
  rewrite Append_nonempty;
    [| cbn [ParabolicCurve.ramps]; apply rebase_nonempty; exact HAB | exact HC].
  rewrite (Append_nonempty A);
    [| exact HA | cbn [ParabolicCurve.ramps]; apply rebase_nonempty; exact HBC].
  cbn [ParabolicCurve.ramps ParabolicCurve.switchpointsList ParabolicCurve.x0
       ParabolicCurve.x1 ParabolicCurve.v0 ParabolicCurve.v1 ParabolicCurve.d
       ParabolicCurve.duration].
  rewrite rebase_app_rebase_l, rebase_app_rebase_r, rebase_d, rebase_duration.
  rewrite <- !app_assoc, !map_app, !running_app, !total_app.
  split; [reflexivity|].
  eexists. split; [reflexivity|].
  cbn [ParabolicCurve.ramps]. rewrite rebase_d, !map_app. reflexivity.
Qed.

Lemma Append_associative_witness :
  ParabolicCurve.ramps two_ramp_curve <> [] /\
  ParabolicCurve.ramps one_ramp_curve <> [] /\
  (AB <- ParabolicCurve.Append two_ramp_curve one_ramp_curve ;;
   ParabolicCurve.Append AB two_ramp_curve)
  = (BC <- ParabolicCurve.Append one_ramp_curve two_ramp_curve ;;
     ParabolicCurve.Append two_ramp_curve BC).
Proof.
  assert (H1 : ParabolicCurve.ramps two_ramp_curve <> []) by discriminate.
  assert (H2 : ParabolicCurve.ramps one_ramp_curve <> []) by discriminate.
  split; [exact H1 | split; [exact H2 |]].
  exact (proj1 (Append_associative two_ramp_curve one_ramp_curve two_ramp_curve
                  H1 H2 H1)).
Defined.

Lemma rebase_nth (rs : list Ramp.t) (x : Real) (i : nat) (r : Ramp.t) :
  nth_error rs i = Some r ->
  exists y, nth_error (ParabolicCurve.rebase rs x) i = Some (Ramp.set_x0 r y).
Proof.
  revert x i. induction rs as [|r0 rs IH]; intros x i H.
  - destruct i; discriminate.
  - destruct i as [|i]; simpl in *.
    + injection H as <-. exists x. reflexivity.
    + apply IH. exact H.
Qed.

(** X7.  On a non-empty sequence the constructor always succeeds, and
    [Initialize] returns the same curve whatever the object held before.
    The curve holds the given ramps in order, each changed in [x0] only,
    its [v0] is that of the first ramp and its [x0] the first ramp's
    [x0]. *)
Theorem Initialize_replaces_state :
  forall (self : ParabolicCurve.t) (r0 : Ramp.t) (rest : list Ramp.t),
    exists c : ParabolicCurve.t,
      ParabolicCurve.ParabolicCurve (r0 :: rest) = Ok c /\
      ParabolicCurve.Initialize self (r0 :: rest) = Ok c /\
      List.length (ParabolicCurve.ramps c) = List.length (r0 :: rest) /\
      (forall i r, nth_error (r0 :: rest) i = Some r ->
         exists y, nth_error (ParabolicCurve.ramps c) i = Some (Ramp.set_x0 r y)) /\
      ParabolicCurve.v0 c = Ramp.v0 r0 /\
      ParabolicCurve.x0 c = Ramp.x0 r0.
Proof.
  intros self r0 rest.
  destruct (ParabolicCurve_closed_form r0 rest) as [rlast [Hb Hc]].
  eexists. split; [exact Hc|]. split; [rewrite Initialize_closed_form; exact Hc|].
  cbn [ParabolicCurve.ramps ParabolicCurve.v0 ParabolicCurve.x0].
  split; [|split; [|split; reflexivity]].
  - rewrite <- (length_map Ramp.d), rebase_d, length_map. reflexivity.
  - intros i r Hr. apply rebase_nth. exact Hr.
Qed.

(** X8.  [Append] onto a curve without ramps returns the argument curve in
    every field except [v0], which is left as it was: the ramps, the
    switch-point table, [x0], [x1], [v1], [d] and [duration] are those of
    the argument. *)
Theorem Append_onto_empty_adopts :
  forall E B : ParabolicCurve.t,
    built E -> ParabolicCurve.ramps E = [] ->
    built B -> ParabolicCurve.ramps B <> [] ->
    ParabolicCurve.Append E B =
    Ok (ParabolicCurve.mk
          (ParabolicCurve.ramps B) (ParabolicCurve.switchpointsList B)
          (ParabolicCurve.x0 B) (ParabolicCurve.x1 B)
          (ParabolicCurve.v0 E) (ParabolicCurve.v1 B)
          (ParabolicCurve.d B) (ParabolicCurve.duration B)).
Proof.
  intros E B HE HEe HB Hne.
  destruct (built_aggregates_agree E HE) as (J1 & _).
  destruct (built_aggregates_agree B HB) as (I1 & I2 & I3 & I4 & I5 & I6).
  destruct (ParabolicCurve.ramps B) as [|b0 rest] eqn:Hr; [contradiction|].
  rewrite (Append_closed_form E B b0 rest Hr), HEe.
  rewrite J1, HEe. cbn [switch_table app].
  assert (Hx0 : Ramp.x0 b0 = ParabolicCurve.x0 B).
  { pose proof I5 as I5'. simpl in I5'. injection I5' as Eb0 _. rewrite Eb0. reflexivity. }
  rewrite Hx0, <- I5, I1, I4, I3, I2. reflexivity.
Qed.

Lemma Append_onto_empty_adopts_witness :
  built (ParabolicCurve.Reset two_ramp_curve) /\
  ParabolicCurve.ramps (ParabolicCurve.Reset two_ramp_curve) = [] /\
  built two_ramp_curve /\ ParabolicCurve.ramps two_ramp_curve <> [] /\
  ParabolicCurve.Append (ParabolicCurve.Reset two_ramp_curve) two_ramp_curve =
  Ok (ParabolicCurve.mk
        (ParabolicCurve.ramps two_ramp_curve)
        (ParabolicCurve.switchpointsList two_ramp_curve)
        (ParabolicCurve.x0 two_ramp_curve) (ParabolicCurve.x1 two_ramp_curve)
        (ParabolicCurve.v0 (ParabolicCurve.Reset two_ramp_curve))
        (ParabolicCurve.v1 two_ramp_curve)
        (ParabolicCurve.d two_ramp_curve) (ParabolicCurve.duration two_ramp_curve)).
Proof.
  assert (H1 : built (ParabolicCurve.Reset two_ramp_curve)) by apply built_Reset.
  assert (H2 : ParabolicCurve.ramps (ParabolicCurve.Reset two_ramp_curve) = [])
    by reflexivity.
  assert (H3 : built two_ramp_curve)
    by exact (built_ParabolicCurve _ _ two_ramp_curve_constructed).
  assert (H4 : ParabolicCurve.ramps two_ramp_curve <> []) by discriminate.
  repeat (split; [assumption|]).
  exact (Append_onto_empty_adopts _ _ H1 H2 H3 H4).
Defined.

(** ** ParabolicCurve: evaluation inside the admissible range *)

Lemma Ramp_EvalVel_in_range (epsilon : Real) (r : Ramp.t) (t : Real)
    (vec : string) (i : Z) :
  Ramp.EvalVel epsilon r t <> OutOfRange vec i.
Proof.
  unfold Ramp.EvalVel.
  destruct (Rleb (- epsilon) t); cbn [assert bind]; [|discriminate].
  destruct (Rleb t (Ramp.duration r + epsilon)); cbn [assert bind]; [|discriminate].
  destruct (Rleb t 0); [discriminate|].
  destruct (Rleb (Ramp.duration r) t); discriminate.
Qed.

Lemma back_nth_error {A : Type} (name : string) (l : list A) (x : A) :
  back name l = Ok x -> nth_error l (List.length l - 1) = Some x.
Proof.
  rewrite back_Ok. intros [l' ->].
  rewrite length_app. simpl.
  replace (List.length l' + 1 - 1)%nat with (List.length l') by lia.
  rewrite nth_error_app2, Nat.sub_diag by lia. reflexivity.
Qed.

(** Where [FindRampIndex] lands: on a ramp of the curve, with a remainder
    that is [0], that ramp's duration, or positive. *)
Lemma FindRampIndex_in_ramp (epsilon : Real) (c : ParabolicCurve.t) (t : Real) :
  0 < epsilon ->
  built c -> ParabolicCurve.ramps c <> [] ->
  - epsilon <= t -> t <= ParabolicCurve.duration c + epsilon ->
  exists (i : nat) (r : Ramp.t) (remainder : Real),
    ParabolicCurve.FindRampIndex epsilon c t = Ok (Z.of_nat i, remainder) /\
    nth_error (ParabolicCurve.ramps c) i = Some r /\
    (remainder = 0 \/ remainder = Ramp.duration r \/ 0 < remainder).
Proof.
  intros Heps Hb Hne Hlo Hhi.
  destruct (built_switch_table c Hb Hne) as (Hfirst & Hlast & Hlen).
  unfold ParabolicCurve.FindRampIndex.
  replace (Rleb (- epsilon) t) with true by (symmetry; apply Rleb_le; exact Hlo).
  replace (Rleb t (ParabolicCurve.duration c + epsilon)) with true
    by (symmetry; apply Rleb_le; exact Hhi).
  cbn [assert bind].
  destruct (Rltb t epsilon) eqn:E1; real_props.
  { destruct (ParabolicCurve.ramps c) as [|r0 rest] eqn:Er; [contradiction|].
    exists O, r0, 0. repeat split. left. reflexivity. }
  destruct (Rltb (ParabolicCurve.duration c - epsilon) t) eqn:E2; real_props.
  { destruct (back_nonempty "ramps" _ Hne) as [rlast Hr]. rewrite Hr. cbn [bind].
    pose proof (back_nth_error _ _ _ Hr) as Hn.
    assert (Hl : (0 < List.length (ParabolicCurve.ramps c))%nat).
    { destruct (ParabolicCurve.ramps c); [contradiction | simpl; lia]. }
    exists (List.length (ParabolicCurve.ramps c) - 1)%nat, rlast, (Ramp.duration rlast).
    replace (Z.of_nat (List.length (ParabolicCurve.ramps c) - 1))
      with (Z.of_nat (List.length (ParabolicCurve.ramps c)) - 1)%Z by lia.
    repeat split; try assumption. right. left. reflexivity. }
  set (sps := ParabolicCurve.switchpointsList c) in *.
  set (k := ParabolicCurve.scan sps t).
  assert (Hk1 : (1 <= k)%nat).
  { destruct sps as [|s0 sps'] eqn:Es; [discriminate|].
    injection Hfirst as ->. subst k. simpl.
    replace (Rltb 0 t) with true by (symmetry; apply Rltb_lt; real_lra). lia. }
  assert (Hk2 : (k < List.length sps)%nat).
  { pose proof (scan_le_length sps t) as Hle. fold k in Hle.
    destruct (Nat.eq_dec k (List.length sps)) as [E|]; [|lia].
    exfalso.
    assert (Hd : ParabolicCurve.duration c < t).
    { apply (scan_before sps t (List.length (ParabolicCurve.ramps c))); [|exact Hlast].
      fold k. lia. }
    real_lra. }
  replace (Z.of_nat k <? Z.of_nat (List.length sps))%Z with true
    by (symmetry; apply Z.ltb_lt; lia).
  cbn [assert bind].
  replace (Z.of_nat k - 1)%Z with (Z.of_nat (k - 1)) by lia.
  rewrite at_index_nat.
  destruct (nth_error sps (k - 1)) as [s|] eqn:Hs;
    [|apply nth_error_None in Hs; lia].
  destruct (nth_error (ParabolicCurve.ramps c) (k - 1)) as [r|] eqn:Hr;
    [|apply nth_error_None in Hr; lia].
  exists (k - 1)%nat, r, (t - s). cbn [bind].
  assert (Hst : s < t) by (apply (scan_before sps t (k - 1) s); [fold k; lia | exact Hs]).
  split; [reflexivity|]. split; [exact Hr|]. right. right. real_lra.
Qed.

(** Inside the admissible range the evaluators of a curve come down to
    those of the ramp that [FindRampIndex] lands on. *)
Lemma ParabolicCurve_evaluators_reduce (epsilon : Real) (c : ParabolicCurve.t)
    (t : Real) :
  0 < epsilon ->
  built c -> ParabolicCurve.ramps c <> [] ->
  - epsilon <= t -> t <= ParabolicCurve.duration c + epsilon ->
  exists (i : nat) (r : Ramp.t) (remainder : Real),
    ParabolicCurve.FindRampIndex epsilon c t = Ok (Z.of_nat i, remainder) /\
    nth_error (ParabolicCurve.ramps c) i = Some r /\
    (remainder = 0 \/ remainder = Ramp.duration r \/ 0 < remainder) /\
    ParabolicCurve.EvalPos epsilon c t =
      (if Rleb t 0 then Ok (ParabolicCurve.x0 c)
       else if Rleb (ParabolicCurve.duration c) t then Ok (ParabolicCurve.x1 c)
       else Ramp.EvalPos epsilon r remainder) /\
    ParabolicCurve.EvalVel epsilon c t =
      (if Rleb t 0 then Ok (ParabolicCurve.v0 c)
       else if Rleb (ParabolicCurve.duration c) t then Ok (ParabolicCurve.v1 c)
       else Ramp.EvalVel epsilon r remainder) /\
    exists acc : Real,
      ParabolicCurve.EvalAcc epsilon c t = Ok acc /\
      (0 < t -> t < ParabolicCurve.duration c -> acc = Ramp.a r).
Proof.
  intros Heps Hb Hne Hlo Hhi.
  destruct (FindRampIndex_in_ramp epsilon c t Heps Hb Hne Hlo Hhi)
    as (i & r & remainder & Hf & Hr & Hrem).
  exists i, r, remainder.
  split; [exact Hf|]. split; [exact Hr|]. split; [exact Hrem|].
  unfold ParabolicCurve.EvalPos, ParabolicCurve.EvalVel, ParabolicCurve.EvalAcc.
  replace (Rleb (- epsilon) t) with true by (symmetry; apply Rleb_le; exact Hlo).
  replace (Rleb t (ParabolicCurve.duration c + epsilon)) with true
    by (symmetry; apply Rleb_le; exact Hhi).
  cbn [assert bind]. rewrite Hf. cbn [bind]. rewrite at_index_nat, Hr. cbn [bind].
  split; [reflexivity|]. split; [reflexivity|].
  destruct (ParabolicCurve.ramps c) as [|r0 rest] eqn:Er; [contradiction|].
  destruct (back_nonempty "ramps" (r0 :: rest)) as [rl Hrl]; [discriminate|].
  rewrite Hrl.
  destruct (Rleb t 0) eqn:E0; [|destruct (Rleb (ParabolicCurve.duration c) t) eqn:E1];
    eexists; (split; [reflexivity|]); intros H1 H2; real_props;
    try reflexivity; exfalso; real_lra.
Qed.

(** Inside the admissible range [EvalAcc] returns a value and neither
    [EvalPos] nor [EvalVel] reads a vector outside its bounds. *)
Lemma ParabolicCurve_evaluators_in_range (epsilon : Real) (c : ParabolicCurve.t)
    (t : Real) :
  0 < epsilon ->
  built c -> ParabolicCurve.ramps c <> [] ->
  - epsilon <= t -> t <= ParabolicCurve.duration c + epsilon ->
  (exists acc, ParabolicCurve.EvalAcc epsilon c t = Ok acc) /\
  (forall (vec : string) (k : Z),
     ParabolicCurve.EvalPos epsilon c t <> OutOfRange vec k /\
     ParabolicCurve.EvalVel epsilon c t <> OutOfRange vec k).
Proof.
  intros Heps Hb Hne Hlo Hhi.
  destruct (ParabolicCurve_evaluators_reduce epsilon c t Heps Hb Hne Hlo Hhi)
    as (i & r & remainder & Hf & Hr & Hrem & Hp & Hv & acc & Ha & _).
  split; [exists acc; exact Ha|].
  intros vec k. rewrite Hp, Hv. split.
  - destruct (Rleb t 0); [discriminate|].
    destruct (Rleb (ParabolicCurve.duration c) t); [discriminate|].
    apply Ramp_EvalPos_in_range.
  - destruct (Rleb t 0); [discriminate|].
    destruct (Rleb (ParabolicCurve.duration c) t); [discriminate|].
    apply Ramp_EvalVel_in_range.
Qed.

(** X9.  In a non-empty curve that the operations of the class produce,
    evaluation at a time inside [[-epsilon, duration + epsilon]] always
    reaches a ramp of the curve: [FindRampIndex] returns the index of an
    existing ramp, with a remainder that is [0], that ramp's duration, or
    positive; [EvalAcc] returns a value, the acceleration of that ramp
    when [0 < t < duration]; [EvalPos] and [EvalVel] return the curve's
    [x0] and [v0] when [t <= 0], its [x1] and [v1] when [t >= duration],
    and otherwise what that ramp's [EvalPos] and [EvalVel] give at the
    remainder, so that no vector is read outside its bounds. *)
Theorem ParabolicCurve_evaluation_in_range :
  forall (epsilon : Real) (c : ParabolicCurve.t) (t : Real),
    0 < epsilon ->
    built c -> ParabolicCurve.ramps c <> [] ->
    - epsilon <= t -> t <= ParabolicCurve.duration c + epsilon ->
    exists (i : nat) (r : Ramp.t) (remainder : Real),
      ParabolicCurve.FindRampIndex epsilon c t = Ok (Z.of_nat i, remainder) /\
      nth_error (ParabolicCurve.ramps c) i = Some r /\
      (remainder = 0 \/ remainder = Ramp.duration r \/ 0 < remainder) /\
      ParabolicCurve.EvalPos epsilon c t =
        (if Rleb t 0 then Ok (ParabolicCurve.x0 c)
         else if Rleb (ParabolicCurve.duration c) t then Ok (ParabolicCurve.x1 c)
         else Ramp.EvalPos epsilon r remainder) /\
      ParabolicCurve.EvalVel epsilon c t =
        (if Rleb t 0 then Ok (ParabolicCurve.v0 c)
         else if Rleb (ParabolicCurve.duration c) t then Ok (ParabolicCurve.v1 c)
         else Ramp.EvalVel epsilon r remainder) /\
      (exists acc : Real,
         ParabolicCurve.EvalAcc epsilon c t = Ok acc /\
         (0 < t -> t < ParabolicCurve.duration c -> acc = Ramp.a r)) /\
      (forall (vec : string) (k : Z),
         ParabolicCurve.EvalPos epsilon c t <> OutOfRange vec k /\
         ParabolicCurve.EvalVel epsilon c t <> OutOfRange vec k).
Proof.
  intros epsilon c t Heps Hb Hne Hlo Hhi.
  destruct (ParabolicCurve_evaluators_reduce epsilon c t Heps Hb Hne Hlo Hhi)
    as (i & r & remainder & Hf & Hr & Hrem & Hp & Hv & Ha).
  exists i, r, remainder.
  repeat (split; [assumption|]).
  intros vec k.
  apply (ParabolicCurve_evaluators_in_range epsilon c t Heps Hb Hne Hlo Hhi).
Qed.

Lemma ParabolicCurve_evaluation_in_range_witness :
  0 < tolerance /\ built two_ramp_curve /\
  ParabolicCurve.ramps two_ramp_curve <> [] /\
  - tolerance <= Q2Qc (5 # 2) /\
  Q2Qc (5 # 2) <= ParabolicCurve.duration two_ramp_curve + tolerance /\
  exists (i : nat) (r : Ramp.t) (remainder : Real),
    ParabolicCurve.FindRampIndex tolerance two_ramp_curve (Q2Qc (5 # 2))
      = Ok (Z.of_nat i, remainder) /\
    nth_error (ParabolicCurve.ramps two_ramp_curve) i = Some r /\
    ParabolicCurve.EvalPos tolerance two_ramp_curve (Q2Qc (5 # 2)) =
      (if Rleb (Q2Qc (5 # 2)) 0 then Ok (ParabolicCurve.x0 two_ramp_curve)
       else if Rleb (ParabolicCurve.duration two_ramp_curve) (Q2Qc (5 # 2))
            then Ok (ParabolicCurve.x1 two_ramp_curve)
            else Ramp.EvalPos tolerance r remainder).
Proof.
  assert (H0 : 0 < tolerance) by (apply Rltb_lt; reflexivity).
  assert (H1 : built two_ramp_curve)
    by exact (built_ParabolicCurve _ _ two_ramp_curve_constructed).
  assert (H2 : ParabolicCurve.ramps two_ramp_curve <> []) by discriminate.
  assert (H4 : - tolerance <= Q2Qc (5 # 2)) by (apply Rleb_le; reflexivity).
  assert (H5 : Q2Qc (5 # 2) <= ParabolicCurve.duration two_ramp_curve + tolerance)
    by (apply Rleb_le; reflexivity).
  repeat (split; [assumption|]).
  destruct (ParabolicCurve_evaluation_in_range tolerance two_ramp_curve
              (Q2Qc (5 # 2)) H0 H1 H2 H4 H5)
    as (i & r & remainder & Hf & Hr & _ & Hp & _).
  exists i, r, remainder. repeat split; assumption.
Defined.

(** On binary64 numbers the ramp's own range assertion can fail at an
    admissible time.  In the curve of three ramps at rest with durations
    [3000000], [0.2] and [5] the second switch point is
    [3000000.2000000002]; at this time [FindRampIndex] lands on the ramp
    of duration [0.2] with remainder [0.20000000018626451], which exceeds
    [0.2 + 1e-10], and [EvalPos] fails the assertion
    [t <= duration + epsilon] of [Ramp::EvalPos]. *)
Lemma EvalPos_asserts_at_switch_point_binary64 :
  exists c : Binary64.ParabolicCurve.t,
    Binary64.ParabolicCurve.ParabolicCurve
      [Binary64.Ramp.fill 0 0 3000000 0; Binary64.Ramp.fill 0 0 0.2 0;
       Binary64.Ramp.fill 0 0 5 0] = Ok c /\
    Binary64.ParabolicCurve.switchpointsList c
      = [0; 3000000; 3000000.2; 3000005.2]%float /\
    Binary64.ParabolicCurve.FindRampIndex 1e-10 c 3000000.2
      = Ok (1%Z, 0.20000000018626451%float) /\
    PrimFloat.leb 0.20000000018626451 (0.2 + 1e-10) = false /\
    Binary64.ParabolicCurve.EvalPos 1e-10 c 3000000.2 = AssertFail.
Proof.
  eexists. split; [reflexivity|]. repeat split; reflexivity.
Qed.

(** ** ParabolicCurve: GetPeaks *)

Lemma peaks_loop_bounds (epsilon : Real) (rs : list Ramp.t) (b0 B0 bmin bmax : Real) :
  ParabolicCurve.peaks_loop epsilon rs b0 B0 = Ok (bmin, bmax) ->
  bmin <= b0 /\ B0 <= bmax /\
  (forall r t1 t2, In r rs -> Ramp.GetPeaks epsilon r = Ok (t1, t2) ->
     bmin <= t1 /\ t2 <= bmax) /\
  (bmin = b0 \/ exists r t2, In r rs /\ Ramp.GetPeaks epsilon r = Ok (bmin, t2)) /\
  (bmax = B0 \/ exists r t1, In r rs /\ Ramp.GetPeaks epsilon r = Ok (t1, bmax)).
Proof.
  revert b0 B0. induction rs as [|r rs IH]; intros b0 B0 H; simpl in H.
  - apply Ok_inj in H. injection H as <- <-.
    repeat split; try apply Qcle_refl; auto; try contradiction.
  - destruct (Ramp.GetPeaks epsilon r) as [[t1 t2]| |] eqn:Hr; cbn [bind] in H;
      try discriminate.
    apply IH in H. destruct H as (H1 & H2 & H3 & H4 & H5).
    assert (Hb : (if Rltb t1 b0 then t1 else b0) <= b0 /\
                 (if Rltb t1 b0 then t1 else b0) <= t1)
      by (destruct (Rltb t1 b0) eqn:E; split; real_lra).
    assert (HB : B0 <= (if Rltb B0 t2 then t2 else B0) /\
                 t2 <= (if Rltb B0 t2 then t2 else B0))
      by (destruct (Rltb B0 t2) eqn:E; split; real_lra).
    destruct Hb as [Hb1 Hb2]. destruct HB as [HB1 HB2].
    split; [eapply Qcle_trans; eassumption|].
    split; [eapply Qcle_trans; eassumption|].
    split; [|split].
    + intros r' u1 u2 [<- | Hin] Hg.
      * rewrite Hr in Hg. apply Ok_inj in Hg. injection Hg as <- <-.
        split; eapply Qcle_trans; eassumption.
      * apply (H3 r' u1 u2 Hin Hg).
    + destruct H4 as [-> | (r' & u2 & Hin & Hg)].
      * destruct (Rltb t1 b0); [right; exists r, t2; split; [left; reflexivity | exact Hr]
                                | left; reflexivity].
      * right. exists r', u2. split; [right; exact Hin | exact Hg].
    + destruct H5 as [-> | (r' & u1 & Hin & Hg)].
      * destruct (Rltb B0 t2); [right; exists r, t1; split; [left; reflexivity | exact Hr]
                                | left; reflexivity].
      * right. exists r', u1. split; [right; exact Hin | exact Hg].
Qed.

(** X10.  [ParabolicCurve::GetPeaks] fails its assertion on a curve
    without ramps.  When it returns [(bmin, bmax)], both lie strictly
    inside [(-inf, inf)], [bmin] is the lower bound that [GetPeaks] of
    some ramp of the curve returns and no ramp returns a smaller one, and
    [bmax] is the upper bound of some ramp and no ramp returns a larger
    one. *)
Theorem ParabolicCurve_GetPeaks_extremes :
  forall (epsilon inf : Real) (c : ParabolicCurve.t),
    (ParabolicCurve.ramps c = [] ->
     ParabolicCurve.GetPeaks epsilon inf c = AssertFail) /\
    (forall bmin bmax : Real,
       ParabolicCurve.GetPeaks epsilon inf c = Ok (bmin, bmax) ->
       bmin < inf /\ - inf < bmax /\
       (forall r t1 t2, In r (ParabolicCurve.ramps c) ->
          Ramp.GetPeaks epsilon r = Ok (t1, t2) -> bmin <= t1 /\ t2 <= bmax) /\
       (exists r t2, In r (ParabolicCurve.ramps c) /\
          Ramp.GetPeaks epsilon r = Ok (bmin, t2)) /\
       (exists r t1, In r (ParabolicCurve.ramps c) /\
          Ramp.GetPeaks epsilon r = Ok (t1, bmax))).
Proof.
  intros epsilon inf c. unfold ParabolicCurve.GetPeaks. split.
  - intros ->. cbn [ParabolicCurve.peaks_loop bind].
    replace (Rltb inf inf) with false
      by (symmetry; apply Rltb_ge; apply Qcle_refl).
    reflexivity.
  - intros bmin bmax H.
    destruct (ParabolicCurve.peaks_loop epsilon (ParabolicCurve.ramps c) inf (- inf))
      as [[b B]| |] eqn:Hl; cbn [bind] in H; try discriminate.
    destruct (Rltb b inf) eqn:E1; cbn [assert bind] in H; try discriminate.
    destruct (Rltb (- inf) B) eqn:E2; cbn [assert bind] in H; try discriminate.
    apply Ok_inj in H. injection H as <- <-.
    apply peaks_loop_bounds in Hl. destruct Hl as (_ & _ & H3 & H4 & H5).
    real_props.
    split; [exact E1|]. split; [exact E2|]. split; [exact H3|]. split.
    + destruct H4 as [-> | H4]; [|exact H4].
      exfalso. apply (Qclt_not_le _ _ E1). apply Qcle_refl.
    + destruct H5 as [-> | H5]; [|exact H5].
      exfalso. apply (Qclt_not_le _ _ E2). apply Qcle_refl.
Qed.

(** ** ParabolicCurvesND: the merged switch-point table *)

Lemma In_insert_at (n : nat) (x z : Real) (l : list Real) :
  In z (ParabolicCurvesND.insert_at n x l) <-> z = x \/ In z l.
Proof.
  unfold ParabolicCurvesND.insert_at.
  rewrite in_app_iff. cbn [In].
  rewrite <- (firstn_skipn n l) at 3. rewrite in_app_iff.
  intuition congruence.
Qed.

(** *** The bisection of [std::lower_bound] *)

Lemma div2_bounds (n : nat) :
  (Nat.div2 (S n) <= n /\ S n - Nat.div2 (S n) - 1 <= n)%nat.
Proof.
  assert (Nat.div2 (S n) < S n)%nat as H by (apply Nat.lt_div2; apply Nat.lt_0_succ).
  generalize dependent (Nat.div2 (S n)). intros m H. lia.
Qed.

(** [len] iterations are enough: more steps change nothing. *)
Lemma bisect_steps (l : list Real) (x : Real) (s1 s2 first len : nat) :
  (len <= s1)%nat -> (len <= s2)%nat ->
  ParabolicCurvesND.bisect s1 l x first len =
  ParabolicCurvesND.bisect s2 l x first len.
Proof.
  revert s2 first len. induction s1 as [|s1 IH]; intros s2 first len H1 H2.
  - assert (len = 0)%nat as -> by lia. destruct s2; reflexivity.
  - destruct s2 as [|s2]; [assert (len = 0)%nat as -> by lia; reflexivity|].
    cbn [ParabolicCurvesND.bisect]. destruct len as [|n]; [reflexivity|].
    destruct (div2_bounds n) as [Ha Hb].
    set (h := Nat.div2 (S n)) in *. clearbody h.
    destruct (Rltb _ x); apply IH; lia.
Qed.

(** On any table the bisection returns the end of the table or the
    position of an entry not less than [x]. *)
Lemma bisect_stop (l : list Real) (x : Real) (steps first len : nat) :
  (len <= steps)%nat ->
  (first + len <= List.length l)%nat ->
  (first + len)%nat = List.length l \/ x <= nth (first + len) l 0 ->
  (ParabolicCurvesND.bisect steps l x first len <= List.length l)%nat /\
  (ParabolicCurvesND.bisect steps l x first len = List.length l \/
   x <= nth (ParabolicCurvesND.bisect steps l x first len) l 0).
Proof.
  revert first len. induction steps as [|steps IH]; intros first len Hs Hlen Hend.
  - assert (len = 0)%nat as -> by lia. cbn. rewrite Nat.add_0_r in *. split; [lia | exact Hend].
  - cbn [ParabolicCurvesND.bisect]. destruct len as [|n].
    + rewrite Nat.add_0_r in *. split; [lia | exact Hend].
    + destruct (div2_bounds n) as [Ha Hb].
    set (h := Nat.div2 (S n)) in *. clearbody h.
      destruct (Rltb (nth (first + h) l 0) x) eqn:E.
      * apply IH; [lia | lia |].
        replace (S (first + h) + (S n - h - 1))%nat
          with (first + S n)%nat by lia.
        exact Hend.
      * apply IH; [lia | lia |]. right. apply Rltb_ge. exact E.
Qed.

Lemma lower_bound_stop (l : list Real) (x y : Real) :
  nth_error l (ParabolicCurvesND.lower_bound l x) = Some y -> x <= y.
Proof.
  intros H. unfold ParabolicCurvesND.lower_bound in *.
  destruct (bisect_stop l x (List.length l) 0 (List.length l)) as [_ [E | E]];
    [lia | lia | left; reflexivity | |].
  - rewrite E in H. rewrite (proj2 (nth_error_None l (List.length l))) in H by lia.
    discriminate.
  - rewrite (nth_error_nth _ _ 0 H) in E. exact E.
Qed.

Lemma first_not_less_le_length (l : list Real) (x : Real) :
  (first_not_less l x <= List.length l)%nat.
Proof.
  induction l as [|y l IH]; simpl; [lia|]. destruct (Rltb y x); lia.
Qed.

Lemma first_not_less_before (l : list Real) (x : Real) (i : nat) :
  (i < first_not_less l x)%nat -> nth i l 0 < x.
Proof.
  revert i. induction l as [|y l IH]; simpl; intros i H; [lia|].
  destruct (Rltb y x) eqn:E; [|lia].
  destruct i as [|i]; [apply Rltb_lt; exact E | apply IH; lia].
Qed.

Lemma nondecreasing_nth (l : list Real) (i j : nat) :
  nondecreasing l -> (i <= j)%nat -> (j < List.length l)%nat ->
  nth i l 0 <= nth j l 0.
Proof.
  revert i j. induction l as [|y l IH]; simpl; intros i j Hl Hij Hj; [lia|].
  destruct Hl as [Hy Hl]. destruct i as [|i], j as [|j]; try lia.
  - apply Qcle_refl.
  - apply Hy. apply nth_In. lia.
  - apply IH; [exact Hl | lia | lia].
Qed.

Lemma first_not_less_from (l : list Real) (x : Real) (i : nat) :
  nondecreasing l ->
  (first_not_less l x <= i)%nat -> (i < List.length l)%nat -> x <= nth i l 0.
Proof.
  intros Hl Hi Hlen.
  apply Qcle_trans with (nth (first_not_less l x) l 0);
    [|apply nondecreasing_nth; assumption].
  clear Hl. revert i Hi Hlen. induction l as [|y l IH]; simpl; intros i Hi Hlen; [lia|].
  destruct (Rltb y x) eqn:E.
  - destruct i as [|i]; [lia|]. apply (IH i); lia.
  - apply Rltb_ge. exact E.
Qed.

(** On a sorted table the bisection finds the first entry that is not
    less than [x]. *)
Lemma bisect_sorted (l : list Real) (x : Real) (steps first len : nat) :
  nondecreasing l ->
  (len <= steps)%nat ->
  (first <= first_not_less l x)%nat ->
  (first_not_less l x <= first + len)%nat ->
  (first + len <= List.length l)%nat ->
  ParabolicCurvesND.bisect steps l x first len = first_not_less l x.
Proof.
  intros Hl. revert first len.
  induction steps as [|steps IH]; intros first len Hs H1 H2 H3.
  - cbn. lia.
  - cbn [ParabolicCurvesND.bisect]. destruct len as [|n]; [lia|].
    destruct (div2_bounds n) as [Ha Hb].
    set (h := Nat.div2 (S n)) in *. clearbody h.
    destruct (Rltb (nth (first + h) l 0) x) eqn:E; real_props.
    + assert (first + h < first_not_less l x)%nat as Hm.
      { destruct (Nat.lt_ge_cases (first + h) (first_not_less l x))
          as [Hlt | Hge]; [exact Hlt|].
        exfalso. apply (Qclt_not_le _ _ E).
        apply first_not_less_from; [exact Hl | exact Hge | lia]. }
      apply IH; lia.
    + assert (first_not_less l x <= first + h)%nat as Hm.
      { destruct (Nat.lt_ge_cases (first + h) (first_not_less l x))
          as [Hlt | Hge]; [|exact Hge].
        exfalso. apply (Qclt_not_le _ _ (first_not_less_before l x _ Hlt)). exact E. }
      apply IH; lia.
Qed.

Lemma lower_bound_sorted (l : list Real) (x : Real) :
  nondecreasing l -> ParabolicCurvesND.lower_bound l x = first_not_less l x.
Proof.
  intros Hl. unfold ParabolicCurvesND.lower_bound.
  apply bisect_sorted; [exact Hl | lia | lia | | lia].
  apply first_not_less_le_length.
Qed.

Lemma insert_at_first_not_less_nondecreasing (l : list Real) (x : Real) :
  nondecreasing l ->
  nondecreasing (ParabolicCurvesND.insert_at (first_not_less l x) x l).
Proof.
  induction l as [|y l IH]; intros Hl.
  - cbn. split; [intros z []|exact I].
  - destruct Hl as [Hy Hl]. cbn [first_not_less].
    destruct (Rltb y x) eqn:E; real_props.
    + change (ParabolicCurvesND.insert_at (S (first_not_less l x)) x (y :: l))
        with (y :: ParabolicCurvesND.insert_at (first_not_less l x) x l).
      split; [|apply IH; exact Hl].
      intros z Hz. apply In_insert_at in Hz. destruct Hz as [-> | Hz].
      * apply Qclt_le_weak. exact E.
      * apply Hy. exact Hz.
    + change (ParabolicCurvesND.insert_at 0 x (y :: l)) with (x :: y :: l).
      split; [|split; assumption].
      intros z [<- | Hz]; [exact E|].
      apply Qcle_trans with y; [exact E | apply Hy; exact Hz].
Qed.

Lemma insert_at_lower_bound_nondecreasing (l : list Real) (x : Real) :
  nondecreasing l ->
  nondecreasing (ParabolicCurvesND.insert_at (ParabolicCurvesND.lower_bound l x) x l).
Proof.
  intros Hl. rewrite lower_bound_sorted by exact Hl.
  apply insert_at_first_not_less_nondecreasing. exact Hl.
Qed.

Lemma FuzzyEquals_refl (x epsilon : Real) : 0 <= epsilon -> FuzzyEquals x x epsilon = true.
Proof.
  intros H. unfold FuzzyEquals. apply Rleb_le.
  replace (x - x) with (0 : Real) by ring.
  unfold Abs. replace (Rltb 0 0) with false by reflexivity. exact H.
Qed.

(** One switch point merged into a sorted table: the table stays sorted,
    loses nothing, gains at most that point, and afterwards holds an entry
    fuzzily equal to it. *)
Lemma merge_point_Ok (epsilon : Real) (sps sps' : list Real) (x : Real) :
  0 <= epsilon ->
  ParabolicCurvesND.merge_point epsilon sps x = Ok sps' ->
  (nondecreasing sps -> nondecreasing sps') /\
  (forall y, In y sps -> In y sps') /\
  (forall y, In y sps' -> y = x \/ In y sps) /\
  (exists y, In y sps' /\ FuzzyEquals x y epsilon = true).
Proof.
  intros Heps. unfold ParabolicCurvesND.merge_point. rewrite at_index_nat.
  destruct (nth_error sps (ParabolicCurvesND.lower_bound sps x)) as [y|] eqn:Hy;
    cbn [bind]; [|discriminate].
  destruct (FuzzyEquals x y epsilon) eqn:Ef; intros H; apply Ok_inj in H; subst sps'.
  - repeat split; auto. exists y. split; [eapply nth_error_In; exact Hy | exact Ef].
  - split; [apply insert_at_lower_bound_nondecreasing|].
    split; [intros z Hz; apply In_insert_at; right; exact Hz|].
    split; [intros z Hz; apply In_insert_at in Hz; exact Hz|].
    exists x. split; [apply In_insert_at; left; reflexivity|].
    apply FuzzyEquals_refl. exact Heps.
Qed.

Lemma merge_points_Ok (epsilon : Real) (xs sps sps' : list Real) :
  0 <= epsilon ->
  ParabolicCurvesND.merge_points epsilon sps xs = Ok sps' ->
  (nondecreasing sps -> nondecreasing sps') /\
  (forall y, In y sps -> In y sps') /\
  (forall y, In y sps' -> In y xs \/ In y sps) /\
  (forall x, In x xs -> exists y, In y sps' /\ FuzzyEquals x y epsilon = true).
Proof.
  intros Heps. revert sps. induction xs as [|x xs IH]; intros sps H; simpl in H.
  - apply Ok_inj in H. subst sps'. repeat split; auto. intros x [].
  - destruct (ParabolicCurvesND.merge_point epsilon sps x) as [sps1| |] eqn:H1;
      cbn [bind] in H; try discriminate.
    apply (merge_point_Ok epsilon sps sps1 x Heps) in H1.
    destruct H1 as (A1 & A2 & A3 & (y & Hy & Hf)).
    apply IH in H. destruct H as (B1 & B2 & B3 & B4).
    repeat split.
    + auto.
    + auto.
    + intros z Hz. apply B3 in Hz. destruct Hz as [Hz | Hz].
      * left. right. exact Hz.
      * apply A3 in Hz. destruct Hz as [-> | Hz]; [left; left; reflexivity | right; exact Hz].
    + intros z [<- | Hz].
      * exists y. split; [apply B2; exact Hy | exact Hf].
      * apply B4. exact Hz.
Qed.

Lemma merge_curves_Ok (epsilon : Real) (cs : list ParabolicCurve.t) (sps sps' : list Real) :
  0 <= epsilon ->
  ParabolicCurvesND.merge_curves epsilon sps cs = Ok sps' ->
  (nondecreasing sps -> nondecreasing sps') /\
  (forall y, In y sps -> In y sps') /\
  (forall y, In y sps' ->
     In y sps \/ exists c, In c cs /\ In y (interior_switchpoints c)) /\
  (forall c x, In c cs -> In x (interior_switchpoints c) ->
     exists y, In y sps' /\ FuzzyEquals x y epsilon = true).
Proof.
  intros Heps. revert sps. induction cs as [|c cs IH]; intros sps H; simpl in H.
  - apply Ok_inj in H. subst sps'. repeat split; auto. intros c x [].
  - destruct (ParabolicCurvesND.merge_curve epsilon sps c) as [sps1| |] eqn:H1;
      cbn [bind] in H; try discriminate.
    unfold ParabolicCurvesND.merge_curve in H1.
    destruct (List.length (ParabolicCurve.switchpointsList c) <? 2)%nat; [discriminate|].
    apply (merge_points_Ok epsilon _ sps sps1 Heps) in H1.
    fold (interior_switchpoints c) in H1.
    destruct H1 as (A1 & A2 & A3 & A4).
    apply IH in H. destruct H as (B1 & B2 & B3 & B4).
    repeat split.
    + auto.
    + auto.
    + intros z Hz. apply B3 in Hz. destruct Hz as [Hz | (c' & Hc' & Hz)].
      * apply A3 in Hz. destruct Hz as [Hz | Hz]; [|left; exact Hz].
        right. exists c. split; [left; reflexivity | exact Hz].
      * right. exists c'. split; [right; exact Hc' | exact Hz].
    + intros c' x [<- | Hc'] Hx.
      * destruct (A4 x Hx) as (y & Hy & Hf). exists y. split; [apply B2; exact Hy | exact Hf].
      * apply (B4 c' x Hc' Hx).
Qed.

(** X11.  When construction succeeds and the first curve's switch-point
    table is in non-decreasing order, the merged table of the object is in
    non-decreasing order, holds every entry of the first curve's table,
    holds for every interior switch point of every curve an entry within
    [epsilon] of it, and holds nothing else than entries of the first
    table and interior switch points of the curves. *)
Theorem ParabolicCurvesND_merged_table :
  forall (epsilon : Real) (c0 : ParabolicCurve.t) (rest : list ParabolicCurve.t)
         (nd : ParabolicCurvesND.t),
    0 <= epsilon ->
    ParabolicCurvesND.ParabolicCurvesND epsilon (c0 :: rest) = Ok nd ->
    nondecreasing (ParabolicCurve.switchpointsList c0) ->
    nondecreasing (ParabolicCurvesND.switchpointsList nd) /\
    (forall y, In y (ParabolicCurve.switchpointsList c0) ->
       In y (ParabolicCurvesND.switchpointsList nd)) /\
    (forall c x, In c (c0 :: rest) -> In x (interior_switchpoints c) ->
       exists y, In y (ParabolicCurvesND.switchpointsList nd) /\
                 Abs (x - y) <= epsilon) /\
    (forall y, In y (ParabolicCurvesND.switchpointsList nd) ->
       In y (ParabolicCurve.switchpointsList c0) \/
       exists c, In c (c0 :: rest) /\ In y (interior_switchpoints c)).
Proof.
  intros epsilon c0 rest nd Heps H Hs.
  unfold ParabolicCurvesND.ParabolicCurvesND in H.
  cbn [assert negb bind at_index Z.ltb Z.compare Z.to_nat nth_error tl] in H.
  destruct (ParabolicCurvesND.check_durations epsilon rest (ParabolicCurve.duration c0));
    cbn [bind] in H; try discriminate.
  destruct (ParabolicCurvesND.merge_curves epsilon (ParabolicCurve.switchpointsList c0)
              (c0 :: rest)) as [sps| |] eqn:Hm; cbn [bind] in H; try discriminate.
  apply Ok_inj in H. subst nd. cbn [ParabolicCurvesND.switchpointsList].
  apply (merge_curves_Ok epsilon _ _ _ Heps) in Hm.
  destruct Hm as (A1 & A2 & A3 & A4).
  repeat split; auto.
  intros c x Hc Hx. destruct (A4 c x Hc Hx) as (y & Hy & Hf).
  exists y. split; [exact Hy | apply Rleb_le; exact Hf].
Qed.

Lemma ParabolicCurvesND_merged_table_witness :
  0 <= tolerance /\
  ParabolicCurvesND.ParabolicCurvesND tolerance [two_ramp_curve; rest_curve]
    = Ok (nd_of tolerance [two_ramp_curve; rest_curve]) /\
  nondecreasing (ParabolicCurve.switchpointsList two_ramp_curve) /\
  nondecreasing
    (ParabolicCurvesND.switchpointsList (nd_of tolerance [two_ramp_curve; rest_curve])).
Proof.
  assert (H0 : 0 <= tolerance) by (apply Rleb_le; reflexivity).
  assert (H1 : ParabolicCurvesND.ParabolicCurvesND tolerance [two_ramp_curve; rest_curve]
               = Ok (nd_of tolerance [two_ramp_curve; rest_curve]))
    by (vm_compute; reflexivity).
  assert (H2 : nondecreasing (ParabolicCurve.switchpointsList two_ramp_curve)).
  { repeat split; intros y Hy; simpl in Hy;
      repeat (destruct Hy as [<- | Hy]; [apply Rleb_le; reflexivity|]);
      contradiction. }
  split; [exact H0 | split; [exact H1 | split; [exact H2 |]]].
  exact (proj1 (ParabolicCurvesND_merged_table tolerance two_ramp_curve [rest_curve]
                  _ H0 H1 H2)).
Defined.

(** The merged table of that object is [0, 1, 2, 3]. *)
Lemma merged_table_example :
  ParabolicCurvesND.switchpointsList (nd_of tolerance [two_ramp_curve; rest_curve])
  = [0; 1; Q2Qc 2; Q2Qc 3].
Proof. real_compute. Qed.

(** ** ParabolicCurvesND: Initialize *)

(** X12.  [ParabolicCurvesND::Initialize] has no assertion on its
    argument: on an empty sequence it reads [curvesIn[0]] out of range.
    On a non-empty sequence it succeeds exactly when the constructor does,
    with the same [ndof], curves, duration, switch-point table and cleared
    flags, but it does not clear the five aggregate vectors: each comes
    back as the object's old vector followed by the new per-axis values.
    On a reset object the result is the constructor's. *)
Theorem ParabolicCurvesND_Initialize_keeps_old_aggregates :
  forall (epsilon : Real) (self : ParabolicCurvesND.t),
    ParabolicCurvesND.Initialize epsilon self [] = OutOfRange "curvesIn" 0 /\
    (forall (c0 : ParabolicCurve.t) (rest : list ParabolicCurve.t),
       ParabolicCurvesND.Initialize epsilon self (c0 :: rest) =
       (nd <- ParabolicCurvesND.ParabolicCurvesND epsilon (c0 :: rest) ;;
        Ok (ParabolicCurvesND.mk
              (ParabolicCurvesND.ndof nd) (ParabolicCurvesND.curves nd)
              (ParabolicCurvesND.duration nd)
              (ParabolicCurvesND.x0Vect self ++ ParabolicCurvesND.x0Vect nd)
              (ParabolicCurvesND.x1Vect self ++ ParabolicCurvesND.x1Vect nd)
              (ParabolicCurvesND.v0Vect self ++ ParabolicCurvesND.v0Vect nd)
              (ParabolicCurvesND.v1Vect self ++ ParabolicCurvesND.v1Vect nd)
              (ParabolicCurvesND.dVect self ++ ParabolicCurvesND.dVect nd)
              (ParabolicCurvesND.switchpointsList nd) 0 0)) /\
       ParabolicCurvesND.Initialize epsilon (ParabolicCurvesND.Reset self) (c0 :: rest)
       = ParabolicCurvesND.ParabolicCurvesND epsilon (c0 :: rest) /\
       forall nd' : ParabolicCurvesND.t,
         ParabolicCurvesND.Initialize epsilon self (c0 :: rest) = Ok nd' ->
         List.length (ParabolicCurvesND.x0Vect nd')
           = (List.length (ParabolicCurvesND.x0Vect self)
              + ParabolicCurvesND.ndof nd')%nat).
Proof.
  intros epsilon self. split; [reflexivity|]. intros c0 rest.
  unfold ParabolicCurvesND.Initialize, ParabolicCurvesND.ParabolicCurvesND.
  cbn [assert negb bind at_index Z.ltb Z.compare Z.to_nat nth_error tl
       ParabolicCurvesND.Reset ParabolicCurvesND.x0Vect ParabolicCurvesND.x1Vect
       ParabolicCurvesND.v0Vect ParabolicCurvesND.v1Vect ParabolicCurvesND.dVect app].
  destruct (ParabolicCurvesND.check_durations epsilon rest (ParabolicCurve.duration c0));
    cbn [bind]; try (repeat split; discriminate).
  destruct (ParabolicCurvesND.merge_curves epsilon (ParabolicCurve.switchpointsList c0)
              (c0 :: rest)); cbn [bind]; try (repeat split; discriminate).
  split; [reflexivity|]. split; [reflexivity|].
  intros nd' H. apply Ok_inj in H. subst nd'.
  cbn [ParabolicCurvesND.x0Vect ParabolicCurvesND.ndof].
  rewrite length_app, length_map. reflexivity.
Qed.

(** ** ParabolicCurvesND: Append *)

Lemma assign_nth (v : list Real) (i j : nat) (x : Real) :
  nth_error (ParabolicCurvesND.assign v i x) j =
  if (j =? i)%nat then
    match nth_error v i with Some _ => Some x | None => None end
  else nth_error v j.
Proof.
  revert i j. induction v as [|y v IH]; intros i j.
  - cbn [ParabolicCurvesND.assign]. destruct (j =? i)%nat; destruct i, j; reflexivity.
  - destruct i as [|i], j as [|j]; cbn [ParabolicCurvesND.assign nth_error Nat.eqb];
      try reflexivity.
    apply IH.
Qed.

Lemma assign_curve_nth (v : list ParabolicCurve.t) (i j : nat) (c : ParabolicCurve.t) :
  nth_error (ParabolicCurvesND.assign_curve v i c) j =
  if (j =? i)%nat then
    match nth_error v i with Some _ => Some c | None => None end
  else nth_error v j.
Proof.
  revert i j. induction v as [|y v IH]; intros i j.
  - cbn [ParabolicCurvesND.assign_curve]. destruct (j =? i)%nat; destruct i, j; reflexivity.
  - destruct i as [|i], j as [|j];
      cbn [ParabolicCurvesND.assign_curve nth_error Nat.eqb]; try reflexivity.
    apply IH.
Qed.

(** What a completed per-axis loop has done: on the axes it visited, the
    curve is the appended one and the three vectors hold its [x1], the
    argument's [v1] and the old [d] plus the argument's [d]; the other
    axes are untouched. *)
Lemma Append_loop_Ok (n i : nat) (others cs cs' : list ParabolicCurve.t)
    (v1s x1s ds v1s' x1s' ds' : list Real) :
  ParabolicCurvesND.Append_loop n i others cs v1s x1s ds = Ok (cs', v1s', x1s', ds') ->
  (forall j, (i <= j < i + n)%nat ->
     exists c o c' dold,
       nth_error cs j = Some c /\ nth_error others j = Some o /\
       ParabolicCurve.Append c o = Ok c' /\
       nth_error ds j = Some dold /\
       nth_error cs' j = Some c' /\
       nth_error v1s' j = Some (ParabolicCurve.v1 o) /\
       nth_error x1s' j = Some (ParabolicCurve.x1 c') /\
       nth_error ds' j = Some (dold + ParabolicCurve.d o)) /\
  (forall j, ~ (i <= j < i + n)%nat ->
     nth_error cs' j = nth_error cs j /\ nth_error v1s' j = nth_error v1s j /\
     nth_error x1s' j = nth_error x1s j /\ nth_error ds' j = nth_error ds j).
Proof.
  revert i cs v1s x1s ds. induction n as [|n IH]; intros i cs v1s x1s ds H.
  - cbn in H. apply Ok_inj in H. injection H as <- <- <- <-.
    split; [intros j Hj; lia | intros j _; auto].
  - cbn [ParabolicCurvesND.Append_loop] in H. rewrite !at_index_nat in H.
    destruct (nth_error cs i) as [c|] eqn:Hc; cbn [bind] in H; [|discriminate].
    destruct (nth_error others i) as [o|] eqn:Ho; cbn [bind] in H; [|discriminate].
    destruct (ParabolicCurve.Append c o) as [c'| |] eqn:Ha; cbn [bind] in H;
      try discriminate.
    destruct (nth_error v1s i) as [v1old|] eqn:Hv; cbn [bind] in H; [|discriminate].
    destruct (nth_error x1s i) as [x1old|] eqn:Hx; cbn [bind] in H; [|discriminate].
    destruct (nth_error ds i) as [dold|] eqn:Hd; cbn [bind] in H; [|discriminate].
    apply IH in H. destruct H as [Hin Hout]. split.
    + intros j Hj. destruct (Nat.eq_dec j i) as [-> | Hne].
      * destruct (Hout i) as (E1 & E2 & E3 & E4); [lia|].
        rewrite assign_curve_nth in E1. rewrite !assign_nth in E2, E3, E4.
        rewrite Nat.eqb_refl, ?Hc, ?Hv, ?Hx, ?Hd in *.
        exists c, o, c', dold. repeat split; assumption.
      * destruct (Hin j) as (c1 & o1 & c1' & d1 & F1 & F2 & F3 & F4 & F5); [lia|].
        rewrite assign_curve_nth in F1. rewrite assign_nth in F4.
        replace (j =? i)%nat with false in * by (symmetry; apply Nat.eqb_neq; exact Hne).
        exists c1, o1, c1', d1. repeat split; try assumption; apply F5.
    + intros j Hj. destruct (Hout j) as (E1 & E2 & E3 & E4); [lia|].
      rewrite assign_curve_nth in E1. rewrite !assign_nth in E2, E3, E4.
      replace (j =? i)%nat with false in * by (symmetry; apply Nat.eqb_neq; lia).
      auto.
Qed.

(** X13.  [ParabolicCurvesND::Append] fails its assertion when the
    argument holds no curve, and when both objects hold curves but their
    [ndof] differ.  Onto an object without curves it copies the
    argument's curves, duration, aggregate vectors and table and leaves
    the two flags as they were.  When it succeeds on an object with
    curves, the duration is the sum of the two, the table is the old one
    followed by the argument's entries each shifted by the old duration
    (concatenated, not merged), [ndof], [x0Vect], [v0Vect] and the flags
    are unchanged, and on every axis the curve is the per-axis [Append]
    of the two curves, [x1Vect] holds its [x1], [v1Vect] the argument
    curve's [v1] and [dVect] the old entry plus the argument curve's
    [d]. *)
Theorem ParabolicCurvesND_Append_per_axis :
  forall self other : ParabolicCurvesND.t,
    (ParabolicCurvesND.curves other = [] ->
     ParabolicCurvesND.Append self other = AssertFail) /\
    (ParabolicCurvesND.curves other <> [] ->
     ParabolicCurvesND.curves self = [] ->
     ParabolicCurvesND.Append self other =
     Ok (ParabolicCurvesND.mk
           (List.length (ParabolicCurvesND.curves other))
           (ParabolicCurvesND.curves other) (ParabolicCurvesND.duration other)
           (ParabolicCurvesND.x0Vect other) (ParabolicCurvesND.x1Vect other)
           (ParabolicCurvesND.v0Vect other) (ParabolicCurvesND.v1Vect other)
           (ParabolicCurvesND.dVect other) (ParabolicCurvesND.switchpointsList other)
           (ParabolicCurvesND.constraintchecked self)
           (ParabolicCurvesND.modified self))) /\
    (ParabolicCurvesND.curves other <> [] ->
     ParabolicCurvesND.curves self <> [] ->
     ParabolicCurvesND.ndof other <> ParabolicCurvesND.ndof self ->
     ParabolicCurvesND.Append self other = AssertFail) /\
    (ParabolicCurvesND.curves self <> [] ->
     forall nd' : ParabolicCurvesND.t,
       ParabolicCurvesND.Append self other = Ok nd' ->
       ParabolicCurvesND.duration nd'
         = ParabolicCurvesND.duration self + ParabolicCurvesND.duration other /\
       ParabolicCurvesND.switchpointsList nd'
         = ParabolicCurvesND.switchpointsList self
             ++ map (fun s => s + ParabolicCurvesND.duration self)
                    (ParabolicCurvesND.switchpointsList other) /\
       ParabolicCurvesND.ndof nd' = ParabolicCurvesND.ndof self /\
       ParabolicCurvesND.x0Vect nd' = ParabolicCurvesND.x0Vect self /\
       ParabolicCurvesND.v0Vect nd' = ParabolicCurvesND.v0Vect self /\
       ParabolicCurvesND.constraintchecked nd' = ParabolicCurvesND.constraintchecked self /\
       ParabolicCurvesND.modified nd' = ParabolicCurvesND.modified self /\
       forall j, (j < ParabolicCurvesND.ndof self)%nat ->
         exists c o c' dold,
           nth_error (ParabolicCurvesND.curves self) j = Some c /\
           nth_error (ParabolicCurvesND.curves other) j = Some o /\
           ParabolicCurve.Append c o = Ok c' /\
           nth_error (ParabolicCurvesND.dVect self) j = Some dold /\
           nth_error (ParabolicCurvesND.curves nd') j = Some c' /\
           nth_error (ParabolicCurvesND.v1Vect nd') j = Some (ParabolicCurve.v1 o) /\
           nth_error (ParabolicCurvesND.x1Vect nd') j = Some (ParabolicCurve.x1 c') /\
           nth_error (ParabolicCurvesND.dVect nd') j
             = Some (dold + ParabolicCurve.d o)).
Proof.
  intros self other. unfold ParabolicCurvesND.Append, ParabolicCurvesND.IsEmpty.
  split; [|split; [|split]].
  - intros ->. reflexivity.
  - intros Ho ->. destruct (ParabolicCurvesND.curves other); [contradiction|]. reflexivity.
  - intros Ho Hs Hn.
    destruct (ParabolicCurvesND.curves other); [contradiction|].
    destruct (ParabolicCurvesND.curves self); [contradiction|].
    cbn [assert negb bind].
    replace (ParabolicCurvesND.ndof other =? ParabolicCurvesND.ndof self)%nat
      with false by (symmetry; apply Nat.eqb_neq; exact Hn).
    reflexivity.
  - intros Hs nd' H.
    destruct (ParabolicCurvesND.curves other) as [|o0 orest] eqn:Eo;
      cbn [assert negb bind] in H; [discriminate|].
    destruct (ParabolicCurvesND.curves self) as [|s0 srest] eqn:Es; [contradiction|].
    destruct (ParabolicCurvesND.ndof other =? ParabolicCurvesND.ndof self)%nat;
      cbn [assert bind] in H; [|discriminate].
    destruct (ParabolicCurvesND.Append_loop (ParabolicCurvesND.ndof self) 0
                (o0 :: orest) (s0 :: srest) (ParabolicCurvesND.v1Vect self)
                (ParabolicCurvesND.x1Vect self) (ParabolicCurvesND.dVect self))
      as [[[[cs v1s] x1s] ds]| |] eqn:Hl; cbn [bind] in H; try discriminate.
    apply Ok_inj in H. subst nd'.
    cbn [ParabolicCurvesND.duration ParabolicCurvesND.switchpointsList
         ParabolicCurvesND.ndof ParabolicCurvesND.x0Vect ParabolicCurvesND.v0Vect
         ParabolicCurvesND.constraintchecked ParabolicCurvesND.modified
         ParabolicCurvesND.curves ParabolicCurvesND.v1Vect ParabolicCurvesND.x1Vect
         ParabolicCurvesND.dVect].
    repeat (split; [reflexivity|]).
    intros j Hj. apply Append_loop_Ok in Hl. destruct Hl as [Hin _].
    apply Hin. lia.
Qed.

(** ** ParabolicCurvesND: evaluation *)

Lemma ParabolicCurvesND_Ok_shape (epsilon : Real)
    (c0 : ParabolicCurve.t) (rest : list ParabolicCurve.t) (nd : ParabolicCurvesND.t) :
  ParabolicCurvesND.ParabolicCurvesND epsilon (c0 :: rest) = Ok nd ->
  exists sps,
    nd = ParabolicCurvesND.mk (List.length (c0 :: rest)) (c0 :: rest)
           (min_duration c0 rest)
           (map ParabolicCurve.x0 (c0 :: rest)) (map ParabolicCurve.x1 (c0 :: rest))
           (map ParabolicCurve.v0 (c0 :: rest)) (map ParabolicCurve.v1 (c0 :: rest))
           (map ParabolicCurve.d (c0 :: rest)) sps 0 0.
Proof.
  unfold ParabolicCurvesND.ParabolicCurvesND.
  cbn [assert negb bind at_index Z.ltb Z.compare Z.to_nat nth_error tl].
  destruct (ParabolicCurvesND.check_durations epsilon rest (ParabolicCurve.duration c0))
    as [m| |] eqn:Hc; cbn [bind]; try discriminate.
  apply check_durations_Ok in Hc. subst m.
  destruct (ParabolicCurvesND.merge_curves epsilon (ParabolicCurve.switchpointsList c0)
              (c0 :: rest)) as [sps| |]; cbn [bind]; try discriminate.
  intros E. apply Ok_inj in E. subst nd. exists sps. reflexivity.
Qed.

Lemma eval_loop_Ok (eval : ParabolicCurve.t -> result Real) (n i : nat)
    (cs : list ParabolicCurve.t) (out : list Real) :
  (forall j c, (i <= j < i + n)%nat -> nth_error cs j = Some c ->
     exists x, eval c = Ok x) ->
  (i + n <= List.length cs)%nat -> (i + n <= List.length out)%nat ->
  exists out',
    ParabolicCurvesND.eval_loop eval n i cs out = Ok out' /\
    List.length out' = List.length out /\
    (forall j c, (i <= j < i + n)%nat -> nth_error cs j = Some c ->
       exists x, eval c = Ok x /\ nth_error out' j = Some x) /\
    (forall j, ~ (i <= j < i + n)%nat -> nth_error out' j = nth_error out j).
Proof.
  revert i out. induction n as [|n IH]; intros i out Hev Hcs Hout.
  - exists out. cbn. repeat split; auto. intros j c Hj. lia.
  - cbn [ParabolicCurvesND.eval_loop]. rewrite !at_index_nat.
    destruct (nth_error out i) as [o|] eqn:Ho; [|apply nth_error_None in Ho; lia].
    destruct (nth_error cs i) as [c|] eqn:Hc; [|apply nth_error_None in Hc; lia].
    cbn [bind]. destruct (Hev i c) as [x Hx]; [lia | exact Hc |]. rewrite Hx. cbn [bind].
    destruct (IH (S i) (ParabolicCurvesND.assign out i x)) as (out' & H1 & H2 & H3 & H4).
    + intros j c' Hj Hc'. apply (Hev j c'); [lia | exact Hc'].
    + lia.
    + rewrite assign_length. lia.
    + exists out'. rewrite assign_length in H2. repeat split; try assumption.
      * intros j c' Hj Hc'. destruct (Nat.eq_dec j i) as [-> | Hne].
        -- rewrite Hc in Hc'. injection Hc' as <-. exists x. split; [exact Hx|].
           rewrite H4 by lia. rewrite assign_nth, Nat.eqb_refl, Ho. reflexivity.
        -- apply H3; [lia | exact Hc'].
      * intros j Hj. rewrite H4 by lia. rewrite assign_nth.
        replace (j =? i)%nat with false by (symmetry; apply Nat.eqb_neq; lia).
        reflexivity.
Qed.

(** The loop over the axes when an axis may fail its assertion: the loop
    reads no vector outside its bounds, and a completed loop has written
    each axis's value and kept the length of the output vector. *)
Lemma eval_loop_cases (eval : ParabolicCurve.t -> result Real) (n i : nat)
    (cs : list ParabolicCurve.t) (out : list Real) :
  (forall j c vec k, (i <= j < i + n)%nat -> nth_error cs j = Some c ->
     eval c <> OutOfRange vec k) ->
  (i + n <= List.length cs)%nat -> (i + n <= List.length out)%nat ->
  (forall vec k, ParabolicCurvesND.eval_loop eval n i cs out <> OutOfRange vec k) /\
  (forall out',
     ParabolicCurvesND.eval_loop eval n i cs out = Ok out' ->
     List.length out' = List.length out /\
     (forall j c, (i <= j < i + n)%nat -> nth_error cs j = Some c ->
        exists x, eval c = Ok x /\ nth_error out' j = Some x)).
Proof.
  revert i out. induction n as [|n IH]; intros i out Hev Hcs Hout.
  - cbn. split; [discriminate|].
    intros out' E. apply Ok_inj in E. subst out'. split; [reflexivity|].
    intros j c Hj. lia.
  - cbn [ParabolicCurvesND.eval_loop]. rewrite !at_index_nat.
    destruct (nth_error out i) as [o|] eqn:Ho; [|apply nth_error_None in Ho; lia].
    destruct (nth_error cs i) as [c|] eqn:Hc; [|apply nth_error_None in Hc; lia].
    cbn [bind].
    pose proof (fun vec k => Hev i c vec k ltac:(lia) Hc) as Hi.
    destruct (eval c) as [x| |vec0 k0] eqn:Hx; cbn [bind].
    + destruct (IH (S i) (ParabolicCurvesND.assign out i x)) as (H1 & H2).
      * intros j c' vec k Hj Hc'. apply (Hev j c'); [lia | exact Hc'].
      * lia.
      * rewrite assign_length. lia.
      * split; [exact H1|].
        intros out' E. destruct (H2 out' E) as (L & V).
        rewrite assign_length in L. split; [exact L|].
        intros j c' Hj Hc'. destruct (Nat.eq_dec j i) as [-> | Hne].
        -- rewrite Hc in Hc'. injection Hc' as <-.
           exists x. split; [exact Hx|].
           destruct (eval_loop_Ok eval n (S i) cs (ParabolicCurvesND.assign out i x))
             as (out2 & E2 & _ & _ & K); [| lia | rewrite assign_length; lia |].
           { intros j c' Hj' Hc'. destruct (V j c' Hj' Hc') as [y [Hy _]].
             exists y. exact Hy. }
           rewrite E in E2. apply Ok_inj in E2. subst out2.
           rewrite K by lia. rewrite assign_nth, Nat.eqb_refl, Ho. reflexivity.
        -- apply V; [lia | exact Hc'].
    + split; discriminate.
    + exfalso. apply (Hi vec0 k0). reflexivity.
Qed.

(** X14.  On an object of non-negative duration constructed from
    non-empty curves that the curve operations produce, and for a time in
    [[-epsilon, duration + epsilon]]: [EvalAcc] returns one entry per
    axis, the acceleration of that axis's curve at the time moved into
    [[0, duration]]; [EvalPos] and [EvalVel] return the vectors [x0Vect]
    and [v0Vect] for [t <= 0], [x1Vect] for [t > duration] and [v1Vect]
    for [t >= duration]; whenever they return, they return one entry per
    axis, whatever the output vector held before, and strictly inside
    the duration this entry is that axis's curve evaluated at [t]; and
    they read no vector outside its bounds. *)
Theorem ParabolicCurvesND_evaluation_in_range :
  forall (epsilon : Real) (c0 : ParabolicCurve.t) (rest : list ParabolicCurve.t)
         (nd : ParabolicCurvesND.t) (t : Real) (out : list Real),
    0 < epsilon ->
    ParabolicCurvesND.ParabolicCurvesND epsilon (c0 :: rest) = Ok nd ->
    (forall c, In c (c0 :: rest) -> built c /\ ParabolicCurve.ramps c <> []) ->
    0 <= ParabolicCurvesND.duration nd ->
    - epsilon <= t -> t <= ParabolicCurvesND.duration nd + epsilon ->
    (exists accs,
       ParabolicCurvesND.EvalAcc epsilon nd t out = Ok accs /\
       List.length accs = ParabolicCurvesND.ndof nd /\
       forall j c, nth_error (c0 :: rest) j = Some c ->
         exists acc,
           ParabolicCurve.EvalAcc epsilon c
             (if Rltb t 0 then 0
              else if Rltb (ParabolicCurvesND.duration nd) t
                   then ParabolicCurvesND.duration nd else t) = Ok acc /\
           nth_error accs j = Some acc) /\
    (t <= 0 ->
       ParabolicCurvesND.EvalPos epsilon nd t out = Ok (ParabolicCurvesND.x0Vect nd) /\
       ParabolicCurvesND.EvalVel epsilon nd t out = Ok (ParabolicCurvesND.v0Vect nd)) /\
    (0 < t -> ParabolicCurvesND.duration nd < t ->
       ParabolicCurvesND.EvalPos epsilon nd t out = Ok (ParabolicCurvesND.x1Vect nd)) /\
    (0 < t -> ParabolicCurvesND.duration nd <= t ->
       ParabolicCurvesND.EvalVel epsilon nd t out = Ok (ParabolicCurvesND.v1Vect nd)) /\
    (forall xs, ParabolicCurvesND.EvalPos epsilon nd t out = Ok xs ->
       List.length xs = ParabolicCurvesND.ndof nd /\
       (0 < t -> t <= ParabolicCurvesND.duration nd ->
        forall j c, nth_error (c0 :: rest) j = Some c ->
          exists p, ParabolicCurve.EvalPos epsilon c t = Ok p /\
                    nth_error xs j = Some p)) /\
    (forall vs, ParabolicCurvesND.EvalVel epsilon nd t out = Ok vs ->
       List.length vs = ParabolicCurvesND.ndof nd /\
       (0 < t -> t < ParabolicCurvesND.duration nd ->
        forall j c, nth_error (c0 :: rest) j = Some c ->
          exists v, ParabolicCurve.EvalVel epsilon c t = Ok v /\
                    nth_error vs j = Some v)) /\
    (forall (vec : string) (k : Z),
       ParabolicCurvesND.EvalPos epsilon nd t out <> OutOfRange vec k /\
       ParabolicCurvesND.EvalVel epsilon nd t out <> OutOfRange vec k).
Proof.
  intros epsilon c0 rest nd t out Heps Hnd Hcs HD Hlo Hhi.
  destruct (ParabolicCurvesND_Ok_shape epsilon c0 rest nd Hnd) as [sps ->].
  cbn [ParabolicCurvesND.duration ParabolicCurvesND.ndof ParabolicCurvesND.x0Vect
       ParabolicCurvesND.x1Vect ParabolicCurvesND.v0Vect ParabolicCurvesND.v1Vect] in *.
  pose proof (proj1 (min_duration_least c0 rest)) as Hmin.
  set (D := min_duration c0 rest) in *.
  assert (Hcurve : forall t', - epsilon <= t' -> t' <= D + epsilon ->
            forall j c, nth_error (c0 :: rest) j = Some c ->
              (exists a, ParabolicCurve.EvalAcc epsilon c t' = Ok a) /\
              (forall vec k,
                 ParabolicCurve.EvalPos epsilon c t' <> OutOfRange vec k /\
                 ParabolicCurve.EvalVel epsilon c t' <> OutOfRange vec k)).
  { intros t' Hlo' Hhi' j c Hc. apply nth_error_In in Hc.
    destruct (Hcs c Hc) as (Hb & Hne).
    specialize (Hmin c Hc).
    apply ParabolicCurve_evaluators_in_range; try assumption. real_lra. }
  unfold ParabolicCurvesND.EvalPos, ParabolicCurvesND.EvalVel, ParabolicCurvesND.EvalAcc.
  cbn [ParabolicCurvesND.duration ParabolicCurvesND.ndof ParabolicCurvesND.curves
       ParabolicCurvesND.x0Vect ParabolicCurvesND.x1Vect ParabolicCurvesND.v0Vect
       ParabolicCurvesND.v1Vect].
  replace (Rleb (- epsilon) t) with true by (symmetry; apply Rleb_le; exact Hlo).
  replace (Rleb t (D + epsilon)) with true by (symmetry; apply Rleb_le; exact Hhi).
  cbn [assert bind].
  assert (Hidx : forall j c, nth_error (c0 :: rest) j = Some c ->
                   (0 <= j < 0 + List.length (c0 :: rest))%nat).
  { intros j c Hc.
    assert (j < List.length (c0 :: rest))%nat by (apply nth_error_Some; congruence).
    lia. }
  destruct (eval_loop_cases (fun c => ParabolicCurve.EvalPos epsilon c t)
              (List.length (c0 :: rest)) 0 (c0 :: rest)
              (ParabolicCurvesND.resize out (List.length (c0 :: rest))))
    as (Pin & Pok);
    [ intros j c vec k _ Hc; apply (Hcurve t Hlo Hhi j c Hc)
    | lia | rewrite resize_length; lia | ].
  destruct (eval_loop_cases (fun c => ParabolicCurve.EvalVel epsilon c t)
              (List.length (c0 :: rest)) 0 (c0 :: rest)
              (ParabolicCurvesND.resize out (List.length (c0 :: rest))))
    as (Vin & Vok);
    [ intros j c vec k _ Hc; apply (Hcurve t Hlo Hhi j c Hc)
    | lia | rewrite resize_length; lia | ].
  split; [|split; [|split; [|split; [|split; [|split]]]]].
  - set (t' := if Rltb t 0 then 0 else if Rltb D t then D else t).
    assert (Ht' : - epsilon <= t' /\ t' <= D + epsilon).
    { subst t'. destruct (Rltb t 0) eqn:E0; [|destruct (Rltb D t) eqn:E1];
        real_props; split; real_lra. }
    destruct Ht' as [Ht1 Ht2].
    destruct (eval_loop_Ok (fun c => ParabolicCurve.EvalAcc epsilon c t')
                (List.length (c0 :: rest)) 0 (c0 :: rest)
                (ParabolicCurvesND.resize out (List.length (c0 :: rest))))
      as (xs & H1 & H2 & H3 & _).
    + intros j c _ Hc. apply (Hcurve t' Ht1 Ht2 j c Hc).
    + lia.
    + rewrite resize_length. lia.
    + exists xs. rewrite resize_length in H2. split; [exact H1|]. split; [exact H2|].
      intros j c Hc. apply H3; [apply (Hidx j c Hc) | exact Hc].
  - intros Ht.
    replace (Rleb t 0) with true by (symmetry; apply Rleb_le; exact Ht).
    split; reflexivity.
  - intros Ht0 Ht.
    replace (Rleb t 0) with false by (symmetry; apply Rleb_gt; exact Ht0).
    replace (Rltb D t) with true by (symmetry; apply Rltb_lt; exact Ht).
    reflexivity.
  - intros Ht0 Ht.
    replace (Rleb t 0) with false by (symmetry; apply Rleb_gt; exact Ht0).
    replace (Rleb D t) with true by (symmetry; apply Rleb_le; exact Ht).
    reflexivity.
  - intros xs. destruct (Rleb t 0) eqn:E0; real_props.
    { intros E. apply Ok_inj in E. subst xs. split; [apply length_map|].
      intros Ht. exfalso. real_lra. }
    destruct (Rltb D t) eqn:E1; real_props.
    { intros E. apply Ok_inj in E. subst xs. split; [apply length_map|].
      intros _ Ht. exfalso. real_lra. }
    intros E. destruct (Pok xs E) as (L & V). rewrite resize_length in L.
    split; [exact L|].
    intros _ _ j c Hc. apply V; [apply (Hidx j c Hc) | exact Hc].
  - intros vs. destruct (Rleb t 0) eqn:E0; real_props.
    { intros E. apply Ok_inj in E. subst vs. split; [apply length_map|].
      intros Ht. exfalso. real_lra. }
    destruct (Rleb D t) eqn:E1; real_props.
    { intros E. apply Ok_inj in E. subst vs. split; [apply length_map|].
      intros _ Ht. exfalso. real_lra. }
    intros E. destruct (Vok vs E) as (L & V). rewrite resize_length in L.
    split; [exact L|].
    intros _ _ j c Hc. apply V; [apply (Hidx j c Hc) | exact Hc].
  - intros vec k. split.
    + destruct (Rleb t 0); [discriminate|].
      destruct (Rltb D t); [discriminate|]. apply Pin.
    + destruct (Rleb t 0); [discriminate|].
      destruct (Rleb D t); [discriminate|]. apply Vin.
Qed.

Lemma ParabolicCurvesND_evaluation_in_range_witness :
  0 < tolerance /\
  ParabolicCurvesND.ParabolicCurvesND tolerance [two_ramp_curve; rest_curve]
    = Ok (nd_of tolerance [two_ramp_curve; rest_curve]) /\
  (forall c, In c [two_ramp_curve; rest_curve] ->
     built c /\ ParabolicCurve.ramps c <> []) /\
  0 <= ParabolicCurvesND.duration (nd_of tolerance [two_ramp_curve; rest_curve]) /\
  - tolerance <= Q2Qc (3 # 2) /\
  Q2Qc (3 # 2)
    <= ParabolicCurvesND.duration (nd_of tolerance [two_ramp_curve; rest_curve])
       + tolerance /\
  exists accs,
    ParabolicCurvesND.EvalAcc tolerance (nd_of tolerance [two_ramp_curve; rest_curve])
      (Q2Qc (3 # 2)) [] = Ok accs /\
    List.length accs
      = ParabolicCurvesND.ndof (nd_of tolerance [two_ramp_curve; rest_curve]).
Proof.
  assert (H0 : 0 < tolerance) by (apply Rltb_lt; reflexivity).
  assert (H1 : ParabolicCurvesND.ParabolicCurvesND tolerance [two_ramp_curve; rest_curve]
               = Ok (nd_of tolerance [two_ramp_curve; rest_curve]))
    by (vm_compute; reflexivity).
  assert (H2 : forall c, In c [two_ramp_curve; rest_curve] ->
     built c /\ ParabolicCurve.ramps c <> []).
  { intros c [<- | [<- | []]].
    - split; [exact (built_ParabolicCurve _ _ two_ramp_curve_constructed)|].
      discriminate.
    - split; [|discriminate].
      apply (built_ParabolicCurve [Ramp.fill 0 0 (Q2Qc 2) 0; Ramp.fill 0 0 1 0]).
      vm_compute. reflexivity. }
  assert (H3 : 0 <= ParabolicCurvesND.duration (nd_of tolerance [two_ramp_curve; rest_curve]))
    by (apply Rleb_le; reflexivity).
  assert (H4 : - tolerance <= Q2Qc (3 # 2)) by (apply Rleb_le; reflexivity).
  assert (H5 : Q2Qc (3 # 2)
    <= ParabolicCurvesND.duration (nd_of tolerance [two_ramp_curve; rest_curve])
       + tolerance) by (apply Rleb_le; reflexivity).
  repeat (split; [assumption|]).
  destruct (ParabolicCurvesND_evaluation_in_range tolerance two_ramp_curve
              [rest_curve] _ (Q2Qc (3 # 2)) [] H0 H1 H2 H3 H4 H5)
    as ((accs & Ha & Hl & _) & _).
  exists accs. split; assumption.
Defined.

(** ** Empty curves *)

(** X15.  On a reset curve, with [epsilon >= 0] and for every time in
    [[-epsilon, epsilon]], [EvalPos] and [EvalVel] return [0], while
    [EvalAcc] reads [ramps] out of range and [GetPeaks] fails its
    assertion; a time outside that range fails the assertion of each
    evaluator. *)
Theorem Reset_curve_evaluation :
  forall (epsilon inf : Real) (self : ParabolicCurve.t) (t : Real),
    0 <= epsilon ->
    ParabolicCurve.GetPeaks epsilon inf (ParabolicCurve.Reset self) = AssertFail /\
    (- epsilon <= t -> t <= epsilon ->
     ParabolicCurve.EvalPos epsilon (ParabolicCurve.Reset self) t = Ok 0 /\
     ParabolicCurve.EvalVel epsilon (ParabolicCurve.Reset self) t = Ok 0 /\
     exists i, ParabolicCurve.EvalAcc epsilon (ParabolicCurve.Reset self) t
               = OutOfRange "ramps" i) /\
    (t < - epsilon \/ epsilon < t ->
     ParabolicCurve.EvalPos epsilon (ParabolicCurve.Reset self) t = AssertFail /\
     ParabolicCurve.EvalVel epsilon (ParabolicCurve.Reset self) t = AssertFail /\
     ParabolicCurve.EvalAcc epsilon (ParabolicCurve.Reset self) t = AssertFail).
Proof.
  intros epsilon inf self t Heps.
  unfold ParabolicCurve.GetPeaks, ParabolicCurve.EvalPos, ParabolicCurve.EvalVel,
    ParabolicCurve.EvalAcc, ParabolicCurve.Reset.
  cbn [ParabolicCurve.ramps ParabolicCurve.duration ParabolicCurve.x0 ParabolicCurve.x1
       ParabolicCurve.v0 ParabolicCurve.v1 ParabolicCurve.peaks_loop bind].
  split; [|split].
  - replace (Rltb inf inf) with false by (symmetry; apply Rltb_ge; apply Qcle_refl).
    reflexivity.
  - intros Hlo Hhi.
    replace (Rleb (- epsilon) t) with true by (symmetry; apply Rleb_le; exact Hlo).
    replace (Rleb t (0 + epsilon)) with true by (symmetry; apply Rleb_le; real_lra).
    cbn [assert bind].
    destruct (Rleb t 0) eqn:E0; real_props.
    + repeat split. eexists. reflexivity.
    + replace (Rleb 0 t) with true by (symmetry; apply Rleb_le; real_lra).
      repeat split. eexists. reflexivity.
  - intros [Hlo | Hhi].
    + replace (Rleb (- epsilon) t) with false by (symmetry; apply Rleb_gt; exact Hlo).
      repeat split.
    + replace (Rleb t (0 + epsilon)) with false by (symmetry; apply Rleb_gt; real_lra).
      destruct (Rleb (- epsilon) t); repeat split.
Qed.

Lemma Reset_curve_evaluation_witness :
  0 <= tolerance /\
  ParabolicCurve.GetPeaks tolerance huge (ParabolicCurve.Reset two_ramp_curve)
    = AssertFail.
Proof.
  assert (H0 : 0 <= tolerance) by (apply Rleb_le; reflexivity).
  split; [exact H0|].
  exact (proj1 (Reset_curve_evaluation tolerance huge two_ramp_curve 0 H0)).
Defined.

(** ** ParabolicCurvesND: GetPeaks with pre-sized vectors *)

Lemma GetPeaks_loop_completes (epsilon inf : Real) (n i : nat)
    (cs : list ParabolicCurve.t) (bminVect bmaxVect : list Real) :
  (forall j c, (i <= j < i + n)%nat -> nth_error cs j = Some c ->
     exists b, ParabolicCurve.GetPeaks epsilon inf c = Ok b) ->
  (i + n <= List.length cs)%nat ->
  (i + n <= List.length bminVect)%nat ->
  (i + n <= List.length bmaxVect)%nat ->
  exists bmin' bmax',
    ParabolicCurvesND.GetPeaks_loop epsilon inf n i cs bminVect bmaxVect
      = Ok (bmin', bmax') /\
    (forall j c, (i <= j < i + n)%nat -> nth_error cs j = Some c ->
       exists lo hi, ParabolicCurve.GetPeaks epsilon inf c = Ok (lo, hi) /\
                     nth_error bmin' j = Some lo /\ nth_error bmax' j = Some hi) /\
    (forall j, ~ (i <= j < i + n)%nat ->
       nth_error bmin' j = nth_error bminVect j /\
       nth_error bmax' j = nth_error bmaxVect j).
Proof.
  revert i bminVect bmaxVect. induction n as [|n IH];
    intros i bminVect bmaxVect Hev Hcs Hmin Hmax.
  - exists bminVect, bmaxVect. cbn. repeat split; auto. intros j c Hj. lia.
  - cbn [ParabolicCurvesND.GetPeaks_loop]. rewrite !at_index_nat.
    destruct (nth_error cs i) as [c|] eqn:Hc; [|apply nth_error_None in Hc; lia].
    destruct (nth_error bminVect i) as [x|] eqn:Hx; [|apply nth_error_None in Hx; lia].
    destruct (nth_error bmaxVect i) as [y|] eqn:Hy; [|apply nth_error_None in Hy; lia].
    cbn [bind]. destruct (Hev i c) as [[lo hi] Hg]; [lia | exact Hc |].
    rewrite Hg. cbn [bind].
    destruct (IH (S i) (ParabolicCurvesND.assign bminVect i lo)
                 (ParabolicCurvesND.assign bmaxVect i hi))
      as (bmin' & bmax' & H1 & H2 & H3).
    + intros j c' Hj Hc'. apply (Hev j c'); [lia | exact Hc'].
    + lia.
    + rewrite assign_length. lia.
    + rewrite assign_length. lia.
    + exists bmin', bmax'. split; [exact H1|]. split.
      * intros j c' Hj Hc'. destruct (Nat.eq_dec j i) as [-> | Hne].
        -- rewrite Hc in Hc'. injection Hc' as <-. exists lo, hi.
           split; [exact Hg|]. destruct (H3 i) as [E1 E2]; [lia|].
           rewrite E1, E2, !assign_nth, Nat.eqb_refl, Hx, Hy. split; reflexivity.
        -- apply H2; [lia | exact Hc'].
      * intros j Hj. destruct (H3 j) as [E1 E2]; [lia|].
        rewrite E1, E2, !assign_nth.
        replace (j =? i)%nat with false by (symmetry; apply Nat.eqb_neq; lia).
        split; reflexivity.
Qed.

(** X16.  When [ndof] is the number of curves, [bmaxVect] has at least
    [ndof] entries and [GetPeaks] of every curve succeeds, [GetPeaks] of
    the object completes: on every axis the two vectors hold the bounds
    of that axis's curve, [bminVect] has exactly [ndof] entries, and the
    entries of [bmaxVect] beyond [ndof] are left as they were. *)
Theorem ParabolicCurvesND_GetPeaks_presized :
  forall (epsilon inf : Real) (nd : ParabolicCurvesND.t)
         (bminVect bmaxVect : list Real),
    ParabolicCurvesND.ndof nd = List.length (ParabolicCurvesND.curves nd) ->
    (ParabolicCurvesND.ndof nd <= List.length bmaxVect)%nat ->
    (forall c, In c (ParabolicCurvesND.curves nd) ->
       exists b, ParabolicCurve.GetPeaks epsilon inf c = Ok b) ->
    exists bmin' bmax',
      ParabolicCurvesND.GetPeaks epsilon inf nd bminVect bmaxVect = Ok (bmin', bmax') /\
      List.length bmin' = ParabolicCurvesND.ndof nd /\
      List.length bmax' = List.length bmaxVect /\
      (forall j c, nth_error (ParabolicCurvesND.curves nd) j = Some c ->
         exists lo hi, ParabolicCurve.GetPeaks epsilon inf c = Ok (lo, hi) /\
                       nth_error bmin' j = Some lo /\ nth_error bmax' j = Some hi) /\
      (forall j, (ParabolicCurvesND.ndof nd <= j)%nat ->
         nth_error bmax' j = nth_error bmaxVect j).
Proof.
  intros epsilon inf nd bminVect bmaxVect Hn Hmax Hcs.
  unfold ParabolicCurvesND.GetPeaks.
  destruct (GetPeaks_loop_completes epsilon inf (ParabolicCurvesND.ndof nd) 0
              (ParabolicCurvesND.curves nd)
              (ParabolicCurvesND.resize
                 (ParabolicCurvesND.resize bminVect (ParabolicCurvesND.ndof nd))
                 (ParabolicCurvesND.ndof nd))
              bmaxVect) as (bmin' & bmax' & H1 & H2 & H3).
  - intros j c _ Hc. apply Hcs. eapply nth_error_In. exact Hc.
  - lia.
  - rewrite resize_length. lia.
  - lia.
  - exists bmin', bmax'. split; [exact H1|].
    pose proof (GetPeaks_loop_Ok _ _ _ _ _ _ _ _ _ H1) as (_ & L1 & L2).
    rewrite resize_length in L1.
    repeat split; try assumption.
    + intros j c Hc. apply H2; [|exact Hc].
      assert (j < List.length (ParabolicCurvesND.curves nd))%nat
        by (apply nth_error_Some; congruence).
      lia.
    + intros j Hj. apply H3. lia.
Qed.

Lemma ParabolicCurvesND_GetPeaks_presized_witness :
  ParabolicCurvesND.ndof two_axis_curves
    = List.length (ParabolicCurvesND.curves two_axis_curves) /\
  (ParabolicCurvesND.ndof two_axis_curves <= List.length [(0 : Real); (0 : Real); (1 : Real)])%nat /\
  (forall c, In c (ParabolicCurvesND.curves two_axis_curves) ->
     exists b, ParabolicCurve.GetPeaks tolerance huge c = Ok b) /\
  exists bmin' bmax',
    ParabolicCurvesND.GetPeaks tolerance huge two_axis_curves [] [0; 0; 1]
      = Ok (bmin', bmax') /\
    List.length bmin' = ParabolicCurvesND.ndof two_axis_curves /\
    List.length bmax' = List.length [(0 : Real); (0 : Real); (1 : Real)].
Proof.
  assert (H0 : ParabolicCurvesND.ndof two_axis_curves
               = List.length (ParabolicCurvesND.curves two_axis_curves)) by reflexivity.
  assert (H1 : (ParabolicCurvesND.ndof two_axis_curves
                <= List.length [(0 : Real); (0 : Real); (1 : Real)])%nat) by (simpl; lia).
  assert (H2 : forall c, In c (ParabolicCurvesND.curves two_axis_curves) ->
                 exists b, ParabolicCurve.GetPeaks tolerance huge c = Ok b).
  { intros c [<- | [<- | []]]; eexists; vm_compute; reflexivity. }
  split; [exact H0 | split; [exact H1 | split; [exact H2 |]]].
  destruct (ParabolicCurvesND_GetPeaks_presized tolerance huge two_axis_curves
              [] [0; 0; 1] H0 H1 H2) as (bmin' & bmax' & E1 & E2 & E3 & _).
  exists bmin', bmax'. repeat split; assumption.
Defined.

(** ** ParabolicCurvesND: what construction requires *)

Lemma merge_point_needs_upper (epsilon : Real) (sps sps' : list Real) (x : Real) :
  ParabolicCurvesND.merge_point epsilon sps x = Ok sps' ->
  (forall y, In y sps -> In y sps') /\ exists y, In y sps' /\ x <= y.
Proof.
  unfold ParabolicCurvesND.merge_point. rewrite at_index_nat.
  destruct (nth_error sps (ParabolicCurvesND.lower_bound sps x)) as [y|] eqn:Hy;
    cbn [bind]; [|discriminate].
  pose proof (lower_bound_stop sps x y Hy) as Hxy.
  pose proof (nth_error_In _ _ Hy) as Hin.
  destruct (FuzzyEquals x y epsilon); intros H; apply Ok_inj in H; subst sps'.
  - split; [auto|]. exists y. auto.
  - split; [intros z Hz; apply In_insert_at; right; exact Hz|].
    exists y. split; [apply In_insert_at; right; exact Hin | exact Hxy].
Qed.

Lemma merge_points_needs_upper (epsilon : Real) (xs sps sps' : list Real) :
  ParabolicCurvesND.merge_points epsilon sps xs = Ok sps' ->
  (forall y, In y sps -> In y sps') /\
  (forall x, In x xs -> exists y, In y sps' /\ x <= y).
Proof.
  revert sps. induction xs as [|x xs IH]; intros sps H; simpl in H.
  - apply Ok_inj in H. subst sps'. split; [auto | intros x []].
  - destruct (ParabolicCurvesND.merge_point epsilon sps x) as [sps1| |] eqn:H1;
      cbn [bind] in H; try discriminate.
    apply merge_point_needs_upper in H1. destruct H1 as (A1 & y & Hy & Hxy).
    apply IH in H. destruct H as (B1 & B2). split; [auto|].
    intros z [<- | Hz]; [exists y; auto | apply B2; exact Hz].
Qed.

Lemma merge_curves_needs (epsilon : Real) (cs : list ParabolicCurve.t)
    (sps sps' : list Real) :
  ParabolicCurvesND.merge_curves epsilon sps cs = Ok sps' ->
  (forall y, In y sps -> In y sps') /\
  (forall c, In c cs ->
     (2 <= List.length (ParabolicCurve.switchpointsList c))%nat /\
     forall x, In x (interior_switchpoints c) -> exists y, In y sps' /\ x <= y).
Proof.
  revert sps. induction cs as [|c cs IH]; intros sps H; simpl in H.
  - apply Ok_inj in H. subst sps'. split; [auto | intros c []].
  - destruct (ParabolicCurvesND.merge_curve epsilon sps c) as [sps1| |] eqn:H1;
      cbn [bind] in H; try discriminate.
    unfold ParabolicCurvesND.merge_curve in H1.
    destruct (List.length (ParabolicCurve.switchpointsList c) <? 2)%nat eqn:El;
      [discriminate|].
    apply Nat.ltb_ge in El.
    apply merge_points_needs_upper in H1. fold (interior_switchpoints c) in H1.
    destruct H1 as (A1 & A2).
    apply IH in H. destruct H as (B1 & B2). split; [auto|].
    intros c' [<- | Hc'].
    + split; [exact El|]. intros x Hx. destruct (A2 x Hx) as (y & Hy & Hxy).
      exists y. auto.
    + apply B2. exact Hc'.
Qed.

(** X17.  Construction succeeds only if every curve has at least two
    switch points (so never with a curve that holds no ramp and an empty
    table), and only if every interior switch point of every curve is
    bounded above by an entry of the resulting table: otherwise an entry
    is read outside a table. *)
Theorem ParabolicCurvesND_construction_requires :
  forall (epsilon : Real) (curvesIn : list ParabolicCurve.t) (nd : ParabolicCurvesND.t),
    ParabolicCurvesND.ParabolicCurvesND epsilon curvesIn = Ok nd ->
    curvesIn <> [] /\
    ParabolicCurvesND.ndof nd = List.length curvesIn /\
    ParabolicCurvesND.curves nd = curvesIn /\
    forall c, In c curvesIn ->
      (2 <= List.length (ParabolicCurve.switchpointsList c))%nat /\
      forall x, In x (interior_switchpoints c) ->
        exists y, In y (ParabolicCurvesND.switchpointsList nd) /\ x <= y.
Proof.
  intros epsilon curvesIn nd H.
  destruct curvesIn as [|c0 rest]; [discriminate|].
  split; [discriminate|].
  unfold ParabolicCurvesND.ParabolicCurvesND in H.
  cbn [assert negb bind at_index Z.ltb Z.compare Z.to_nat nth_error tl] in H.
  destruct (ParabolicCurvesND.check_durations epsilon rest (ParabolicCurve.duration c0));
    cbn [bind] in H; try discriminate.
  destruct (ParabolicCurvesND.merge_curves epsilon (ParabolicCurve.switchpointsList c0)
              (c0 :: rest)) as [sps| |] eqn:Hm; cbn [bind] in H; try discriminate.
  apply Ok_inj in H. subst nd.
  cbn [ParabolicCurvesND.ndof ParabolicCurvesND.curves ParabolicCurvesND.switchpointsList].
  split; [reflexivity|]. split; [reflexivity|].
  apply merge_curves_needs in Hm. apply Hm.
Qed.

Lemma ParabolicCurvesND_construction_requires_witness :
  ParabolicCurvesND.ParabolicCurvesND tolerance [two_ramp_curve; rest_curve]
    = Ok (nd_of tolerance [two_ramp_curve; rest_curve]) /\
  ParabolicCurvesND.ndof (nd_of tolerance [two_ramp_curve; rest_curve])
    = List.length [two_ramp_curve; rest_curve].
Proof.
  assert (H1 : ParabolicCurvesND.ParabolicCurvesND tolerance [two_ramp_curve; rest_curve]
               = Ok (nd_of tolerance [two_ramp_curve; rest_curve]))
    by (vm_compute; reflexivity).
  split; [exact H1|].
  exact (proj1 (proj2 (ParabolicCurvesND_construction_requires tolerance _ _ H1))).
Defined.

(** A reset curve has no switch point: no object can be constructed from
    it. *)
Lemma construction_from_reset_curve :
  ParabolicCurvesND.ParabolicCurvesND tolerance [ParabolicCurve.Reset two_ramp_curve]
  = OutOfRange "curves[i].switchpointsList" 1.
Proof. reflexivity. Qed.

(** ** Worked runs of the operations above *)

(** [GetPeaks] of the two-ramp curve: the bounds of its two ramps,
    [(0, 1/2)] and [(1/2, 4)] (the upper bound of the second ramp is its
    stale [x1 = 4]), give [(0, 4)]. *)
Lemma GetPeaks_two_ramp_curve :
  ParabolicCurve.GetPeaks tolerance huge two_ramp_curve = Ok (0, Q2Qc 4).
Proof. real_compute. Qed.

(** [Initialize] on an object that already holds two axes returns
    aggregate vectors of four entries for an [ndof] of two. *)
Lemma Initialize_twice_doubles_aggregates :
  ParabolicCurvesND.Initialize tolerance two_axis_curves [one_ramp_curve; one_ramp_curve]
  = Ok (ParabolicCurvesND.mk 2 [one_ramp_curve; one_ramp_curve] 1
          [0; 0; 0; 0] [1; 1; 1; 1] [1; 1; 1; 1] [1; 1; 1; 1] [1; 1; 1; 1]
          [0; 1] 0 0).
Proof. real_compute. Qed.

(** Appending the two-axis object to itself: the duration doubles and the
    table is [0, 1, 1, 2]. *)
Lemma Append_two_axis_curves :
  exists nd,
    ParabolicCurvesND.Append two_axis_curves two_axis_curves = Ok nd /\
    ParabolicCurvesND.duration nd = Q2Qc 2 /\
    ParabolicCurvesND.switchpointsList nd = [0; 1; 1; Q2Qc 2] /\
    ParabolicCurvesND.x1Vect nd = [Q2Qc 2; Q2Qc 2] /\
    ParabolicCurvesND.dVect nd = [Q2Qc 2; Q2Qc 2].
Proof.
  eexists. split; [vm_compute; reflexivity|].
  repeat split; real_compute.
Qed.

(** A ramp duration in [[-epsilon, 0)] passes the assertion of [Ramp] and
    makes the table of its curve unsorted.  On [backward_curve] the
    bisection for the curve's own switch point [1] runs to the end of the
    table, where the first entry not less than [1] is at position [1], and
    the constructor of [ParabolicCurvesND] reads the entry behind the
    last one. *)
Lemma construction_reads_behind_unsorted_table :
  Ramp.Ramp tolerance 0 0 (- (half * tolerance)) 0
    = Ok (Ramp.fill 0 0 (- (half * tolerance)) 0) /\
  ParabolicCurvesND.lower_bound (ParabolicCurve.switchpointsList backward_curve) 1
    = 4%nat /\
  first_not_less (ParabolicCurve.switchpointsList backward_curve) 1 = 1%nat /\
  ParabolicCurvesND.ParabolicCurvesND tolerance [backward_curve]
    = OutOfRange "switchpointsList" 4.
Proof. repeat split; reflexivity. Qed.
